(** * EventCompanionBot: the stateful interaction engine

    A shallow embedding of [EventCompanionBot.py]: the SQLite tables as lists
    of rows with the constraints the schema declares, the [Database] methods
    as functions on that store, and the update handlers ([on_text],
    [on_callback], [on_contact], ...) in a small state-and-exception monad
    that also records every transport call the handler issues.

    Conventions.
    - A Python [str] is a [string]; [strip], [lower] and [splitlines] treat the
      ASCII range only (the code points below 128 that Python classifies as
      white space, upper case and line breaks).
    - An aware [datetime] is the instant it denotes, an integer number of
      microseconds; an ISO text written with [timespec="seconds"] is that
      instant with the microseconds dropped.
    - [strptime], [strftime] and the outcome of a send to a chat belong to
      the environment of one update ([Env]).  A call that answers the
      caller in the caller's own chat returns, and the bot's user name is
      known ([ensure_bot_username] finds it cached).
    - A row carries the columns the code reads or writes: the surrogate
      [id] of the tables other than [alerts], the constant [status] of a
      question and the [created_at] of an alert are left out.  A map
      coordinate is stored as received and is an integer here. *)

From Stdlib Require Import ZArith List String Ascii Bool Lia.
Import ListNotations.
Local Open Scope string_scope.
Local Open Scope Z_scope.

Set Implicit Arguments.

(** ** Python string helpers *)

Module PyStr.

(** [str.isspace] on one ASCII character: TAB..CR, FS..US and the blank. *)
Definition is_space (c : ascii) : bool :=
  let n := nat_of_ascii c in
  ((9 <=? n)%nat && (n <=? 13)%nat) || ((28 <=? n)%nat && (n <=? 32)%nat).

Fixpoint lstrip (s : string) : string :=
  match s with
  | EmptyString => EmptyString
  | String c r => if is_space c then lstrip r else s
  end.

Fixpoint rev_onto (s acc : string) : string :=
  match s with
  | EmptyString => acc
  | String c r => rev_onto r (String c acc)
  end.

Definition rev (s : string) : string := rev_onto s EmptyString.

Definition rstrip (s : string) : string := rev (lstrip (rev s)).

(** [s.strip()] *)
Definition strip (s : string) : string := rstrip (lstrip s).

Definition lower_char (c : ascii) : ascii :=
  let n := nat_of_ascii c in
  if ((65 <=? n)%nat && (n <=? 90)%nat) then ascii_of_nat (n + 32) else c.

(** [s.lower()] *)
Fixpoint lower (s : string) : string :=
  match s with
  | EmptyString => EmptyString
  | String c r => String (lower_char c) (lower r)
  end.

(** [s.lstrip(c)] for a one-character set. *)
Fixpoint lstrip_char (ch : ascii) (s : string) : string :=
  match s with
  | EmptyString => EmptyString
  | String c r => if Ascii.eqb c ch then lstrip_char ch r else s
  end.

(** [s.replace(c, "")] for a one-character pattern. *)
Fixpoint remove_char (ch : ascii) (s : string) : string :=
  match s with
  | EmptyString => EmptyString
  | String c r => if Ascii.eqb c ch then remove_char ch r else String c (remove_char ch r)
  end.

Fixpoint filter_chars (keep : ascii -> bool) (s : string) : string :=
  match s with
  | EmptyString => EmptyString
  | String c r => if keep c then String c (filter_chars keep r) else filter_chars keep r
  end.

(** [s.startswith(p)] *)
Definition startswith (p s : string) : bool := String.prefix p s.

(** Truth value of a [str]. *)
Definition truthy (s : string) : bool := negb (String.eqb s "").

(** [s.split(sep)] for a one-character separator: never empty, and
    ["a::b".split(":") = ["a"; ""; "b"]]. *)
Fixpoint split (sep : ascii) (s : string) : list string :=
  match s with
  | EmptyString => [EmptyString]
  | String c r =>
      if Ascii.eqb c sep then EmptyString :: split sep r
      else match split sep r with
           | [] => [String c EmptyString]
           | w :: ws => String c w :: ws
           end
  end.

(** [s.split(sep, 1)]: the text before the first separator and, when there is
    one, the text after it. *)
Fixpoint split1 (sep : ascii) (s : string) : string * option string :=
  match s with
  | EmptyString => (EmptyString, None)
  | String c r =>
      if Ascii.eqb c sep then (EmptyString, Some r)
      else let '(a, b) := split1 sep r in (String c a, b)
  end.

Definition is_linebreak (c : ascii) : bool :=
  let n := nat_of_ascii c in
  ((10 <=? n)%nat && (n <=? 13)%nat) || ((28 <=? n)%nat && (n <=? 30)%nat).

(** [s.splitlines()]: CR LF is one break, and a final break opens no line.
    [cur] is the current line, reversed. *)
Fixpoint splitlines_from (s cur : string) : list string :=
  match s with
  | EmptyString =>
      match cur with EmptyString => [] | _ => [rev cur] end
  | String c r =>
      if is_linebreak c then
        match r with
        | String c' r' =>
            if (Ascii.eqb c "013" && Ascii.eqb c' "010")%bool
            then rev cur :: splitlines_from r' EmptyString
            else rev cur :: splitlines_from r EmptyString
        | EmptyString => [rev cur]
        end
      else splitlines_from r (String c cur)
  end.

Definition splitlines (s : string) : list string := splitlines_from s EmptyString.

Definition is_digit (c : ascii) : bool :=
  let n := nat_of_ascii c in ((48 <=? n)%nat && (n <=? 57)%nat).

Fixpoint digits_value (s : string) (acc : Z) : option Z :=
  match s with
  | EmptyString => Some acc
  | String c r =>
      if is_digit c
      then digits_value r (10 * acc + Z.of_nat (nat_of_ascii c - 48))
      else None
  end.

(** [int(s)] on a decimal literal: an optional sign and ASCII digits, white
    space around them allowed (no underscores); [None] stands for
    [ValueError]. *)
Definition int (s : string) : option Z :=
  match strip s with
  | EmptyString => None
  | String "-" (String c r) => option_map Z.opp (digits_value (String c r) 0)
  | String "+" (String c r) => digits_value (String c r) 0
  | String c r => digits_value (String c r) 0
  end.

(** [html_escape] of the source. *)
Fixpoint html_escape (s : string) : string :=
  match s with
  | EmptyString => EmptyString
  | String c r =>
      (if Ascii.eqb c "&" then "&amp;"
       else if Ascii.eqb c "<" then "&lt;"
       else if Ascii.eqb c ">" then "&gt;"
       else String c EmptyString) ++ html_escape r
  end.

End PyStr.

(** ** The store: one list of rows per table *)

Inductive exn := IntegrityError | ValueError | TypeError.

Inductive Res (A : Type) : Type :=
| Ok (a : A)
| Raise (e : exn).

Arguments Ok {A} a.
Arguments Raise {A} e.

(** Python's [a or b] on optional strings ([None] and [""] are false). *)
Definition py_or (a b : option string) : option string :=
  match a with
  | Some s => if PyStr.truthy s then a else b
  | None => b
  end.

(** Truth value of an optional string. *)
Definition py_true (a : option string) : bool :=
  match a with
  | Some s => PyStr.truthy s
  | None => false
  end.

(** SQL [COALESCE(a, b)]. *)
Definition coalesce {A : Type} (a b : option A) : option A :=
  match a with
  | Some _ => a
  | None => b
  end.

(** [dt.isoformat(timespec="seconds")] read back by [fromisoformat]: the
    instant with its microseconds dropped. *)
Definition isoformat_seconds (t : Z) : Z := 1000000 * (t / 1000000).

(** [timedelta(minutes=m)] in microseconds. *)
Definition minutes (m : Z) : Z := m * 60000000.

Definition norm_username (u : option string) : option string :=
  match u with
  | None => None
  | Some s =>
      if PyStr.truthy s then
        let r := PyStr.lower (PyStr.strip (PyStr.lstrip_char "@" s)) in
        if PyStr.truthy r then Some r else None
      else None
  end.

Definition norm_phone (p : option string) : option string :=
  match p with
  | None => None
  | Some s =>
      if PyStr.truthy s then
        let p1 := PyStr.remove_char "-" (PyStr.remove_char " " (PyStr.strip s)) in
        let p2 := PyStr.filter_chars (fun c => PyStr.is_digit c || Ascii.eqb c "+") p1 in
        if PyStr.truthy p2 then Some p2 else None
      else None
  end.

(** The step payload kept in [user_state.payload_json]: the keys the
    handlers read and write, each present or absent. *)
Record Payload : Type := {
  pl_event_id : option string;
  pl_src : option string;
  pl_full_name : option string;
  pl_phone_number : option string;
  pl_rating : option Z
}.

Definition empty_payload : Payload :=
  {| pl_event_id := None; pl_src := None; pl_full_name := None;
     pl_phone_number := None; pl_rating := None |}.

Record event_row : Type := {
  ev_event_id : string;
  ev_event_name : string;
  ev_admin_id : Z;
  ev_created_at : Z
}.

Record content_row : Type := {
  ec_event_id : string;
  agenda : option string;
  wifi_ssid : option string;
  wifi_password : option string;
  organizer_name : option string;
  organizer_phone : option string;
  organizer_email : option string;
  organizer_telegram : option string;
  event_time : option Z;
  event_location : option string;
  loc_lat : option Z;
  loc_lon : option Z
}.

Record participant_row : Type := {
  p_event_id : string;
  p_telegram_id : Z;
  username : option string;
  first_name : option string;
  last_name : option string;
  full_name : option string;
  phone_number : option string;
  company_name : option string;
  registered_at : Z
}.

Record photo_row : Type := {
  ph_event_id : string;
  file_id : string;
  caption : option string;
  uploaded_at : Z
}.

Record question_row : Type := {
  q_event_id : string;
  sender_telegram_id : Z;
  question_text : string;
  q_created_at : Z
}.

Record feedback_row : Type := {
  f_event_id : string;
  f_telegram_id : Z;
  rating : Z;
  comment : option string;
  f_created_at : Z
}.

Record state_row : Type := {
  us_telegram_id : Z;
  state : string;
  payload_json : Payload;
  us_updated_at : Z
}.

Record context_row : Type := {
  uc_telegram_id : Z;
  current_event_id : string;
  uc_updated_at : Z
}.

Inductive alert_status := scheduled | sent.

Record alert_row : Type := {
  al_id : Z;
  al_event_id : string;
  run_at_iso : Z;
  minutes_before : Z;
  created_by : Z;
  al_status : alert_status
}.

Record DB : Type := {
  events : list event_row;
  event_content : list content_row;
  participants : list participant_row;
  photos : list photo_row;
  anonymous_questions : list question_row;
  feedback : list feedback_row;
  user_state : list state_row;
  user_context : list context_row;
  alerts : list alert_row;
  (** [sqlite_sequence] of the AUTOINCREMENT key of [alerts] *)
  alerts_seq : Z
}.

Definition empty_db : DB :=
  {| events := []; event_content := []; participants := []; photos := [];
     anonymous_questions := []; feedback := []; user_state := [];
     user_context := []; alerts := []; alerts_seq := 0 |}.

(** [UPDATE t SET ... WHERE p] and [DELETE FROM t WHERE p]. *)
Definition sql_update {R : Type} (p : R -> bool) (f : R -> R) (t : list R) : list R :=
  map (fun r => if p r then f r else r) t.

Definition sql_delete {R : Type} (p : R -> bool) (t : list R) : list R :=
  filter (fun r => negb (p r)) t.

(** [SELECT ... WHERE p] followed by [fetchone()]. *)
Definition fetchone {R : Type} (p : R -> bool) (t : list R) : option R :=
  find p t.

(** ** class Database

    Every method runs in a connection of its own ([with conn:] commits on
    return and rolls back on an exception), so a method either yields the new
    store or raises and leaves the store as it was.  Foreign keys are
    enforced ([PRAGMA foreign_keys=ON]): inserting a child row of a missing
    event raises, and deleting an event deletes its child rows. *)

Module Database.

Definition with_events (v : list event_row) (db : DB) : DB :=
  {| events := v; event_content := event_content db; participants := participants db;
     photos := photos db; anonymous_questions := anonymous_questions db;
     feedback := feedback db; user_state := user_state db;
     user_context := user_context db; alerts := alerts db; alerts_seq := alerts_seq db |}.

Definition with_event_content (v : list content_row) (db : DB) : DB :=
  {| events := events db; event_content := v; participants := participants db;
     photos := photos db; anonymous_questions := anonymous_questions db;
     feedback := feedback db; user_state := user_state db;
     user_context := user_context db; alerts := alerts db; alerts_seq := alerts_seq db |}.

Definition with_participants (v : list participant_row) (db : DB) : DB :=
  {| events := events db; event_content := event_content db; participants := v;
     photos := photos db; anonymous_questions := anonymous_questions db;
     feedback := feedback db; user_state := user_state db;
     user_context := user_context db; alerts := alerts db; alerts_seq := alerts_seq db |}.

Definition with_photos (v : list photo_row) (db : DB) : DB :=
  {| events := events db; event_content := event_content db; participants := participants db;
     photos := v; anonymous_questions := anonymous_questions db;
     feedback := feedback db; user_state := user_state db;
     user_context := user_context db; alerts := alerts db; alerts_seq := alerts_seq db |}.

Definition with_anonymous_questions (v : list question_row) (db : DB) : DB :=
  {| events := events db; event_content := event_content db; participants := participants db;
     photos := photos db; anonymous_questions := v;
     feedback := feedback db; user_state := user_state db;
     user_context := user_context db; alerts := alerts db; alerts_seq := alerts_seq db |}.

Definition with_feedback (v : list feedback_row) (db : DB) : DB :=
  {| events := events db; event_content := event_content db; participants := participants db;
     photos := photos db; anonymous_questions := anonymous_questions db;
     feedback := v; user_state := user_state db;
     user_context := user_context db; alerts := alerts db; alerts_seq := alerts_seq db |}.

Definition with_user_state (v : list state_row) (db : DB) : DB :=
  {| events := events db; event_content := event_content db; participants := participants db;
     photos := photos db; anonymous_questions := anonymous_questions db;
     feedback := feedback db; user_state := v;
     user_context := user_context db; alerts := alerts db; alerts_seq := alerts_seq db |}.

Definition with_user_context (v : list context_row) (db : DB) : DB :=
  {| events := events db; event_content := event_content db; participants := participants db;
     photos := photos db; anonymous_questions := anonymous_questions db;
     feedback := feedback db; user_state := user_state db;
     user_context := v; alerts := alerts db; alerts_seq := alerts_seq db |}.

Definition with_alerts (v : list alert_row) (seq : Z) (db : DB) : DB :=
  {| events := events db; event_content := event_content db; participants := participants db;
     photos := photos db; anonymous_questions := anonymous_questions db;
     feedback := feedback db; user_state := user_state db;
     user_context := user_context db; alerts := v; alerts_seq := seq |}.

(** *** Events *)

Definition is_event (event_id : string) (r : event_row) : bool :=
  String.eqb (ev_event_id r) event_id.

Definition event_exists (event_id : string) (db : DB) : bool :=
  existsb (is_event event_id) (events db).

Definition empty_content (event_id : string) : content_row :=
  {| ec_event_id := event_id; agenda := None; wifi_ssid := None; wifi_password := None;
     organizer_name := None; organizer_phone := None; organizer_email := None;
     organizer_telegram := None; event_time := None; event_location := None;
     loc_lat := None; loc_lon := None |}.

Definition is_content (event_id : string) (r : content_row) : bool :=
  String.eqb (ec_event_id r) event_id.

(** [INSERT INTO events] (the primary key raises on a duplicate), then
    [INSERT OR IGNORE INTO event_content]. *)
Definition create_event (now : Z) (event_id : string) (admin_id : Z) (event_name : string)
    (db : DB) : Res DB :=
  if event_exists event_id db then Raise IntegrityError
  else
    let ev := {| ev_event_id := event_id; ev_event_name := event_name;
                 ev_admin_id := admin_id; ev_created_at := isoformat_seconds now |} in
    let content :=
      if existsb (is_content event_id) (event_content db) then event_content db
      else (event_content db ++ [empty_content event_id])%list in
    Ok (with_event_content content (with_events (events db ++ [ev])%list db)).

(** [DELETE FROM events WHERE event_id=?] with [ON DELETE CASCADE] on the six
    child tables; [user_state] and [user_context] hold no foreign key. *)
Definition delete_event (event_id : string) (db : DB) : DB :=
  if event_exists event_id db then
    {| events := sql_delete (is_event event_id) (events db);
       event_content := sql_delete (is_content event_id) (event_content db);
       participants := sql_delete (fun r => String.eqb (p_event_id r) event_id) (participants db);
       photos := sql_delete (fun r => String.eqb (ph_event_id r) event_id) (photos db);
       anonymous_questions :=
         sql_delete (fun r => String.eqb (q_event_id r) event_id) (anonymous_questions db);
       feedback := sql_delete (fun r => String.eqb (f_event_id r) event_id) (feedback db);
       user_state := user_state db;
       user_context := user_context db;
       alerts := sql_delete (fun r => String.eqb (al_event_id r) event_id) (alerts db);
       alerts_seq := alerts_seq db |}
  else db.

(** The row as the dict [get_event] builds: an empty name is shown as
    ["Event " + event_id[:8]]. *)
Definition get_event (event_id : string) (db : DB) : option event_row :=
  match fetchone (is_event event_id) (events db) with
  | None => None
  | Some r =>
      Some {| ev_event_id := ev_event_id r;
              ev_event_name :=
                if PyStr.truthy (ev_event_name r) then ev_event_name r
                else "Event " ++ String.substring 0 8 (ev_event_id r);
              ev_admin_id := ev_admin_id r;
              ev_created_at := ev_created_at r |}
  end.

Definition is_admin (event_id : string) (user_id : Z) (db : DB) : bool :=
  match fetchone (is_event event_id) (events db) with
  | None => false
  | Some r => Z.eqb (ev_admin_id r) user_id
  end.

(** *** Event content *)

(** [None] is the empty dict of the source: every [.get] on it is [None]. *)
Definition get_event_content (event_id : string) (db : DB) : option content_row :=
  fetchone (is_content event_id) (event_content db).

Definition content_get {A : Type} (f : content_row -> option A) (c : option content_row)
    : option A :=
  match c with
  | None => None
  | Some r => f r
  end.

Definition update_content (event_id : string) (f : content_row -> content_row) (db : DB) : DB :=
  with_event_content (sql_update (is_content event_id) f (event_content db)) db.

Definition set_agenda (event_id : string) (a : string) : DB -> DB :=
  update_content event_id (fun r =>
    {| ec_event_id := ec_event_id r; agenda := Some a; wifi_ssid := wifi_ssid r;
       wifi_password := wifi_password r; organizer_name := organizer_name r;
       organizer_phone := organizer_phone r; organizer_email := organizer_email r;
       organizer_telegram := organizer_telegram r; event_time := event_time r;
       event_location := event_location r; loc_lat := loc_lat r; loc_lon := loc_lon r |}).

Definition set_wifi (event_id : string) (ssid password : string) : DB -> DB :=
  update_content event_id (fun r =>
    {| ec_event_id := ec_event_id r; agenda := agenda r; wifi_ssid := Some ssid;
       wifi_password := Some password; organizer_name := organizer_name r;
       organizer_phone := organizer_phone r; organizer_email := organizer_email r;
       organizer_telegram := organizer_telegram r; event_time := event_time r;
       event_location := event_location r; loc_lat := loc_lat r; loc_lon := loc_lon r |}).

Definition set_organizer_info (event_id : string) (name phone email tg : string) : DB -> DB :=
  update_content event_id (fun r =>
    {| ec_event_id := ec_event_id r; agenda := agenda r; wifi_ssid := wifi_ssid r;
       wifi_password := wifi_password r; organizer_name := Some name;
       organizer_phone := Some phone; organizer_email := Some email;
       organizer_telegram := Some tg; event_time := event_time r;
       event_location := event_location r; loc_lat := loc_lat r; loc_lon := loc_lon r |}).

Definition set_time (event_id : string) (event_time_iso : option Z) : DB -> DB :=
  update_content event_id (fun r =>
    {| ec_event_id := ec_event_id r; agenda := agenda r; wifi_ssid := wifi_ssid r;
       wifi_password := wifi_password r; organizer_name := organizer_name r;
       organizer_phone := organizer_phone r; organizer_email := organizer_email r;
       organizer_telegram := organizer_telegram r; event_time := event_time_iso;
       event_location := event_location r; loc_lat := loc_lat r; loc_lon := loc_lon r |}).

Definition set_location (event_id : string) (location : option string) : DB -> DB :=
  update_content event_id (fun r =>
    {| ec_event_id := ec_event_id r; agenda := agenda r; wifi_ssid := wifi_ssid r;
       wifi_password := wifi_password r; organizer_name := organizer_name r;
       organizer_phone := organizer_phone r; organizer_email := organizer_email r;
       organizer_telegram := organizer_telegram r; event_time := event_time r;
       event_location := location; loc_lat := loc_lat r; loc_lon := loc_lon r |}).

Definition set_map_pin (event_id : string) (lat lon : Z) : DB -> DB :=
  update_content event_id (fun r =>
    {| ec_event_id := ec_event_id r; agenda := agenda r; wifi_ssid := wifi_ssid r;
       wifi_password := wifi_password r; organizer_name := organizer_name r;
       organizer_phone := organizer_phone r; organizer_email := organizer_email r;
       organizer_telegram := organizer_telegram r; event_time := event_time r;
       event_location := event_location r; loc_lat := Some lat; loc_lon := Some lon |}).

Definition clear_map_pin (event_id : string) : DB -> DB :=
  update_content event_id (fun r =>
    {| ec_event_id := ec_event_id r; agenda := agenda r; wifi_ssid := wifi_ssid r;
       wifi_password := wifi_password r; organizer_name := organizer_name r;
       organizer_phone := organizer_phone r; organizer_email := organizer_email r;
       organizer_telegram := organizer_telegram r; event_time := event_time r;
       event_location := event_location r; loc_lat := None; loc_lon := None |}).

(** *** Participants: [UNIQUE(event_id, telegram_id)] *)

Definition is_participant (event_id : string) (telegram_id : Z) (r : participant_row) : bool :=
  String.eqb (p_event_id r) event_id && Z.eqb (p_telegram_id r) telegram_id.

Definition stub_row (now : Z) (event_id : string) (telegram_id : Z)
    (uname fname lname : option string) : participant_row :=
  {| p_event_id := event_id; p_telegram_id := telegram_id;
     username := uname; first_name := fname; last_name := lname;
     full_name := None; phone_number := None; company_name := None;
     registered_at := isoformat_seconds now |}.

Definition coalesce_identity (uname fname lname : option string) (r : participant_row)
    : participant_row :=
  {| p_event_id := p_event_id r; p_telegram_id := p_telegram_id r;
     username := coalesce uname (username r);
     first_name := coalesce fname (first_name r);
     last_name := coalesce lname (last_name r);
     full_name := full_name r; phone_number := phone_number r;
     company_name := company_name r; registered_at := registered_at r |}.

(** [INSERT OR IGNORE] (ignored on the unique key, raising on a missing
    event), then the [UPDATE ... COALESCE] of the identity columns. *)
Definition ensure_participant_stub (now : Z) (event_id : string) (telegram_id : Z)
    (uname fname lname : option string) (db : DB) : Res DB :=
  let uname := norm_username uname in
  let inserted : Res (list participant_row) :=
    if existsb (is_participant event_id telegram_id) (participants db)
    then Ok (participants db)
    else if event_exists event_id db
    then Ok (participants db ++ [stub_row now event_id telegram_id uname fname lname])%list
    else Raise IntegrityError in
  match inserted with
  | Raise e => Raise e
  | Ok t =>
      Ok (with_participants
            (sql_update (is_participant event_id telegram_id)
               (coalesce_identity uname fname lname) t) db)
  end.

(** [bool((x or "").strip())] *)
Definition nonblank (x : option string) : bool :=
  PyStr.truthy (PyStr.strip (match x with Some s => s | None => "" end)).

Definition has_full_registration (event_id : string) (telegram_id : Z) (db : DB) : bool :=
  match fetchone (is_participant event_id telegram_id) (participants db) with
  | None => false
  | Some r => nonblank (full_name r) && nonblank (phone_number r) && nonblank (company_name r)
  end.

Definition set_registration_info (event_id : string) (telegram_id : Z)
    (fname phone company : string) (db : DB) : DB :=
  with_participants
    (sql_update (is_participant event_id telegram_id)
       (fun r =>
          {| p_event_id := p_event_id r; p_telegram_id := p_telegram_id r;
             username := username r; first_name := first_name r; last_name := last_name r;
             full_name := Some (PyStr.strip fname);
             phone_number := norm_phone (Some phone);
             company_name := Some (PyStr.strip company);
             registered_at := registered_at r |})
       (participants db)) db.

Definition list_members (event_id : string) (db : DB) : list participant_row :=
  filter (fun r => String.eqb (p_event_id r) event_id) (participants db).

Definition leave_event (event_id : string) (telegram_id : Z) (db : DB) : DB :=
  with_participants (sql_delete (is_participant event_id telegram_id) (participants db)) db.

(** The column is never NULL: the only insert writes the caller's id. *)
Definition get_participant_telegram_ids (event_id : string) (db : DB) : list Z :=
  map p_telegram_id (filter (fun r => String.eqb (p_event_id r) event_id) (participants db)).

(** *** Photos and anonymous questions (append only) *)

Definition add_photo (now : Z) (event_id : string) (fid : string) (cap : option string)
    (db : DB) : Res DB :=
  if event_exists event_id db then
    Ok (with_photos
          (photos db ++ [{| ph_event_id := event_id; file_id := fid; caption := cap;
                            uploaded_at := isoformat_seconds now |}])%list db)
  else Raise IntegrityError.

Definition get_photos (event_id : string) (db : DB) : list photo_row :=
  filter (fun r => String.eqb (ph_event_id r) event_id) (photos db).

Definition add_question (now : Z) (event_id : string) (sender_id : Z) (text : string)
    (db : DB) : Res DB :=
  if event_exists event_id db then
    Ok (with_anonymous_questions
          (anonymous_questions db ++
             [{| q_event_id := event_id; sender_telegram_id := sender_id;
                 question_text := text; q_created_at := isoformat_seconds now |}])%list db)
  else Raise IntegrityError.

Definition list_questions (event_id : string) (db : DB) : list question_row :=
  filter (fun r => String.eqb (q_event_id r) event_id) (anonymous_questions db).

(** *** Feedback: [UNIQUE(event_id, telegram_id)] *)

Definition is_feedback (event_id : string) (telegram_id : Z) (r : feedback_row) : bool :=
  String.eqb (f_event_id r) event_id && Z.eqb (f_telegram_id r) telegram_id.

Definition get_feedback (event_id : string) (telegram_id : Z) (db : DB) : option feedback_row :=
  fetchone (is_feedback event_id telegram_id) (feedback db).

(** [INSERT ... ON CONFLICT(event_id, telegram_id) DO UPDATE SET
    rating=excluded.rating, comment=COALESCE(excluded.comment, feedback.comment),
    created_at=excluded.created_at]. *)
Definition set_feedback (now : Z) (event_id : string) (telegram_id : Z) (new_rating : Z)
    (new_comment : option string) (db : DB) : Res DB :=
  if existsb (is_feedback event_id telegram_id) (feedback db) then
    Ok (with_feedback
          (sql_update (is_feedback event_id telegram_id)
             (fun r =>
                {| f_event_id := f_event_id r; f_telegram_id := f_telegram_id r;
                   rating := new_rating;
                   comment := coalesce new_comment (comment r);
                   f_created_at := isoformat_seconds now |})
             (feedback db)) db)
  else if event_exists event_id db then
    Ok (with_feedback
          (feedback db ++
             [{| f_event_id := event_id; f_telegram_id := telegram_id; rating := new_rating;
                 comment := new_comment; f_created_at := isoformat_seconds now |}])%list db)
  else Raise IntegrityError.

(** *** State persistence: [user_state.telegram_id] is the primary key *)

Definition is_state_of (telegram_id : Z) (r : state_row) : bool :=
  Z.eqb (us_telegram_id r) telegram_id.

Definition set_user_state (now : Z) (telegram_id : Z) (st : option string)
    (payload : option Payload) (db : DB) : DB :=
  let pj := match payload with Some p => p | None => empty_payload end in
  match st with
  | None => with_user_state (sql_delete (is_state_of telegram_id) (user_state db)) db
  | Some s =>
      let row := {| us_telegram_id := telegram_id; state := s; payload_json := pj;
                    us_updated_at := isoformat_seconds now |} in
      if existsb (is_state_of telegram_id) (user_state db)
      then with_user_state (sql_update (is_state_of telegram_id) (fun _ => row) (user_state db)) db
      else with_user_state (user_state db ++ [row])%list db
  end.

Definition get_user_state (telegram_id : Z) (db : DB) : option string * Payload :=
  match fetchone (is_state_of telegram_id) (user_state db) with
  | None => (None, empty_payload)
  | Some r => (Some (state r), payload_json r)
  end.

Definition clear_user_state (now : Z) (telegram_id : Z) : DB -> DB :=
  set_user_state now telegram_id None None.

Definition is_context_of (telegram_id : Z) (r : context_row) : bool :=
  Z.eqb (uc_telegram_id r) telegram_id.

Definition set_current_event (now : Z) (telegram_id : Z) (event_id : option string)
    (db : DB) : DB :=
  match event_id with
  | None => with_user_context (sql_delete (is_context_of telegram_id) (user_context db)) db
  | Some e =>
      let row := {| uc_telegram_id := telegram_id; current_event_id := e;
                    uc_updated_at := isoformat_seconds now |} in
      if existsb (is_context_of telegram_id) (user_context db)
      then with_user_context
             (sql_update (is_context_of telegram_id) (fun _ => row) (user_context db)) db
      else with_user_context (user_context db ++ [row])%list db
  end.

(** [row[0] if row and row[0] else None] *)
Definition get_current_event (telegram_id : Z) (db : DB) : option string :=
  match fetchone (is_context_of telegram_id) (user_context db) with
  | None => None
  | Some r => if PyStr.truthy (current_event_id r) then Some (current_event_id r) else None
  end.

(** *** Alerts: [id INTEGER PRIMARY KEY AUTOINCREMENT] *)

(** The next AUTOINCREMENT key: one more than the largest key ever used. *)
Definition next_alert_id (db : DB) : Z :=
  1 + fold_right Z.max (alerts_seq db) (map al_id (alerts db)).

(** Returns [cur.lastrowid] with the new store. *)
Definition add_alert (event_id : string) (run_at : Z) (mins : Z) (by_user : Z)
    (db : DB) : Res (Z * DB) :=
  if event_exists event_id db then
    let i := next_alert_id db in
    Ok (i, with_alerts
             (alerts db ++ [{| al_id := i; al_event_id := event_id; run_at_iso := run_at;
                               minutes_before := mins; created_by := by_user;
                               al_status := scheduled |}])%list i db)
  else Raise IntegrityError.

Definition is_scheduled (r : alert_row) : bool :=
  match al_status r with scheduled => true | sent => false end.

(** [SELECT ... FROM alerts WHERE status='scheduled'] *)
Definition list_future_alerts (db : DB) : list alert_row :=
  filter is_scheduled (alerts db).

Definition mark_alert_sent (alert_id : Z) (db : DB) : DB :=
  with_alerts
    (sql_update (fun r => Z.eqb (al_id r) alert_id)
       (fun r => {| al_id := al_id r; al_event_id := al_event_id r; run_at_iso := run_at_iso r;
                    minutes_before := minutes_before r; created_by := created_by r;
                    al_status := sent |})
       (alerts db)) (alerts_seq db) db.

End Database.

(** ** Updates, transport calls and the handler monad *)

(** [update.effective_user] *)
Record User : Type := {
  id : Z;
  user_username : option string;
  user_first_name : option string;
  user_last_name : option string
}.

(** What one update sees of the world outside the store. *)
Record Env : Type := {
  (** [datetime.now(tz=APP_TZ)] *)
  now : Z;
  (** [secrets.token_urlsafe(8)] *)
  token_urlsafe : string;
  (** [datetime.strptime(text, "%Y-%m-%d %H:%M").replace(tzinfo=APP_TZ)],
      [None] when it raises *)
  strptime : string -> option Z;
  (** [dt.astimezone(APP_TZ).strftime("%Y-%m-%d %H:%M")] *)
  strftime : Z -> string;
  (** [cmd("cancel")] of the loaded UI strings *)
  cancel_command : string;
  (** whether [context.bot.send_message] / [send_photo] to this chat returns
      ([true]) or raises ([false]) *)
  delivers : Z -> bool
}.

Inductive arg := AStr (s : string) | AInt (n : Z).

(** [txt(key, **kwargs)]: the key of the UI text and the arguments that
    carry data; titles and keyboards are presentation. *)
Record ui_text : Type := { ui_key : string; ui_args : list (string * arg) }.

Definition txt (key : string) : ui_text := {| ui_key := key; ui_args := [] |}.

(** The transport calls a handler issues, in order.  The first three
    answer the caller in the caller's own chat; [bot_send_message] and
    [bot_send_photo] are the deliveries to another chat, with their outcome. *)
Inductive output :=
| reply_text (t : ui_text)
| safe_edit_or_send (t : ui_text)
| chat_send_message (t : ui_text)
| bot_send_message (chat_id : Z) (text : string) (delivered : bool)
| bot_send_photo (chat_id : Z) (photo : string) (cap : string) (delivered : bool)
| chat_send_media (files : list string)
| sleep.

(** A job of the application's [JobQueue], armed by [run_once]. *)
Record job : Type := {
  job_alert_id : Z;
  job_event_id : string;
  job_when : Z
}.

Record World : Type := {
  w_db : DB;
  w_jobs : list job;
  w_out : list output
}.

Definition H (A : Type) : Type := Env -> World -> Res A * World.

Definition ret {A : Type} (a : A) : H A := fun _ w => (Ok a, w).

Definition bind {A B : Type} (m : H A) (k : A -> H B) : H B :=
  fun env w =>
    match m env w with
    | (Ok a, w') => k a env w'
    | (Raise e, w') => (Raise e, w')
    end.

Definition raise {A : Type} (e : exn) : H A := fun _ w => (Raise e, w).

Definition ask : H Env := fun env w => (Ok env, w).

Definition query {A : Type} (f : DB -> A) : H A := fun _ w => (Ok (f (w_db w)), w).

Definition put_db (d : DB) (w : World) : World :=
  {| w_db := d; w_jobs := w_jobs w; w_out := w_out w |}.

Definition update (f : DB -> DB) : H unit := fun _ w => (Ok tt, put_db (f (w_db w)) w).

Definition attempt (f : DB -> Res DB) : H unit :=
  fun _ w =>
    match f (w_db w) with
    | Ok d => (Ok tt, put_db d w)
    | Raise e => (Raise e, w)
    end.

Definition emit (o : output) : H unit :=
  fun _ w => (Ok tt, {| w_db := w_db w; w_jobs := w_jobs w; w_out := (w_out w ++ [o])%list |}).

Declare Scope handler_scope.
Delimit Scope handler_scope with handler.
Bind Scope handler_scope with H.

Notation "x <- m ;; k" := (bind m (fun x => k))
  (at level 61, m at next level, right associativity) : handler_scope.
Notation "m ;; k" := (bind m (fun _ => k))
  (at level 61, right associativity) : handler_scope.

Local Open Scope handler_scope.

(** The world after a handler, and what it returned. *)
Definition run {A : Type} (m : H A) (env : Env) (w : World) : World := snd (m env w).
Definition result {A : Type} (m : H A) (env : Env) (w : World) : Res A := fst (m env w).

(** *** [db = Database(DB_FILE)]

    An event id that is [None] in Python reaches SQL as NULL: a [WHERE
    event_id=NULL] selects no row, and an insert of it violates NOT NULL. *)

Module db.

Definition sel {A : Type} (none : A) (f : string -> DB -> A) (e : option string) : H A :=
  query (fun d => match e with Some s => f s d | None => none end).

Definition upd (f : string -> DB -> DB) (e : option string) : H unit :=
  match e with Some s => update (f s) | None => ret tt end.

Definition ins (f : string -> DB -> Res DB) (e : option string) : H unit :=
  match e with Some s => attempt (f s) | None => raise IntegrityError end.

Definition event_exists (e : option string) : H bool :=
  sel false Database.event_exists e.

Definition get_event (e : option string) : H (option event_row) :=
  sel None Database.get_event e.

Definition is_admin (e : option string) (user_id : Z) : H bool :=
  sel false (fun s => Database.is_admin s user_id) e.

Definition get_event_content (e : option string) : H (option content_row) :=
  sel None Database.get_event_content e.

Definition create_event (event_id : string) (admin_id : Z) (name : string) : H unit :=
  env <- ask ;; attempt (Database.create_event (now env) event_id admin_id name).

Definition delete_event (e : option string) : H unit := upd Database.delete_event e.

Definition set_agenda (e : option string) (a : string) : H unit :=
  upd (fun s => Database.set_agenda s a) e.

Definition set_wifi (e : option string) (ssid pwd : string) : H unit :=
  upd (fun s => Database.set_wifi s ssid pwd) e.

Definition set_organizer_info (e : option string) (name phone email tg : string) : H unit :=
  upd (fun s => Database.set_organizer_info s name phone email tg) e.

Definition set_time (e : option string) (t : option Z) : H unit :=
  upd (fun s => Database.set_time s t) e.

Definition set_location (e : option string) (l : option string) : H unit :=
  upd (fun s => Database.set_location s l) e.

Definition set_map_pin (e : option string) (lat lon : Z) : H unit :=
  upd (fun s => Database.set_map_pin s lat lon) e.

Definition clear_map_pin (e : option string) : H unit := upd Database.clear_map_pin e.

Definition ensure_participant_stub (e : option string) (u : User) : H unit :=
  env <- ask ;;
  ins (fun s => Database.ensure_participant_stub (now env) s (id u)
                  (user_username u) (user_first_name u) (user_last_name u)) e.

Definition has_full_registration (e : option string) (user_id : Z) : H bool :=
  sel false (fun s => Database.has_full_registration s user_id) e.

Definition set_registration_info (e : option string) (user_id : Z)
    (fname phone company : string) : H unit :=
  upd (fun s => Database.set_registration_info s user_id fname phone company) e.

Definition list_members (e : option string) : H (list participant_row) :=
  sel [] Database.list_members e.

Definition leave_event (e : option string) (user_id : Z) : H unit :=
  upd (fun s => Database.leave_event s user_id) e.

Definition get_participant_telegram_ids (e : option string) : H (list Z) :=
  sel [] Database.get_participant_telegram_ids e.

Definition add_photo (e : option string) (fid : string) (cap : option string) : H unit :=
  env <- ask ;; ins (fun s => Database.add_photo (now env) s fid cap) e.

Definition get_photos (e : option string) : H (list photo_row) :=
  sel [] Database.get_photos e.

Definition add_question (e : option string) (sender : Z) (text : string) : H unit :=
  env <- ask ;; ins (fun s => Database.add_question (now env) s sender text) e.

Definition list_questions (e : option string) : H (list question_row) :=
  sel [] Database.list_questions e.

Definition set_feedback (e : option string) (user_id : Z) (r : Z) (c : option string) : H unit :=
  env <- ask ;; ins (fun s => Database.set_feedback (now env) s user_id r c) e.

Definition set_user_state (user_id : Z) (st : option string) (p : option Payload) : H unit :=
  env <- ask ;; update (Database.set_user_state (now env) user_id st p).

Definition get_user_state (user_id : Z) : H (option string * Payload) :=
  query (Database.get_user_state user_id).

Definition clear_user_state (user_id : Z) : H unit := set_user_state user_id None None.

Definition set_current_event (user_id : Z) (e : option string) : H unit :=
  env <- ask ;; update (Database.set_current_event (now env) user_id e).

Definition get_current_event (user_id : Z) : H (option string) :=
  query (Database.get_current_event user_id).

Definition add_alert (e : string) (run_at : Z) (mins : Z) (by_user : Z) : H Z :=
  fun _ w =>
    match Database.add_alert e run_at mins by_user (w_db w) with
    | Ok (i, d) => (Ok i, put_db d w)
    | Raise x => (Raise x, w)
    end.

Definition list_future_alerts : H (list alert_row) := query Database.list_future_alerts.

Definition mark_alert_sent (alert_id : Z) : H unit :=
  update (Database.mark_alert_sent alert_id).

End db.

(** ** Rendering, menus, broadcast and alerts *)

Definition show (o : ui_text -> output) (key : string) : H unit := emit (o (txt key)).

Definition show_with (o : ui_text -> output) (key : string) (args : list (string * arg))
    : H unit :=
  emit (o {| ui_key := key; ui_args := args |}).

Definition set_current_event_id (user_id : Z) (event_id : option string) : H unit :=
  db.set_current_event user_id event_id.

Definition state_is (name : string) (st : option string) : bool :=
  match st with
  | Some s => String.eqb s name
  | None => false
  end.

Definition payload_for (event_id : string) : Payload :=
  {| pl_event_id := Some event_id; pl_src := None; pl_full_name := None;
     pl_phone_number := None; pl_rating := None |}.

Definition show_event_menu (user : User) (event_id : option string) (src : string) : H unit :=
  event <- db.get_event event_id ;;
  match event with
  | None => show safe_edit_or_send "event_not_found"
  | Some ev =>
      set_current_event_id (id user) event_id ;;
      adm <- db.is_admin event_id (id user) ;;
      show_with safe_edit_or_send "entered_event"
        [("title", AStr (PyStr.html_escape (ev_event_name ev)));
         ("role", AStr (if adm then "Organizer" else "Participant"))]
  end.

(** [[pid for pid in ids if pid and pid != admin_id]] *)
Definition recipients (admin : Z) (ids : list Z) : list Z :=
  filter (fun pid => negb (Z.eqb pid 0) && negb (Z.eqb pid admin)) ids.

(** [l[i : i + size] for i in range(0, len(l), size)] *)
Fixpoint batches_fuel {A : Type} (fuel : nat) (size : nat) (l : list A) : list (list A) :=
  match fuel with
  | O => []
  | S f =>
      match l with
      | [] => []
      | _ => firstn size l :: batches_fuel f size (skipn size l)
      end
  end.

Definition batches {A : Type} (size : nat) (l : list A) : list (list A) :=
  batches_fuel (List.length l) size l.

(** One pass of the inner [try] of the fan-out: the send is issued, and its
    outcome moves one of the two counters. *)
Definition deliver (photo_file_id : option string) (final_text : string) (pid : Z)
    (acc : Z * Z) : H (Z * Z) :=
  env <- ask ;;
  let ok := delivers env pid in
  emit (if py_true photo_file_id
        then bot_send_photo pid (match photo_file_id with Some f => f | None => "" end)
               final_text ok
        else bot_send_message pid final_text ok) ;;
  ret (if ok then (fst acc + 1, snd acc) else (fst acc, snd acc + 1)).

Fixpoint deliver_batch (photo_file_id : option string) (final_text : string)
    (batch : list Z) (acc : Z * Z) : H (Z * Z) :=
  match batch with
  | [] => ret acc
  | pid :: rest =>
      acc' <- deliver photo_file_id final_text pid acc ;;
      deliver_batch photo_file_id final_text rest acc'
  end.

Fixpoint deliver_batches (photo_file_id : option string) (final_text : string)
    (bs : list (list Z)) (acc : Z * Z) : H (Z * Z) :=
  match bs with
  | [] => ret acc
  | batch :: rest =>
      acc' <- deliver_batch photo_file_id final_text batch acc ;;
      match rest with [] => ret tt | _ => emit sleep end ;;
      deliver_batches photo_file_id final_text rest acc'
  end.

Definition broadcast_prefix : string := "Admin of this event sent notification: ".

Definition send_broadcast (event_id : option string) (message_text : string)
    (photo_file_id : option string) : H unit :=
  event <- db.get_event event_id ;;
  match event with
  | None => show chat_send_message "event_not_found"
  | Some ev =>
      ids <- db.get_participant_telegram_ids event_id ;;
      let recipient_ids := recipients (ev_admin_id ev) ids in
      match recipient_ids with
      | [] => show chat_send_message "broadcast_none"
      | _ =>
          let final_text :=
            let t := (broadcast_prefix ++ PyStr.strip message_text)%string in
            if PyStr.truthy (PyStr.strip t) then t else (broadcast_prefix ++ "…")%string in
          show_with chat_send_message "broadcast_sending"
            [("n", AInt (Z.of_nat (List.length recipient_ids)))] ;;
          counts <- deliver_batches photo_file_id final_text (batches 25 recipient_ids) (0, 0) ;;
          show_with chat_send_message "broadcast_done"
            [("success", AInt (fst counts)); ("fail", AInt (snd counts))]
      end
  end.

(** [app.job_queue.run_once(job_send_alert, when=run_at, ...)] *)
Definition schedule_alert_job (alert_id : Z) (event_id : string) (run_at : Z) : H unit :=
  fun _ w =>
    (Ok tt,
     {| w_db := w_db w;
        w_jobs := (w_jobs w ++ [{| job_alert_id := alert_id; job_event_id := event_id;
                                   job_when := run_at |}])%list;
        w_out := w_out w |}).

Definition display_event_time (env : Env) (t : option Z) : string :=
  match t with
  | None => "Not set"
  | Some dt => strftime env dt
  end.

Definition newline : string := String "010" EmptyString.

Definition reminder_text (env : Env) (ev : event_row) (content : option content_row) : string :=
  let tm := display_event_time env (Database.content_get event_time content) in
  let loc := match py_or (Database.content_get event_location content) (Some "Not set") with
             | Some l => l
             | None => ""
             end in
  ("⏰ Reminder: <b>" ++ PyStr.html_escape (ev_event_name ev) ++ "</b>" ++ newline
   ++ "Time: <b>" ++ PyStr.html_escape tm ++ "</b>" ++ newline
   ++ "Location: <b>" ++ PyStr.html_escape loc ++ "</b>")%string.

(** The loop of [job_send_alert]: a failed send is logged and skipped. *)
Fixpoint send_reminders (msg : string) (pids : list Z) : H unit :=
  match pids with
  | [] => ret tt
  | pid :: rest =>
      env <- ask ;;
      emit (bot_send_message pid msg (delivers env pid)) ;;
      send_reminders msg rest
  end.

Definition job_send_alert (alert_id : Z) (event_id : string) : H unit :=
  event <- db.get_event (Some event_id) ;;
  match event with
  | None => db.mark_alert_sent alert_id
  | Some ev =>
      content <- db.get_event_content (Some event_id) ;;
      ids <- db.get_participant_telegram_ids (Some event_id) ;;
      let recipient_ids := recipients (ev_admin_id ev) ids in
      match recipient_ids with
      | [] => db.mark_alert_sent alert_id
      | _ =>
          env <- ask ;;
          send_reminders (reminder_text env ev content) recipient_ids ;;
          db.mark_alert_sent alert_id
      end
  end.

(** The recovery loop of [post_init], the queue being the new process's. *)
Fixpoint recover_alerts (current : Z) (l : list alert_row) : H unit :=
  match l with
  | [] => ret tt
  | a :: rest =>
      (if current <? run_at_iso a
       then schedule_alert_job (al_id a) (al_event_id a) (run_at_iso a)
       else db.mark_alert_sent (al_id a)) ;;
      recover_alerts current rest
  end.

Definition post_init : H unit :=
  pending <- db.list_future_alerts ;;
  env <- ask ;;
  recover_alerts (now env) pending.

Definition job_eqb (a b : job) : bool :=
  Z.eqb (job_alert_id a) (job_alert_id b) && String.eqb (job_event_id a) (job_event_id b)
  && Z.eqb (job_when a) (job_when b).

Fixpoint remove_job (j : job) (q : list job) : list job :=
  match q with
  | [] => []
  | x :: r => if job_eqb j x then r else x :: remove_job j r
  end.

(** The queue runs a job armed by [run_once] when it is due, and drops it. *)
Definition run_job (j : job) : H unit :=
  fun env w =>
    if existsb (job_eqb j) (w_jobs w) && (job_when j <=? now env)
    then job_send_alert (job_alert_id j) (job_event_id j) env
           {| w_db := w_db w; w_jobs := remove_job j (w_jobs w); w_out := w_out w |}
    else (Ok tt, w).

(** ** Entry points (commands) *)

Definition registration_payload (event_id src : string) : Payload :=
  {| pl_event_id := Some event_id; pl_src := Some src; pl_full_name := None;
     pl_phone_number := None; pl_rating := None |}.

(** The common tail of [/start <event>] and of the [event:open:] token. *)
Definition open_event (o : ui_text -> output) (user : User) (event_id src : string) : H unit :=
  db.ensure_participant_stub (Some event_id) user ;;
  set_current_event_id (id user) (Some event_id) ;;
  adm <- db.is_admin (Some event_id) (id user) ;;
  full <- db.has_full_registration (Some event_id) (id user) ;;
  if negb adm && negb full then
    db.set_user_state (id user) (Some "reg_full_name")
      (Some (registration_payload event_id src)) ;;
    show o "reg_full_name_prompt"
  else show_event_menu user (Some event_id) src.

Definition cmd_start (user : User) (args : list string) : H unit :=
  match args with
  | a :: _ =>
      let event_id := PyStr.strip a in
      ex <- db.event_exists (Some event_id) ;;
      if negb ex then show reply_text "invalid_event_link"
      else open_event reply_text user event_id "hub_joined"
  | [] =>
      db.clear_user_state (id user) ;;
      show reply_text "welcome"
  end.

Definition cmd_my_events (user : User) : H unit :=
  db.clear_user_state (id user) ;;
  show reply_text "my_events_title".

Definition cmd_help : H unit := show reply_text "help".

Definition cmd_cancel (user : User) : H unit :=
  db.clear_user_state (id user) ;;
  show reply_text "cancelled".

(** ** Admin actions *)

(** The tokens of [handle_admin_action] that only render a menu or the
    current value of a field, with the text each one shows. *)
Definition admin_views : list (string * string) :=
  [("admin:manage", "manage_title"); ("admin:view", "view_title");
   ("admin:agenda", "agenda_title"); ("admin:wifi", "wifi_title");
   ("admin:org", "org_title"); ("admin:time", "time_title");
   ("admin:location", "location_title"); ("admin:map_pin", "map_pin_title");
   ("admin:agenda_view", "current_agenda"); ("admin:wifi_view", "current_wifi");
   ("admin:org_view", "current_org"); ("admin:time_view", "current_time");
   ("admin:location_view", "current_location"); ("admin:map_pin_view", "current_map_pin")].

(** The tokens that start an organizer flow, with the state each one writes
    and the prompt it shows. *)
Definition admin_flows : list (string * (string * string)) :=
  [("admin:agenda_edit", ("admin_edit_agenda", "agenda_set_prompt"));
   ("admin:wifi_edit", ("admin_set_wifi", "wifi_set_prompt"));
   ("admin:org_edit", ("admin_set_org", "org_set_prompt"));
   ("admin:time_edit", ("admin_set_time", "time_set_prompt"));
   ("admin:location_edit", ("admin_set_location", "location_set_prompt"));
   ("admin:map_pin_edit", ("admin_set_map_pin", "map_pin_set_prompt"))].

Fixpoint lookup {A : Type} (k : string) (l : list (string * A)) : option A :=
  match l with
  | [] => None
  | (k', v) :: r => if String.eqb k k' then Some v else lookup k r
  end.

Definition last_part (data : string) : string :=
  List.last (PyStr.split ":" data) EmptyString.

Definition alert_set (user_id : Z) (event_id : string) (content : option content_row)
    (data : string) : H unit :=
  match PyStr.int (last_part data) with
  | None => raise ValueError
  | Some mins =>
      match Database.content_get event_time content with
      | None =>
          show safe_edit_or_send "event_time_not_set"
      | Some dt =>
          env <- ask ;;
          let run_at := dt - minutes mins in
          if run_at <=? now env then show safe_edit_or_send "reminder_past"
          else
            alert_id <- db.add_alert event_id (isoformat_seconds run_at) mins user_id ;;
            schedule_alert_job alert_id event_id run_at ;;
            show_with safe_edit_or_send "reminder_scheduled"
              [("when", AStr (strftime env run_at)); ("minutes", AInt mins)]
      end
  end.

(** One [send_photo] or [send_media_group] to the caller's chat per group of
    ten photos. *)
Fixpoint send_media_groups (groups : list (list photo_row)) : H unit :=
  match groups with
  | [] => ret tt
  | g :: rest => emit (chat_send_media (map file_id g)) ;; send_media_groups rest
  end.

Definition photos_view (event_id : string) : H unit :=
  ph <- db.get_photos (Some event_id) ;;
  match ph with
  | [] => show safe_edit_or_send "no_photos_yet"
  | _ =>
      send_media_groups (batches 10 ph) ;;
      show_with safe_edit_or_send "sent_n_photos" [("n", AInt (Z.of_nat (List.length ph)))]
  end.

Definition handle_admin_action (user : User) (event_id : string) (data : string) : H unit :=
  let user_id := id user in
  event <- db.get_event (Some event_id) ;;
  content <- db.get_event_content (Some event_id) ;;
  match event with
  | None => raise TypeError
  | Some _ =>
      match lookup data admin_views, lookup data admin_flows with
      | Some key, _ => show safe_edit_or_send key
      | None, Some (st, prompt) =>
          db.set_user_state user_id (Some st) (Some (payload_for event_id)) ;;
          show safe_edit_or_send prompt
      | None, None =>
          if String.eqb data "admin:members" then
            members <- db.list_members (Some event_id) ;;
            show safe_edit_or_send "members_title"
          else if String.eqb data "admin:notify" then
            db.set_user_state user_id (Some "admin_notify_text") (Some (payload_for event_id)) ;;
            show safe_edit_or_send "push_prompt"
          else if String.eqb data "admin:alert" then show safe_edit_or_send "alert_menu"
          else if PyStr.startswith "admin:alert_set:" data then
            alert_set user_id event_id content data
          else if String.eqb data "admin:photos" then show safe_edit_or_send "photos_menu_title"
          else if String.eqb data "admin:photos_view" then photos_view event_id
          else if String.eqb data "admin:photos_upload" then
            db.set_user_state user_id (Some "admin_upload_photos")
              (Some (payload_for event_id)) ;;
            show safe_edit_or_send "upload_mode_title"
          else if String.eqb data "admin:photos_done" then
            db.clear_user_state user_id ;;
            show safe_edit_or_send "upload_mode_closed"
          else if String.eqb data "admin:questions" then
            qs <- db.list_questions (Some event_id) ;;
            match qs with
            | [] => show safe_edit_or_send "questions_none"
            | _ => show safe_edit_or_send "questions_title"
            end
          else if String.eqb data "admin:feedback" then show safe_edit_or_send "feedback_title"
          else if String.eqb data "admin:invite" then show safe_edit_or_send "invite_title"
          else if String.eqb data "admin:delete" then show safe_edit_or_send "delete_confirm"
          else if String.eqb data "admin:delete_yes" then
            db.delete_event (Some event_id) ;;
            set_current_event_id user_id None ;;
            show safe_edit_or_send "event_deleted"
          else if String.eqb data "admin:back_to_menu" then
            show_event_menu user (Some event_id) "hub_admin"
          else show safe_edit_or_send "unknown_action"
      end
  end.

(** ** Participant actions *)

Definition handle_participant_action (user : User) (event_id : string) (data : string)
    : H unit :=
  let user_id := id user in
  event <- db.get_event (Some event_id) ;;
  match event with
  | None => raise TypeError
  | Some _ =>
      if String.eqb data "p:info" then
        ph <- db.get_photos (Some event_id) ;;
        match ph with
        | [] => show safe_edit_or_send "event_info"
        | _ =>
            send_media_groups (batches 10 ph) ;;
            show safe_edit_or_send "sent_event_info"
        end
      else if String.eqb data "p:share" then show safe_edit_or_send "invite_title"
      else if String.eqb data "p:ask" then
        db.set_user_state user_id (Some "p_ask_question") (Some (payload_for event_id)) ;;
        show safe_edit_or_send "ask_question_prompt"
      else if String.eqb data "p:feedback" then show safe_edit_or_send "rating_choose"
      else if PyStr.startswith "p:rate:" data then
        match PyStr.int (last_part data) with
        | None => raise ValueError
        | Some r =>
            db.set_feedback (Some event_id) user_id r None ;;
            db.set_user_state user_id (Some "p_feedback_comment")
              (Some {| pl_event_id := Some event_id; pl_src := None; pl_full_name := None;
                       pl_phone_number := None; pl_rating := Some r |}) ;;
            show safe_edit_or_send "rating_saved_optional_comment"
        end
      else if String.eqb data "p:feedback_skip" then
        db.clear_user_state user_id ;;
        show safe_edit_or_send "feedback_saved"
      else if String.eqb data "p:leave" then show safe_edit_or_send "leave_confirm"
      else if String.eqb data "p:leave_yes" then
        db.leave_event (Some event_id) user_id ;;
        set_current_event_id user_id None ;;
        show safe_edit_or_send "left_event"
      else if String.eqb data "p:back_to_menu" then
        show_event_menu user (Some event_id) "hub_joined"
      else show safe_edit_or_send "unknown_action"
  end.

(** ** Callback router *)

(** [_, _, eid, back = data.split(":")] *)
Definition four_parts (data : string) : option (string * string) :=
  match PyStr.split ":" data with
  | [_; _; eid; back] => Some (eid, back)
  | _ => None
  end.

Definition on_callback (user : User) (data : string) : H unit :=
  let user_id := id user in
  if String.eqb data "hub:none" then show safe_edit_or_send "my_events_title"
  else if String.eqb data "hub:admin" then
    db.clear_user_state user_id ;;
    show safe_edit_or_send "events_you_organize"
  else if String.eqb data "hub:joined" then
    db.clear_user_state user_id ;;
    show safe_edit_or_send "events_you_joined"
  else if String.eqb data "event:create" then
    db.set_user_state user_id (Some "create_event_name")
      (Some {| pl_event_id := None; pl_src := Some "hub:none"; pl_full_name := None;
               pl_phone_number := None; pl_rating := None |}) ;;
    show safe_edit_or_send "create_event_prompt"
  else if PyStr.startswith "event:open:" data then
    let parts := PyStr.split ":" data in
    if (List.length parts <? 4)%nat then ret tt
    else
      let event_id := nth 2 parts EmptyString in
      let src := nth 3 parts EmptyString in
      ex <- db.event_exists (Some event_id) ;;
      if negb ex then show safe_edit_or_send "event_not_found"
      else open_event safe_edit_or_send user event_id src
  else if PyStr.startswith "event:invite:" data then
    match four_parts data with
    | None => raise ValueError
    | Some (eid, _) =>
        adm <- db.is_admin (Some eid) user_id ;;
        if negb adm then show safe_edit_or_send "invite_only_admin"
        else show safe_edit_or_send "invite_title"
    end
  else if PyStr.startswith "event:del_confirm:" data then
    match four_parts data with
    | None => raise ValueError
    | Some (eid, _) =>
        adm <- db.is_admin (Some eid) user_id ;;
        if negb adm then show safe_edit_or_send "not_allowed"
        else show safe_edit_or_send "delete_confirm"
    end
  else if PyStr.startswith "event:delete:" data then
    match four_parts data with
    | None => raise ValueError
    | Some (eid, _) =>
        adm <- db.is_admin (Some eid) user_id ;;
        if negb adm then show safe_edit_or_send "not_allowed"
        else
          db.delete_event (Some eid) ;;
          cur <- db.get_current_event user_id ;;
          match cur with
          | Some c => if String.eqb c eid then set_current_event_id user_id None else ret tt
          | None => ret tt
          end ;;
          show safe_edit_or_send "event_deleted"
    end
  else if PyStr.startswith "event:leave_confirm:" data then
    match four_parts data with
    | None => raise ValueError
    | Some (eid, _) =>
        adm <- db.is_admin (Some eid) user_id ;;
        if adm then show safe_edit_or_send "organizer_cant_leave"
        else show safe_edit_or_send "leave_confirm"
    end
  else if PyStr.startswith "event:leave:" data then
    match four_parts data with
    | None => raise ValueError
    | Some (eid, _) =>
        adm <- db.is_admin (Some eid) user_id ;;
        if adm then show safe_edit_or_send "organizer_cant_leave"
        else
          db.leave_event (Some eid) user_id ;;
          cur <- db.get_current_event user_id ;;
          match cur with
          | Some c => if String.eqb c eid then set_current_event_id user_id None else ret tt
          | None => ret tt
          end ;;
          show safe_edit_or_send "left_event"
    end
  else
    current_event <- db.get_current_event user_id ;;
    ex <- db.event_exists current_event ;;
    match current_event with
    | Some cur =>
        if negb ex then show safe_edit_or_send "choose_event_first"
        else
          adm <- db.is_admin current_event user_id ;;
          if adm && PyStr.startswith "admin:" data then handle_admin_action user cur data
          else if negb adm && PyStr.startswith "p:" data then
            handle_participant_action user cur data
          else show safe_edit_or_send "unknown_action"
    | None => show safe_edit_or_send "choose_event_first"
    end.

(** ** Text, contact, location and photo handlers *)

(** The loop over the lines of a WiFi message: the last [SSID:] and the last
    [Password:] line win. *)
Fixpoint parse_wifi (lines : list string) (ssid pwd : option string)
    : option string * option string :=
  match lines with
  | [] => (ssid, pwd)
  | line :: rest =>
      let after := match snd (PyStr.split1 ":" line) with
                   | Some v => PyStr.strip v
                   | None => EmptyString
                   end in
      let ssid' := if PyStr.startswith "ssid:" (PyStr.lower line) then Some after else ssid in
      let pwd' := if PyStr.startswith "password:" (PyStr.lower line) then Some after else pwd in
      parse_wifi rest ssid' pwd'
  end.

(** The [fields] dict of the organizer-info message. *)
Record org_fields : Type := {
  of_name : string;
  of_phone : string;
  of_email : string;
  of_telegram : string
}.

Fixpoint parse_org (lines : list string) (f : org_fields) : org_fields :=
  match lines with
  | [] => f
  | line :: rest =>
      let l := PyStr.strip line in
      match PyStr.split1 ":" l with
      | (_, None) => parse_org rest f
      | (k, Some v) =>
          let k := PyStr.lower (PyStr.strip k) in
          let v := PyStr.strip v in
          parse_org rest
            (if String.eqb k "name" then
               {| of_name := v; of_phone := of_phone f; of_email := of_email f;
                  of_telegram := of_telegram f |}
             else if String.eqb k "phone" then
               {| of_name := of_name f; of_phone := v; of_email := of_email f;
                  of_telegram := of_telegram f |}
             else if String.eqb k "email" then
               {| of_name := of_name f; of_phone := of_phone f; of_email := v;
                  of_telegram := of_telegram f |}
             else if String.eqb k "telegram" then
               {| of_name := of_name f; of_phone := of_phone f; of_email := of_email f;
                  of_telegram := v |}
             else f)
      end
  end.

Definition parse_event_time (env : Env) (text : string) : option Z :=
  strptime env (PyStr.strip text).

Definition opt_default (o : option string) (d : string) : string :=
  match o with Some s => s | None => d end.

(** [text.lower() in (cancel_cmd.lower(), "cancel")] *)
Definition is_cancel (env : Env) (text : string) : bool :=
  String.eqb (PyStr.lower text) (PyStr.lower ("/" ++ cancel_command env))
  || String.eqb (PyStr.lower text) "cancel".

Definition on_text (user : User) (message_text : option string) : H unit :=
  let user_id := id user in
  let text := PyStr.strip (opt_default message_text "") in
  env <- ask ;;
  if is_cancel env text then
    db.clear_user_state user_id ;;
    show reply_text "cancelled"
  else
  sp <- db.get_user_state user_id ;;
  let st := fst sp in
  let payload := snd sp in
  if state_is "create_event_name" st then
    if negb (PyStr.truthy text) then show reply_text "create_event_invalid_name"
    else
      let event_id := ("EV_" ++ token_urlsafe env)%string in
      db.create_event event_id user_id text ;;
      db.ensure_participant_stub (Some event_id) user ;;
      set_current_event_id user_id (Some event_id) ;;
      db.clear_user_state user_id ;;
      show_event_menu user (Some event_id) "hub_admin"
  else if state_is "reg_full_name" st then
    let eid := pl_event_id payload in
    ex <- db.event_exists eid ;;
    if negb (py_true eid) || negb ex then
      db.clear_user_state user_id ;;
      show reply_text "event_not_found"
    else if (String.length text <? 2)%nat then show reply_text "reg_name_invalid"
    else
      db.set_user_state user_id (Some "reg_phone")
        (Some {| pl_event_id := pl_event_id payload; pl_src := pl_src payload;
                 pl_full_name := Some (PyStr.strip text);
                 pl_phone_number := pl_phone_number payload;
                 pl_rating := pl_rating payload |}) ;;
      show reply_text "reg_phone_prompt"
  else if state_is "reg_phone" st then show reply_text "reg_phone_reject"
  else if state_is "reg_company" st then
    let eid := pl_event_id payload in
    let src := opt_default (pl_src payload) "hub_joined" in
    let company := PyStr.strip text in
    if (String.length company <? 2)%nat then show reply_text "reg_company_invalid"
    else
      db.set_registration_info eid user_id
        (PyStr.strip (opt_default (pl_full_name payload) ""))
        (opt_default (pl_phone_number payload) "") company ;;
      db.clear_user_state user_id ;;
      show reply_text "reg_saved" ;;
      show_event_menu user eid src
  else
  current_event_id <- db.get_current_event user_id ;;
  let eid := py_or (pl_event_id payload) current_event_id in
  if state_is "admin_edit_agenda" st then
    adm <- db.is_admin eid user_id ;;
    if negb (py_true eid) || negb adm then
      db.clear_user_state user_id ;;
      show reply_text "not_allowed"
    else
      db.set_agenda eid text ;;
      db.clear_user_state user_id ;;
      show reply_text "agenda_updated" ;;
      show_event_menu user eid "hub_admin"
  else if state_is "admin_set_time" st then
    match parse_event_time env text with
    | None => show reply_text "time_invalid_format"
    | Some dt =>
        db.set_time eid (Some (isoformat_seconds dt)) ;;
        db.clear_user_state user_id ;;
        show reply_text "time_updated" ;;
        show_event_menu user eid "hub_admin"
    end
  else if state_is "admin_set_location" st then
    let t := PyStr.strip text in
    (if String.eqb (PyStr.lower t) "clear" then db.set_location eid None
     else db.set_location eid (Some t)) ;;
    db.clear_user_state user_id ;;
    show reply_text "location_updated" ;;
    show_event_menu user eid "hub_admin"
  else if state_is "admin_set_map_pin" st then
    if String.eqb (PyStr.lower (PyStr.strip text)) "clear" then
      db.clear_map_pin eid ;;
      db.clear_user_state user_id ;;
      show reply_text "map_pin_removed" ;;
      show_event_menu user eid "hub_admin"
    else show reply_text "map_pin_need_location"
  else if state_is "admin_set_wifi" st then
    let (ssid, pwd) := parse_wifi (PyStr.splitlines text) None None in
    if negb (py_true ssid) || negb (py_true pwd) then show reply_text "wifi_invalid_format"
    else if (String.length (opt_default pwd "") <? 8)%nat then
      show reply_text "wifi_invalid_password"
    else
      db.set_wifi eid (opt_default ssid "") (opt_default pwd "") ;;
      db.clear_user_state user_id ;;
      show reply_text "wifi_updated" ;;
      show_event_menu user eid "hub_admin"
  else if state_is "admin_set_org" st then
    let f := parse_org (PyStr.splitlines text)
               {| of_name := ""; of_phone := ""; of_email := ""; of_telegram := "" |} in
    if negb (PyStr.truthy (of_name f)) then show reply_text "not_allowed"
    else
      db.set_organizer_info eid (of_name f) (of_phone f) (of_email f) (of_telegram f) ;;
      db.clear_user_state user_id ;;
      show reply_text "org_updated" ;;
      show_event_menu user eid "hub_admin"
  else if state_is "admin_notify_text" st then
    send_broadcast eid text None ;;
    db.clear_user_state user_id ;;
    show_event_menu user eid "hub_admin"
  else if state_is "p_ask_question" st then
    ex <- db.event_exists eid ;;
    if negb (py_true eid) || negb ex then
      db.clear_user_state user_id ;;
      show reply_text "event_not_found"
    else
      db.add_question eid user_id text ;;
      db.clear_user_state user_id ;;
      show reply_text "question_sent" ;;
      show_event_menu user eid "hub_joined"
  else if state_is "p_feedback_comment" st then
    let r := match pl_rating payload with Some r => r | None => 1 end in
    let c := PyStr.strip text in
    if negb (PyStr.truthy c) then show reply_text "comment_empty"
    else
      db.set_feedback eid user_id r (Some c) ;;
      db.clear_user_state user_id ;;
      show reply_text "comment_saved" ;;
      show_event_menu user eid "hub_joined"
  else show reply_text "use_my_events_to_continue".

(** [msg.contact]: the shared contact's own user id and phone number. *)
Definition on_contact (user : User) (contact_user_id : option Z)
    (contact_phone : option string) : H unit :=
  let user_id := id user in
  sp <- db.get_user_state user_id ;;
  let st := fst sp in
  let payload := snd sp in
  if negb (state_is "reg_phone" st) then ret tt
  else if match contact_user_id with
          | Some c => negb (Z.eqb c 0) && negb (Z.eqb c user_id)
          | None => false
          end
  then show reply_text "share_own_contact"
  else
    match norm_phone (Some (opt_default (py_or contact_phone (Some "")) "")) with
    | None => show reply_text "phone_read_fail"
    | Some phone =>
        db.set_user_state user_id (Some "reg_company")
          (Some {| pl_event_id := pl_event_id payload; pl_src := pl_src payload;
                   pl_full_name := pl_full_name payload;
                   pl_phone_number := Some phone;
                   pl_rating := pl_rating payload |}) ;;
        show reply_text "reg_company_prompt"
    end.

Definition on_location (user : User) (lat lon : Z) : H unit :=
  let user_id := id user in
  sp <- db.get_user_state user_id ;;
  let st := fst sp in
  let payload := snd sp in
  if negb (state_is "admin_set_map_pin" st) then ret tt
  else
    current_event_id <- db.get_current_event user_id ;;
    let eid := py_or (pl_event_id payload) current_event_id in
    adm <- db.is_admin eid user_id ;;
    if negb (py_true eid) || negb adm then db.clear_user_state user_id
    else
      db.set_map_pin eid lat lon ;;
      db.clear_user_state user_id ;;
      show reply_text "map_pin_saved" ;;
      show_event_menu user eid "hub_admin".

(** [update.message.photo[-1].file_id] and [update.message.caption] *)
Definition on_photo (user : User) (photo_file_id : string) (cap : option string) : H unit :=
  let user_id := id user in
  sp <- db.get_user_state user_id ;;
  let st := fst sp in
  let payload := snd sp in
  current_event_id <- db.get_current_event user_id ;;
  let eid := py_or (pl_event_id payload) current_event_id in
  if state_is "admin_upload_photos" st then
    adm <- db.is_admin eid user_id ;;
    if negb (py_true eid) || negb adm then
      db.clear_user_state user_id ;;
      show reply_text "not_allowed"
    else
      db.add_photo eid photo_file_id cap ;;
      show reply_text "photo_saved_send_more"
  else if state_is "admin_notify_text" st then
    adm <- db.is_admin eid user_id ;;
    if negb (py_true eid) || negb adm then db.clear_user_state user_id
    else
      send_broadcast eid (opt_default (py_or cap (Some "")) "") (Some photo_file_id) ;;
      db.clear_user_state user_id ;;
      show_event_menu user eid "hub_admin"
  else show reply_text "photo_received_use_photos".

(** ** The system: every update the application dispatches

    [main] registers one handler per kind of update; [JobDue] is the queue
    running an armed job, and [Startup] is [post_init] in a new process,
    whose queue is empty. *)

Inductive incoming :=
| CmdStart (user : User) (args : list string)
| CmdMyEvents (user : User)
| CmdHelp
| CmdCancel (user : User)
| CallbackQuery (user : User) (data : string)
| TextMessage (user : User) (text : option string)
| ContactMessage (user : User) (contact_user_id : option Z) (contact_phone : option string)
| LocationMessage (user : User) (lat lon : Z)
| PhotoMessage (user : User) (photo_file_id : string) (cap : option string)
| JobDue (j : job)
| Startup.

Definition restart : H unit :=
  fun _ w => (Ok tt, {| w_db := w_db w; w_jobs := []; w_out := w_out w |}).

Definition handle (u : incoming) : H unit :=
  match u with
  | CmdStart user args => cmd_start user args
  | CmdMyEvents user => cmd_my_events user
  | CmdHelp => cmd_help
  | CmdCancel user => cmd_cancel user
  | CallbackQuery user data => on_callback user data
  | TextMessage user text => on_text user text
  | ContactMessage user c p => on_contact user c p
  | LocationMessage user lat lon => on_location user lat lon
  | PhotoMessage user f c => on_photo user f c
  | JobDue j => run_job j
  | Startup => restart ;; post_init
  end.

(** A session: the updates in order, each with its environment. *)
Fixpoint run_all (l : list (Env * incoming)) (w : World) : World :=
  match l with
  | [] => w
  | (env, u) :: rest => run_all rest (run (handle u) env w)
  end.

Definition initial_world : World := {| w_db := empty_db; w_jobs := []; w_out := [] |}.

(** ** Notions the properties are stated with *)

(** The rows of [user_state] that belong to one user. *)
Definition state_rows (telegram_id : Z) (d : DB) : list state_row :=
  filter (Database.is_state_of telegram_id) (user_state d).

(** The primary key of [user_state]: at most one row per user. *)
Definition state_unique (d : DB) : Prop :=
  forall u, (List.length (state_rows u d) <= 1)%nat.

(** The persisted state name of a user, [None] when idle. *)
Definition state_of (telegram_id : Z) (d : DB) : option string :=
  fst (Database.get_user_state telegram_id d).

(** A relation between the store before and after a handler holds of a
    handler when it holds of every run of it. *)
Definition keeps (R : DB -> DB -> Prop) (env : Env) {A : Type} (m : H A) : Prop :=
  forall w, R (w_db w) (w_db (run m env w)).

(** The primary key of [user_state] survives. *)
Definition state_key_kept (d d' : DB) : Prop := state_unique d -> state_unique d'.

(** The rows of [participants] of one (event, user) pair. *)
Definition participant_rows (event_id : string) (telegram_id : Z) (d : DB)
    : list participant_row :=
  filter (Database.is_participant event_id telegram_id) (participants d).

Definition get_participant (event_id : string) (telegram_id : Z) (d : DB)
    : option participant_row :=
  fetchone (Database.is_participant event_id telegram_id) (participants d).



(** An environment, two users and a store to evaluate the handlers on: the
    event [EV_k3Jx] of organizer 10, with participants 10, 20 and 30. *)
Definition sample_env : Env :=
  {| now := 1767000000000000;
     token_urlsafe := "k3Jx";
     strptime := fun s =>
       if String.eqb s "2026-01-15 15:30" then Some 1768487400000000 else None;
     strftime := fun _ => "2026-01-15 15:30";
     cancel_command := "cancel";
     delivers := fun pid => negb (Z.eqb pid 30) |}.

Definition organizer : User :=
  {| id := 10; user_username := Some "@Orga"; user_first_name := Some "Olga";
     user_last_name := None |}.

Definition guest : User :=
  {| id := 20; user_username := None; user_first_name := Some "Gus";
     user_last_name := Some "Guest" |}.

Definition sample_member (telegram_id : Z) (name : option string) : participant_row :=
  {| p_event_id := "EV_k3Jx"; p_telegram_id := telegram_id; username := None;
     first_name := name; last_name := None; full_name := None; phone_number := None;
     company_name := None; registered_at := 1766000000000000 |}.

Definition sample_db : DB :=
  {| events := [{| ev_event_id := "EV_k3Jx"; ev_event_name := "Launch"; ev_admin_id := 10;
                   ev_created_at := 1766000000000000 |}];
     event_content := [Database.empty_content "EV_k3Jx"];
     participants := [sample_member 10 (Some "Olga"); sample_member 20 (Some "Gus");
                      sample_member 30 None];
     photos := []; anonymous_questions := []; feedback := []; user_state := [];
     user_context := [{| uc_telegram_id := 10; current_event_id := "EV_k3Jx";
                         uc_updated_at := 1766000000000000 |};
                      {| uc_telegram_id := 20; current_event_id := "EV_k3Jx";
                         uc_updated_at := 1766000000000000 |}];
     alerts := []; alerts_seq := 0 |}.

Definition sample_world : World := {| w_db := sample_db; w_jobs := []; w_out := [] |}.

(** The unique key of [participants]: at most one row per (event, user). *)
Definition participants_unique (d : DB) : Prop :=
  forall e u, (List.length (participant_rows e u d) <= 1)%nat.

(** A text column "non-empty after trimming": not NULL, and its [strip()]
    is not the empty string. *)
Definition trimmed_nonempty (x : option string) : Prop :=
  exists s, x = Some s /\ PyStr.strip s <> "".

(** Every character of the string is white space. *)
Fixpoint all_space (s : string) : bool :=
  match s with
  | EmptyString => true
  | String c r => PyStr.is_space c && all_space r
  end.

(** Two rows of the same participant with the same registration columns. *)
Definition same_registration (r r' : participant_row) : Prop :=
  p_event_id r = p_event_id r' /\ p_telegram_id r = p_telegram_id r'
  /\ full_name r = full_name r' /\ phone_number r = phone_number r'
  /\ company_name r = company_name r'.

Definition unregistered (r : participant_row) : Prop :=
  full_name r = None /\ phone_number r = None /\ company_name r = None.

(** No registration column was written: every row of the new table is a
    row of the old one with its three columns as they were, or a stub. *)
Definition registration_kept (d d' : DB) : Prop :=
  forall r', In r' (participants d') ->
    unregistered r' \/ exists r, In r (participants d) /\ same_registration r r'.

(** The state [reg_company] was not entered by this step. *)
Definition reg_company_kept (uid : Z) (d d' : DB) : Prop :=
  state_of uid d' = Some "reg_company" -> state_of uid d = Some "reg_company".

(** [not (contact.user_id and contact.user_id != user_id)] *)
Definition own_contact (user_id : Z) (contact_user_id : option Z) : Prop :=
  match contact_user_id with
  | Some c => c = 0 \/ c = user_id
  | None => True
  end.

(** [norm_phone(msg.contact.phone_number or "")] *)
Definition contact_phone_number (p : option string) : option string :=
  norm_phone (Some (opt_default (py_or p (Some "")) "")).

Definition with_phone_number (phone : string) (p : Payload) : Payload :=
  {| pl_event_id := pl_event_id p; pl_src := pl_src p; pl_full_name := pl_full_name p;
     pl_phone_number := Some phone; pl_rating := pl_rating p |}.

(** The text of a message as [on_text] reads it. *)
Definition text_of (message_text : option string) : string :=
  PyStr.strip (opt_default message_text "").

(** The guest of the sample store in the middle of the registration flow. *)
Definition reg_phone_world : World :=
  {| w_db := Database.set_user_state 0 20 (Some "reg_phone")
               (Some {| pl_event_id := Some "EV_k3Jx"; pl_src := Some "hub_joined";
                        pl_full_name := Some "Gus Guest"; pl_phone_number := None;
                        pl_rating := None |}) sample_db;
     w_jobs := []; w_out := [] |}.

(** Two alert rows that differ at most in their status. *)
Definition same_alert (a a' : alert_row) : Prop :=
  al_id a = al_id a' /\ al_event_id a = al_event_id a' /\ run_at_iso a = run_at_iso a'
  /\ minutes_before a = minutes_before a' /\ created_by a = created_by a'.

(** Every alert of the new table was there before, or was persisted for a
    fire time strictly later than [current]. *)
Definition alert_kept (current : Z) (d d' : DB) : Prop :=
  forall a', In a' (alerts d') ->
    (exists a, In a (alerts d) /\ same_alert a a')
    \/ (exists run_at, current < run_at /\ run_at_iso a' = isoformat_seconds run_at).

(** The sample store with the event's time set (2026-01-15 15:30), and an
    environment whose clock stands at that time. *)
Definition timed_world : World :=
  {| w_db := Database.set_time "EV_k3Jx" (Some 1768487400000000) sample_db;
     w_jobs := []; w_out := [] |}.

Definition late_env : Env :=
  {| now := 1768487400000000;
     token_urlsafe := token_urlsafe sample_env;
     strptime := strptime sample_env;
     strftime := strftime sample_env;
     cancel_command := cancel_command sample_env;
     delivers := delivers sample_env |}.

(** The primary key of [alerts]. *)
Definition alert_ids_unique (d : DB) : Prop := NoDup (map al_id (alerts d)).

(** The job [schedule_alert_job] arms for a row, and the jobs of the queue
    that belong to one alert. *)
Definition job_of (a : alert_row) : job :=
  {| job_alert_id := al_id a; job_event_id := al_event_id a; job_when := run_at_iso a |}.

Definition jobs_for (alert_id : Z) (q : list job) : list job :=
  filter (fun j => Z.eqb (job_alert_id j) alert_id) q.

(** The row with its status set to ['sent']. *)
Definition marked_sent (a : alert_row) : alert_row :=
  {| al_id := al_id a; al_event_id := al_event_id a; run_at_iso := run_at_iso a;
     minutes_before := minutes_before a; created_by := created_by a; al_status := sent |}.

(** The deliveries among the transport calls of a trace. *)
Definition is_delivery (o : output) : bool :=
  match o with
  | bot_send_message _ _ _ | bot_send_photo _ _ _ _ => true
  | _ => false
  end.

Definition deliveries (out : list output) : list output := filter is_delivery out.

(** The timed store with two scheduled alerts: one due before the sample
    clock, one 15 minutes before the event. *)
Definition overdue_alert : alert_row :=
  {| al_id := 1; al_event_id := "EV_k3Jx"; run_at_iso := 1766990000000000;
     minutes_before := 60; created_by := 10; al_status := scheduled |}.

Definition coming_alert : alert_row :=
  {| al_id := 2; al_event_id := "EV_k3Jx"; run_at_iso := 1768486500000000;
     minutes_before := 15; created_by := 10; al_status := scheduled |}.

Definition recovery_world : World :=
  {| w_db := Database.with_alerts [overdue_alert; coming_alert] 2 (w_db timed_world);
     w_jobs := []; w_out := [] |}.


Definition delivered (o : output) : bool :=
  match o with
  | bot_send_message _ _ ok | bot_send_photo _ _ _ ok => ok
  | _ => false
  end.





(** The rating and the comment stored for one (event, user). *)
Definition stored_rating (event_id : string) (telegram_id : Z) (d : DB) : option Z :=
  option_map rating (Database.get_feedback event_id telegram_id d).

Definition stored_comment (event_id : string) (telegram_id : Z) (d : DB) : option string :=
  match Database.get_feedback event_id telegram_id d with
  | Some f => comment f
  | None => None
  end.

(** The payload the [p:rate:] token leaves with state [p_feedback_comment]. *)
Definition rating_payload (event_id : string) (r : Z) : Payload :=
  {| pl_event_id := Some event_id; pl_src := None; pl_full_name := None;
     pl_phone_number := None; pl_rating := Some r |}.

(** The sample store after the guest rated the event down with a comment. *)
Definition rated_world : World :=
  {| w_db := Database.with_feedback
               [{| f_event_id := "EV_k3Jx"; f_telegram_id := 20; rating := -1;
                   comment := Some "too crowded"; f_created_at := 1766500000000000 |}]
               sample_db;
     w_jobs := []; w_out := [] |}.

(** The [feedback] table was not written. *)
Definition feedback_same (d d' : DB) : Prop := feedback d' = feedback d.

(** The sample store with user 20, who does not organize [EV_k3Jx], holding
    the persisted state [st] of an organizer flow on that event. *)
Definition stale_flow_world (st : string) : World :=
  {| w_db := Database.set_user_state 0 20 (Some st) (Some (payload_for "EV_k3Jx")) sample_db;
     w_jobs := []; w_out := [] |}.



(** The store the recovery loop leaves: the rows of its list that are not
    in the future are marked. *)
Definition recovered_db (current : Z) (l : list alert_row) (d : DB) : DB :=
  fold_left (fun d a => if current <? run_at_iso a then d
                        else Database.mark_alert_sent (al_id a) d) l d.

(** ** More of the source: helpers, tokens and read-only queries *)

(** [text[:k]]: a negative [k] counts from the end of the text. *)
Definition py_prefix (k : Z) (s : string) : string :=
  if 0 <=? k then String.substring 0 (Z.to_nat k) s
  else String.substring 0 (Z.to_nat (Z.of_nat (String.length s) + k)) s.

(** [clamp_caption(text, limit)] *)
Definition clamp_caption (text : string) (limit : Z) : string :=
  if Z.of_nat (String.length text) <=? limit then text
  else (py_prefix (limit - 3) text ++ "...")%string.

(** Every character of the string passes the test. *)
Fixpoint all_chars (P : ascii -> bool) (s : string) : bool :=
  match s with
  | EmptyString => true
  | String c r => P c && all_chars P r
  end.

(** The characters [norm_phone] keeps: [[0-9+]]. *)
Definition phone_char (c : ascii) : bool := PyStr.is_digit c || Ascii.eqb c "+".

(** The characters that open or close an HTML tag. *)
Definition markup_char (c : ascii) : bool := Ascii.eqb c "<" || Ascii.eqb c ">".

(** A callback token's field: no separator inside. *)
Definition token_field (s : string) : bool := all_chars (fun c => negb (Ascii.eqb c ":")) s.

(** The feedback rows and the alerts of one event. *)
Definition feedback_of (event_id : string) (d : DB) : list feedback_row :=
  filter (fun r => String.eqb (f_event_id r) event_id) (feedback d).

Definition alerts_of (event_id : string) (d : DB) : list alert_row :=
  filter (fun r => String.eqb (al_event_id r) event_id) (alerts d).

(** Everything the store holds of one event: its row as [get_event] shows
    it, its content and its rows in the five other child tables. *)
Record event_view : Type := {
  v_event : option event_row;
  v_content : option content_row;
  v_members : list participant_row;
  v_photos : list photo_row;
  v_questions : list question_row;
  v_feedback : list feedback_row;
  v_alerts : list alert_row
}.

Definition view (event_id : string) (d : DB) : event_view :=
  {| v_event := Database.get_event event_id d;
     v_content := Database.get_event_content event_id d;
     v_members := Database.list_members event_id d;
     v_photos := Database.get_photos event_id d;
     v_questions := Database.list_questions event_id d;
     v_feedback := feedback_of event_id d;
     v_alerts := alerts_of event_id d |}.

Definition no_view : event_view :=
  {| v_event := None; v_content := None; v_members := []; v_photos := [];
     v_questions := []; v_feedback := []; v_alerts := [] |}.

(** The AUTOINCREMENT counter of [alerts] is at least every key in use. *)
Definition alert_ids_bounded (d : DB) : Prop :=
  forall a, In a (alerts d) -> al_id a <= alerts_seq d.

(** The counter did not go back, and every row whose key is at most the
    old counter is a row of the old table. *)
Definition alert_ids_kept (d d' : DB) : Prop :=
  alert_ids_bounded d ->
  alert_ids_bounded d'
  /\ alerts_seq d <= alerts_seq d'
  /\ forall a', In a' (alerts d') -> al_id a' <= alerts_seq d ->
       exists a, In a (alerts d) /\ same_alert a a'.

(** The world after one transport call and nothing else. *)
Definition said (w : World) (o : output) : World :=
  {| w_db := w_db w; w_jobs := w_jobs w; w_out := (w_out w ++ [o])%list |}.

(** The states [on_text] serves. *)
Definition text_states : list string :=
  ["create_event_name"; "reg_full_name"; "reg_phone"; "reg_company";
   "admin_edit_agenda"; "admin_set_time"; "admin_set_location"; "admin_set_map_pin";
   "admin_set_wifi"; "admin_set_org"; "admin_notify_text"; "p_ask_question";
   "p_feedback_comment"].

(** The message [show_event_menu] ends with. *)
Definition entered_event (ev : event_row) (adm : bool) : output :=
  safe_edit_or_send
    {| ui_key := "entered_event";
       ui_args := [("title", AStr (PyStr.html_escape (ev_event_name ev)));
                   ("role", AStr (if adm then "Organizer" else "Participant"))] |}.

(** The guest of the sample store, asked for the name of a new event. *)
Definition naming_world : World :=
  {| w_db := Database.set_user_state 0 20 (Some "create_event_name") None sample_db;
     w_jobs := []; w_out := [] |}.

(** [eid and db.is_admin(eid, user_id)] for the guard
    [if not eid or not db.is_admin(eid, user_id)]. *)
Definition organizes (user_id : Z) (eid : option string) (d : DB) : bool :=
  py_true eid
  && match eid with
     | Some e => Database.is_admin e user_id d
     | None => false
     end.





(** The text is empty or begins with a character that is not white space. *)
Definition starts_visible (s : string) : bool :=
  match s with
  | EmptyString => true
  | String c _ => negb (PyStr.is_space c)
  end.

Definition with_full_name (name : string) (p : Payload) : Payload :=
  {| pl_event_id := pl_event_id p; pl_src := pl_src p; pl_full_name := Some name;
     pl_phone_number := pl_phone_number p; pl_rating := pl_rating p |}.

(** The four updates of a registration: the invite link, the full name,
    the shared contact and the company, each with the environment of its
    update. *)
Definition registration_session (user : User) (env1 env2 env3 env4 : Env) (link : string)
    (name : option string) (contact_user_id : option Z) (contact_phone : option string)
    (company : option string) : list (Env * incoming) :=
  [(env1, CmdStart user [link]);
   (env2, TextMessage user name);
   (env3, ContactMessage user contact_user_id contact_phone);
   (env4, TextMessage user company)].

(** [Database.get_feedback_summary]: the rows of [SELECT rating, COUNT( * )
    FROM feedback WHERE event_id=? GROUP BY rating], one per distinct rating
    with the number of rows that carry it, and the loop that picks the counts
    of the ratings 1 and -1 out of them. *)
Record feedback_summary : Type := { fs_up : Z; fs_down : Z; fs_total : Z }.

Definition group_by_rating (rows : list feedback_row) : list (Z * Z) :=
  let ratings := map rating rows in
  map (fun r => (r, Z.of_nat (count_occ Z.eq_dec ratings r))) (nodup Z.eq_dec ratings).

Definition pick_counts (acc : Z * Z) (rc : Z * Z) : Z * Z :=
  if Z.eqb (fst rc) 1 then (snd rc, snd acc)
  else if Z.eqb (fst rc) (-1) then (fst acc, snd rc)
  else acc.

Definition get_feedback_summary (event_id : string) (d : DB) : feedback_summary :=
  let rows := group_by_rating (feedback_of event_id d) in
  let counts := fold_left pick_counts rows (0, 0) in
  {| fs_up := fst counts; fs_down := snd counts; fs_total := fst counts + snd counts |}.

(** The feedback rows of an event that carry one rating. *)
Definition votes (event_id : string) (v : Z) (d : DB) : Z :=
  Z.of_nat (List.length (filter (fun r => Z.eqb (rating r) v) (feedback_of event_id d))).

(** The unique key of [feedback]: at most one row per (event, user). *)
Definition feedback_unique (d : DB) : Prop :=
  forall e u, (List.length (filter (Database.is_feedback e u) (feedback d)) <= 1)%nat.

(** 1 when the stored rating is [v], else 0. *)
Definition counts_as (v : Z) (r : option Z) : Z :=
  match r with
  | Some x => if Z.eqb x v then 1 else 0
  | None => 0
  end.

(** A feedback row of the event with the rating [v]. *)
Definition is_vote (event_id : string) (v : Z) (r : feedback_row) : bool :=
  String.eqb (f_event_id r) event_id && Z.eqb (rating r) v.

(** The row [set_feedback] leaves on a conflict. *)
Definition rerated (new_rating : Z) (new_comment : option string) (t : Z) (r : feedback_row)
    : feedback_row :=
  {| f_event_id := f_event_id r; f_telegram_id := f_telegram_id r; rating := new_rating;
     comment := coalesce new_comment (comment r); f_created_at := isoformat_seconds t |}.

(** The unique keys of [participants] and of [feedback] survive. *)
Definition participants_key_kept (d d' : DB) : Prop :=
  participants_unique d -> participants_unique d'.

Definition feedback_key_kept (d d' : DB) : Prop :=
  feedback_unique d -> feedback_unique d'.

(** * Properties of the store and of the handlers *)

Unset Implicit Arguments.
Local Open Scope list_scope.

(** ** Rows, [UPDATE], [DELETE] and [fetchone] *)

Section Tables.

Context {R : Type}.

Lemma find_none_existsb (p : R -> bool) (t : list R) :
  existsb p t = false <-> find p t = None.
Proof.
  induction t as [|r t IH]; simpl; [tauto|].
  destruct (p r); simpl; [split; discriminate | exact IH].
Qed.

Lemma find_some_existsb (p : R -> bool) (t : list R) :
  existsb p t = true <-> exists r, find p t = Some r.
Proof.
  induction t as [|r t IH]; simpl.
  - split; [discriminate | intros [r H]; discriminate].
  - destruct (p r); simpl; [split; eauto | exact IH].
Qed.

Lemma find_app_miss (p : R -> bool) (t l : list R) :
  find p t = None -> find p (t ++ l) = find p l.
Proof.
  induction t as [|r t IH]; simpl; [reflexivity|].
  destruct (p r); [discriminate | exact IH].
Qed.

Lemma find_app_hit (p : R -> bool) (t l : list R) (r : R) :
  find p t = Some r -> find p (t ++ l) = Some r.
Proof.
  induction t as [|x t IH]; simpl; [discriminate|].
  destruct (p x); [trivial | exact IH].
Qed.

Lemma find_sql_delete_same (p : R -> bool) (t : list R) :
  find p (sql_delete p t) = None.
Proof.
  unfold sql_delete.
  induction t as [|r t IH]; simpl; [reflexivity|].
  destruct (p r) eqn:E; simpl; [exact IH | rewrite E; exact IH].
Qed.

Lemma find_sql_delete_other (p q : R -> bool) (t : list R) :
  (forall r, q r = true -> p r = false) ->
  find q (sql_delete p t) = find q t.
Proof.
  intros Hpq. unfold sql_delete.
  induction t as [|r t IH]; simpl; [reflexivity|].
  destruct (q r) eqn:Eq.
  - rewrite (Hpq r Eq). simpl. rewrite Eq. reflexivity.
  - destruct (p r); simpl; [exact IH | rewrite Eq; exact IH].
Qed.

Lemma find_sql_update_same (p : R -> bool) (f : R -> R) (t : list R) :
  (forall r, p r = true -> p (f r) = true) ->
  find p (sql_update p f t) = option_map f (find p t).
Proof.
  intros Hf. unfold sql_update.
  induction t as [|r t IH]; simpl; [reflexivity|].
  destruct (p r) eqn:E; simpl.
  - rewrite (Hf r E). reflexivity.
  - rewrite E. exact IH.
Qed.

Lemma find_sql_update_other (p q : R -> bool) (f : R -> R) (t : list R) :
  (forall r, p r = true -> q (f r) = q r) ->
  (forall r, q r = true -> p r = false) ->
  find q (sql_update p f t) = find q t.
Proof.
  intros Hf Hpq. unfold sql_update.
  induction t as [|r t IH]; simpl; [reflexivity|].
  destruct (p r) eqn:Ep.
  - rewrite (Hf r Ep). destruct (q r) eqn:Eq; [|exact IH].
    rewrite (Hpq r Eq) in Ep. discriminate.
  - destruct (q r); [reflexivity | exact IH].
Qed.

Lemma filter_sql_update (p q : R -> bool) (f : R -> R) (t : list R) :
  (forall r, p r = true -> q (f r) = q r) ->
  filter q (sql_update p f t) = sql_update p f (filter q t).
Proof.
  intros Hf. unfold sql_update.
  induction t as [|r t IH]; simpl; [reflexivity|].
  destruct (p r) eqn:Ep.
  - rewrite (Hf r Ep). destruct (q r); simpl; [rewrite Ep, IH; reflexivity | exact IH].
  - destruct (q r); simpl; [rewrite Ep, IH; reflexivity | exact IH].
Qed.

Lemma length_sql_update (p : R -> bool) (f : R -> R) (t : list R) :
  List.length (sql_update p f t) = List.length t.
Proof. apply length_map. Qed.

Lemma filter_sql_delete_same (p : R -> bool) (t : list R) :
  filter p (sql_delete p t) = [].
Proof.
  unfold sql_delete.
  induction t as [|r t IH]; simpl; [reflexivity|].
  destruct (p r) eqn:E; simpl; [exact IH | rewrite E; exact IH].
Qed.

Lemma filter_sql_delete_other (p q : R -> bool) (t : list R) :
  (forall r, q r = true -> p r = false) ->
  filter q (sql_delete p t) = filter q t.
Proof.
  intros Hpq. unfold sql_delete.
  induction t as [|r t IH]; simpl; [reflexivity|].
  destruct (q r) eqn:Eq.
  - rewrite (Hpq r Eq). simpl. rewrite Eq, IH. reflexivity.
  - destruct (p r); simpl; [exact IH | rewrite Eq; exact IH].
Qed.

Lemma length_filter_sql_delete (p q : R -> bool) (t : list R) :
  (List.length (filter q (sql_delete p t)) <= List.length (filter q t))%nat.
Proof.
  unfold sql_delete.
  induction t as [|r t IH]; simpl; [lia|].
  destruct (p r); simpl; destruct (q r); simpl; lia.
Qed.

Lemma filter_none_existsb (p : R -> bool) (t : list R) :
  existsb p t = false -> filter p t = [].
Proof.
  induction t as [|r t IH]; simpl; [reflexivity|].
  destruct (p r); simpl; [discriminate | exact IH].
Qed.

End Tables.

(** ** Handlers keep what their store operations keep *)

Section Keeps.

Variable R : DB -> DB -> Prop.
Hypothesis R_refl : forall d, R d d.
Hypothesis R_trans : forall a b c, R a b -> R b c -> R a c.
Variable env : Env.

Lemma keeps_ret {A : Type} (a : A) : keeps R env (ret a).
Proof. intros w. apply R_refl. Qed.

Lemma keeps_raise {A : Type} (e : exn) : keeps R env (@raise A e).
Proof. intros w. apply R_refl. Qed.

Lemma keeps_query {A : Type} (f : DB -> A) : keeps R env (query f).
Proof. intros w. apply R_refl. Qed.

Lemma keeps_emit (o : output) : keeps R env (emit o).
Proof. intros w. apply R_refl. Qed.

Lemma keeps_schedule_alert_job (i : Z) (e : string) (t : Z) :
  keeps R env (schedule_alert_job i e t).
Proof. intros w. apply R_refl. Qed.

Lemma keeps_restart : keeps R env restart.
Proof. intros w. apply R_refl. Qed.

Lemma keeps_bind {A B : Type} (m : H A) (k : A -> H B) :
  keeps R env m -> (forall a, keeps R env (k a)) -> keeps R env (bind m k).
Proof.
  intros Hm Hk w. unfold run, bind.
  specialize (Hm w). unfold run in Hm.
  destruct (m env w) as [[a|e] w'] eqn:E; simpl in *.
  - apply R_trans with (w_db w'); [exact Hm | apply (Hk a w')].
  - exact Hm.
Qed.

Lemma keeps_ask_bind {B : Type} (k : Env -> H B) :
  keeps R env (k env) -> keeps R env (bind ask k).
Proof. intros Hk w. exact (Hk w). Qed.

Lemma keeps_update (f : DB -> DB) : (forall d, R d (f d)) -> keeps R env (update f).
Proof. intros Hf w. apply Hf. Qed.

Lemma keeps_attempt (f : DB -> Res DB) :
  (forall d d', f d = Ok d' -> R d d') -> keeps R env (attempt f).
Proof.
  intros Hf w. unfold run, attempt.
  destruct (f (w_db w)) as [d'|e] eqn:E; simpl; [apply (Hf _ _ E) | apply R_refl].
Qed.

Lemma keeps_add_alert (e : string) (t mins u : Z) :
  (forall d i d', Database.add_alert e t mins u d = Ok (i, d') -> R d d') ->
  keeps R env (db.add_alert e t mins u).
Proof.
  intros Hf w. unfold run, db.add_alert.
  destruct (Database.add_alert e t mins u (w_db w)) as [[i d']|x] eqn:E; simpl;
    [apply (Hf _ _ _ E) | apply R_refl].
Qed.

Lemma keeps_run_job (j : job) :
  keeps R env (job_send_alert (job_alert_id j) (job_event_id j)) ->
  keeps R env (run_job j).
Proof.
  intros Hj w. unfold run, run_job.
  destruct (existsb (job_eqb j) (w_jobs w) && (job_when j <=? now env)); [|apply R_refl].
  apply (Hj {| w_db := w_db w; w_jobs := remove_job j (w_jobs w); w_out := w_out w |}).
Qed.

End Keeps.

Section KeepsLoops.

Variable R : DB -> DB -> Prop.
Hypothesis Rr : forall d, R d d.
Hypothesis Rt : forall a b c, R a b -> R b c -> R a c.
Variable env : Env.

Lemma keeps_send_media_groups (groups : list (list photo_row)) :
  keeps R env (send_media_groups groups).
Proof.
  induction groups as [|g rest IH]; simpl.
  - apply (keeps_ret _ Rr).
  - apply (keeps_bind _ Rt); [apply (keeps_emit _ Rr) | intros _; exact IH].
Qed.

Lemma keeps_deliver (p : option string) (t : string) (pid : Z) (acc : Z * Z) :
  keeps R env (deliver p t pid acc).
Proof.
  unfold deliver. apply keeps_ask_bind.
  apply (keeps_bind _ Rt); [apply (keeps_emit _ Rr) | intros _; apply (keeps_ret _ Rr)].
Qed.

Lemma keeps_deliver_batch (p : option string) (t : string) (batch : list Z) (acc : Z * Z) :
  keeps R env (deliver_batch p t batch acc).
Proof.
  revert acc. induction batch as [|pid rest IH]; intros acc; simpl.
  - apply (keeps_ret _ Rr).
  - apply (keeps_bind _ Rt); [apply keeps_deliver | intros acc'; apply IH].
Qed.

Lemma keeps_deliver_batches (p : option string) (t : string) (bs : list (list Z))
    (acc : Z * Z) :
  keeps R env (deliver_batches p t bs acc).
Proof.
  revert acc. induction bs as [|b rest IH]; intros acc; simpl.
  - apply (keeps_ret _ Rr).
  - apply (keeps_bind _ Rt); [apply keeps_deliver_batch | intros acc'].
    apply (keeps_bind _ Rt); [|intros _; apply IH].
    destruct rest; [apply (keeps_ret _ Rr) | apply (keeps_emit _ Rr)].
Qed.

Lemma keeps_send_reminders (msg : string) (pids : list Z) :
  keeps R env (send_reminders msg pids).
Proof.
  induction pids as [|pid rest IH]; simpl.
  - apply (keeps_ret _ Rr).
  - apply keeps_ask_bind.
    apply (keeps_bind _ Rt); [apply (keeps_emit _ Rr) | intros _; exact IH].
Qed.

Lemma keeps_recover_alerts (current : Z) (l : list alert_row) :
  (forall i d, R d (Database.mark_alert_sent i d)) ->
  keeps R env (recover_alerts current l).
Proof.
  intros Hm. induction l as [|a rest IH]; simpl.
  - apply (keeps_ret _ Rr).
  - apply (keeps_bind _ Rt); [|intros _; exact IH].
    destruct (current <? run_at_iso a).
    + apply (keeps_schedule_alert_job _ Rr).
    + apply keeps_update. intros d. apply Hm.
Qed.

End KeepsLoops.

Ltac head_of m :=
  lazymatch m with
  | ?f _ => head_of f
  | _ => m
  end.

(** One step of the walk through a handler's body: the monad's own
    operations, the loops, then a case split on the test in front, then the
    body of the method or helper in front. *)
Ltac keeps_step Rr Rt :=
  lazymatch goal with
  | |- keeps _ _ (bind ask _) => apply keeps_ask_bind
  | |- keeps _ _ (bind _ _) => apply (keeps_bind _ Rt); [ | intros ? ]
  | |- keeps _ _ (ret _) => apply (keeps_ret _ Rr)
  | |- keeps _ _ (raise _) => apply (keeps_raise _ Rr)
  | |- keeps _ _ (query _) => apply (keeps_query _ Rr)
  | |- keeps _ _ (emit _) => apply (keeps_emit _ Rr)
  | |- keeps _ _ (schedule_alert_job _ _ _) => apply (keeps_schedule_alert_job _ Rr)
  | |- keeps _ _ restart => apply (keeps_restart _ Rr)
  | |- keeps _ _ (send_media_groups _) => apply (keeps_send_media_groups _ Rr Rt)
  | |- keeps _ _ (deliver_batches _ _ _ _) => apply (keeps_deliver_batches _ Rr Rt)
  | |- keeps _ _ (send_reminders _ _) => apply (keeps_send_reminders _ Rr Rt)
  | |- keeps _ _ (recover_alerts _ _) => apply (keeps_recover_alerts _ Rr Rt); intros ? ?
  | |- keeps _ _ (update _) => apply (keeps_update _); intros ?
  | |- keeps _ _ (attempt _) => apply (keeps_attempt _ Rr); intros ? ? ?
  | |- keeps _ _ (db.add_alert _ _ _ _) => apply (keeps_add_alert _ Rr); intros ? ? ? ?
  | |- keeps _ _ (run_job _) => apply (keeps_run_job _ Rr)
  | |- keeps _ _ (if ?b then _ else _) => destruct b eqn:?
  | |- keeps _ _ (match ?x with _ => _ end) => destruct x eqn:?
  | |- keeps _ _ (let _ := _ in _) => cbv zeta
  | |- keeps _ _ ?m => let h := head_of m in unfold h
  end.

(** ** The store methods, table by table *)

Ltac db_unfold :=
  unfold Database.create_event, Database.delete_event, Database.set_agenda,
    Database.set_wifi, Database.set_organizer_info, Database.set_time,
    Database.set_location, Database.set_map_pin, Database.clear_map_pin,
    Database.update_content, Database.ensure_participant_stub,
    Database.set_registration_info, Database.leave_event, Database.add_photo,
    Database.add_question, Database.set_feedback, Database.set_user_state,
    Database.clear_user_state, Database.set_current_event, Database.add_alert,
    Database.mark_alert_sent in *.

(** Case analysis on a method that returned normally. *)
Ltac db_inv :=
  repeat match goal with
  | H : (if ?b then _ else _) = Ok _ |- _ => destruct b eqn:?
  | H : match ?x with _ => _ end = Ok _ |- _ => destruct x eqn:?
  | H : Ok _ = Ok _ |- _ => inversion H; subst; clear H
  | H : Raise _ = Ok _ |- _ => discriminate H
  end.

(** A method that does not write a table leaves it as it was. *)
Ltac db_untouched :=
  db_unfold; db_inv;
  repeat match goal with
  | |- context [if ?b then _ else _] => destruct b eqn:?
  | |- context [match ?x with _ => _ end] => destruct x eqn:?
  end;
  reflexivity.

(** *** [user_state] *)

Lemma state_rows_set_same (t : Z) (u : Z) (s : string) (p : option Payload) (d : DB) :
  state_unique d ->
  List.length (state_rows u (Database.set_user_state t u (Some s) p d)) = 1%nat.
Proof.
  intros Hu. unfold Database.set_user_state, state_rows.
  destruct (existsb (Database.is_state_of u) (user_state d)) eqn:E; simpl.
  - rewrite filter_sql_update.
    + rewrite length_sql_update.
      apply find_some_existsb in E. destruct E as [r Hr].
      specialize (Hu u). unfold state_rows in Hu.
      destruct (filter (Database.is_state_of u) (user_state d)) as [|x l] eqn:F.
      * apply find_some in Hr. destruct Hr as [Hin Hp].
        assert (In r []) by (rewrite <- F; apply filter_In; auto). contradiction.
      * simpl in *. lia.
    + intros r Hr. unfold Database.is_state_of in *. simpl. rewrite Z.eqb_refl. auto.
  - rewrite filter_app, (filter_none_existsb _ _ E). simpl.
    unfold Database.is_state_of. simpl. rewrite Z.eqb_refl. reflexivity.
Qed.

Lemma state_rows_set_other (t : Z) (u u' : Z) (st : option string) (p : option Payload)
    (d : DB) :
  u <> u' ->
  state_rows u (Database.set_user_state t u' st p d) = state_rows u d.
Proof.
  intros Hne. unfold Database.set_user_state, state_rows.
  assert (Hsep : forall r, Database.is_state_of u r = true -> Database.is_state_of u' r = false).
  { intros r Hr. unfold Database.is_state_of in *. apply Z.eqb_eq in Hr.
    apply Z.eqb_neq. congruence. }
  destruct st as [s|]; simpl.
  - destruct (existsb (Database.is_state_of u') (user_state d)) eqn:E; simpl.
    + rewrite filter_sql_update.
      * unfold sql_update. rewrite <- (map_id (filter _ (user_state d))) at 2.
        apply map_ext_in. intros r Hr. apply filter_In in Hr.
        rewrite (Hsep r (proj2 Hr)). reflexivity.
      * intros r Hr. unfold Database.is_state_of in *. simpl.
        apply Z.eqb_eq in Hr. rewrite Hr. reflexivity.
    + rewrite filter_app. simpl. unfold Database.is_state_of at 2. simpl.
      destruct (Z.eqb_spec u' u); [congruence|]. apply app_nil_r.
  - apply filter_sql_delete_other. exact Hsep.
Qed.

Lemma state_rows_clear (t : Z) (u : Z) (p : option Payload) (d : DB) :
  state_rows u (Database.set_user_state t u None p d) = [].
Proof. unfold Database.set_user_state, state_rows. simpl. apply filter_sql_delete_same. Qed.

Lemma set_user_state_unique (t : Z) (u : Z) (st : option string) (p : option Payload)
    (d : DB) :
  state_unique d -> state_unique (Database.set_user_state t u st p d).
Proof.
  intros Hu u'. destruct (Z.eq_dec u' u) as [->|Hne].
  - destruct st as [s|].
    + rewrite state_rows_set_same; auto.
    + rewrite state_rows_clear. simpl. lia.
  - rewrite state_rows_set_other; auto.
Qed.

Lemma state_key_kept_refl (d : DB) : state_key_kept d d.
Proof. intros H. exact H. Qed.

Lemma state_key_kept_trans (a b c : DB) :
  state_key_kept a b -> state_key_kept b c -> state_key_kept a c.
Proof. unfold state_key_kept. auto. Qed.

Lemma state_key_kept_same (d d' : DB) : user_state d' = user_state d -> state_key_kept d d'.
Proof. intros E H u. unfold state_rows. rewrite E. apply H. Qed.

Ltac state_key_leaf :=
  first [ apply state_key_kept_refl
        | intros ?; apply set_user_state_unique; assumption
        | apply state_key_kept_same; db_untouched ].

Ltac keeps_state_key :=
  repeat (keeps_step state_key_kept_refl state_key_kept_trans);
  try state_key_leaf.

Lemma handle_keeps_state_key (env : Env) (u : incoming) :
  keeps state_key_kept env (handle u).
Proof.
  destruct u; unfold handle.
  all: keeps_state_key.
Qed.

Lemma get_user_state_set_same (t : Z) (u : Z) (s : string) (p : option Payload) (d : DB) :
  Database.get_user_state u (Database.set_user_state t u (Some s) p d)
  = (Some s, match p with Some x => x | None => empty_payload end).
Proof.
  unfold Database.get_user_state, Database.set_user_state, fetchone.
  destruct (existsb (Database.is_state_of u) (user_state d)) eqn:E; simpl.
  - rewrite find_sql_update_same.
    + apply find_some_existsb in E. destruct E as [r Hr]. rewrite Hr. reflexivity.
    + intros r _. unfold Database.is_state_of. simpl. apply Z.eqb_refl.
  - apply find_none_existsb in E. rewrite (find_app_miss _ _ _ E). simpl.
    unfold Database.is_state_of. simpl. rewrite Z.eqb_refl. reflexivity.
Qed.

Lemma get_user_state_clear (t : Z) (u : Z) (p : option Payload) (d : DB) :
  Database.get_user_state u (Database.set_user_state t u None p d) = (None, empty_payload).
Proof.
  unfold Database.get_user_state, Database.set_user_state, fetchone. simpl.
  rewrite find_sql_delete_same. reflexivity.
Qed.

Lemma get_user_state_set_other (t : Z) (u u' : Z) (st : option string) (p : option Payload)
    (d : DB) :
  u <> u' ->
  Database.get_user_state u (Database.set_user_state t u' st p d)
  = Database.get_user_state u d.
Proof.
  intros Hne. unfold Database.get_user_state, Database.set_user_state, fetchone.
  assert (Hsep : forall r, Database.is_state_of u r = true -> Database.is_state_of u' r = false).
  { intros r Hr. unfold Database.is_state_of in *. apply Z.eqb_eq in Hr.
    apply Z.eqb_neq. congruence. }
  destruct st as [s|]; simpl.
  - destruct (existsb (Database.is_state_of u') (user_state d)) eqn:E; simpl.
    + rewrite find_sql_update_other; auto.
      intros r Hr. unfold Database.is_state_of in *. simpl.
      apply Z.eqb_eq in Hr. rewrite Hr. reflexivity.
    + destruct (find (Database.is_state_of u) (user_state d)) as [r|] eqn:F.
      * rewrite (find_app_hit _ _ _ _ F). reflexivity.
      * rewrite (find_app_miss _ _ _ F). simpl. unfold Database.is_state_of. simpl.
        destruct (Z.eqb_spec u' u); [congruence | reflexivity].
  - rewrite find_sql_delete_other; auto.
Qed.

(** Opening the events hub is an implicit cancel. *)

(** C9: the [my_events] command and the [hub:admin] and [hub:joined] tokens
    each leave the caller with no persisted state (state [None] and the
    empty payload), whatever flow was in progress. *)
Theorem hub_navigation_clears_state (env : Env) (w : World) (user : User) :
  Database.get_user_state (id user) (w_db (run (cmd_my_events user) env w))
    = (None, empty_payload)
  /\ Database.get_user_state (id user) (w_db (run (on_callback user "hub:admin") env w))
    = (None, empty_payload)
  /\ Database.get_user_state (id user) (w_db (run (on_callback user "hub:joined") env w))
    = (None, empty_payload).
Proof.
  repeat split; exact (get_user_state_clear (now env) (id user) None (w_db w)).
Qed.

Lemma sessions_keep_state_key (l : list (Env * incoming)) (w : World) :
  state_unique (w_db w) -> state_unique (w_db (run_all l w)).
Proof.
  revert w. induction l as [|[env u] rest IH]; intros w Hw; simpl; [exact Hw|].
  apply IH. apply (handle_keeps_state_key env u w Hw).
Qed.



(** *** [participants] *)

Lemma is_participant_eq (e : string) (u : Z) (r : participant_row) :
  Database.is_participant e u r = true <-> p_event_id r = e /\ p_telegram_id r = u.
Proof.
  unfold Database.is_participant. rewrite andb_true_iff, String.eqb_eq, Z.eqb_eq. tauto.
Qed.

Lemma is_participant_coalesce (e : string) (u : Z) (a b c : option string)
    (r : participant_row) :
  Database.is_participant e u (Database.coalesce_identity a b c r)
  = Database.is_participant e u r.
Proof. reflexivity. Qed.

Lemma is_participant_sep (e e' : string) (u u' : Z) (r : participant_row) :
  (e', u') <> (e, u) ->
  Database.is_participant e' u' r = true -> Database.is_participant e u r = false.
Proof.
  intros Hne H. apply is_participant_eq in H. destruct H as [He Hu].
  destruct (Database.is_participant e u r) eqn:E; [|reflexivity].
  apply is_participant_eq in E. destruct E. exfalso. apply Hne. congruence.
Qed.

Lemma ensure_participant_stub_rows (t : Z) (e : string) (u : Z) (a b c : option string)
    (d d' : DB) :
  Database.ensure_participant_stub t e u a b c d = Ok d' ->
  (List.length (participant_rows e u d) <= 1)%nat ->
  List.length (participant_rows e u d') = 1%nat.
Proof.
  unfold Database.ensure_participant_stub, participant_rows. intros H Hle.
  destruct (existsb (Database.is_participant e u) (participants d)) eqn:E.
  - inversion H; subst; clear H. simpl.
    rewrite filter_sql_update by (intros; apply is_participant_coalesce).
    rewrite length_sql_update.
    apply find_some_existsb in E. destruct E as [r Hr]. apply find_some in Hr.
    destruct (filter (Database.is_participant e u) (participants d)) as [|x l] eqn:F.
    + assert (In r []) by (rewrite <- F; apply filter_In; tauto). contradiction.
    + simpl in *. lia.
  - destruct (Database.event_exists e d); [|discriminate].
    inversion H; subst; clear H. simpl.
    rewrite filter_sql_update by (intros; apply is_participant_coalesce).
    rewrite length_sql_update, filter_app, (filter_none_existsb _ _ E). simpl.
    unfold Database.is_participant. simpl. rewrite String.eqb_refl, Z.eqb_refl. reflexivity.
Qed.

Lemma ensure_participant_stub_other_rows (t : Z) (e e' : string) (u u' : Z)
    (a b c : option string) (d d' : DB) :
  Database.ensure_participant_stub t e u a b c d = Ok d' ->
  (e', u') <> (e, u) ->
  participant_rows e' u' d' = participant_rows e' u' d.
Proof.
  unfold Database.ensure_participant_stub, participant_rows. intros H Hne.
  assert (Hid : forall l,
    sql_update (Database.is_participant e u)
      (Database.coalesce_identity (norm_username a) b c)
      (filter (Database.is_participant e' u') l)
    = filter (Database.is_participant e' u') l).
  { intros l. unfold sql_update.
    rewrite <- (map_id (filter _ l)) at 2. apply map_ext_in.
    intros r Hr. apply filter_In in Hr.
    rewrite (is_participant_sep e e' u u' r Hne (proj2 Hr)). reflexivity. }
  destruct (existsb (Database.is_participant e u) (participants d)) eqn:E.
  - inversion H; subst; clear H. simpl.
    rewrite filter_sql_update by (intros; apply is_participant_coalesce). apply Hid.
  - destruct (Database.event_exists e d); [|discriminate].
    inversion H; subst; clear H. simpl.
    rewrite filter_sql_update by (intros; apply is_participant_coalesce).
    rewrite Hid, filter_app. simpl.
    destruct (Database.is_participant e' u' _) eqn:F; [|apply app_nil_r].
    apply is_participant_eq in F. simpl in F. exfalso. apply Hne.
    destruct F. congruence.
Qed.

Lemma ensure_participant_stub_row (t : Z) (e : string) (u : Z) (a b c : option string)
    (d d' : DB) (r : participant_row) :
  Database.ensure_participant_stub t e u a b c d = Ok d' ->
  get_participant e u d = Some r ->
  get_participant e u d' = Some (Database.coalesce_identity (norm_username a) b c r).
Proof.
  unfold Database.ensure_participant_stub, get_participant, fetchone. intros H Hr.
  assert (E : existsb (Database.is_participant e u) (participants d) = true)
    by (apply find_some_existsb; eauto).
  rewrite E in H. inversion H; subst; clear H. simpl.
  rewrite find_sql_update_same by (intros; assumption).
  rewrite Hr. reflexivity.
Qed.

Lemma ensure_participant_stub_events (t : Z) (e : string) (u : Z) (a b c : option string)
    (d d' : DB) :
  Database.ensure_participant_stub t e u a b c d = Ok d' -> events d' = events d.
Proof. intros H. db_untouched. Qed.

Lemma ensure_participant_stub_returns (t : Z) (e : string) (u : Z) (a b c : option string)
    (d : DB) :
  Database.event_exists e d = true ->
  exists d', Database.ensure_participant_stub t e u a b c d = Ok d'.
Proof.
  intros He. unfold Database.ensure_participant_stub. rewrite He.
  destruct (existsb _ _); eexists; reflexivity.
Qed.





(** ** Trimming *)

Lemma lstrip_empty (s : string) : PyStr.lstrip s = "" <-> all_space s = true.
Proof.
  induction s as [|c r IH]; simpl; [tauto|].
  destruct (PyStr.is_space c); simpl; [exact IH | split; discriminate].
Qed.

Lemma all_space_rev_onto (s acc : string) :
  all_space (PyStr.rev_onto s acc) = all_space s && all_space acc.
Proof.
  revert acc. induction s as [|c r IH]; intros acc; simpl; [reflexivity|].
  rewrite IH. simpl. destruct (PyStr.is_space c), (all_space r); reflexivity.
Qed.

Lemma rev_onto_empty (s acc : string) :
  PyStr.rev_onto s acc = "" -> s = "" /\ acc = "".
Proof.
  revert acc. induction s as [|c r IH]; intros acc; simpl; [auto|].
  intros H. apply IH in H. destruct H as [_ H]. discriminate.
Qed.

Lemma all_space_lstrip (s : string) : all_space (PyStr.lstrip s) = all_space s.
Proof.
  induction s as [|c r IH]; simpl; [reflexivity|].
  destruct (PyStr.is_space c) eqn:E; simpl; [exact IH | rewrite E; reflexivity].
Qed.

(** [s.strip()] is empty exactly when [s] holds white space only. *)
Lemma strip_empty (s : string) : PyStr.strip s = "" <-> all_space s = true.
Proof.
  unfold PyStr.strip, PyStr.rstrip, PyStr.rev. split.
  - intros H. apply rev_onto_empty in H. destruct H as [H _].
    apply lstrip_empty in H. rewrite all_space_rev_onto, andb_true_r in H.
    rewrite all_space_lstrip in H. exact H.
  - intros H. apply lstrip_empty in H. rewrite H. reflexivity.
Qed.

Lemma nonblank_trimmed (x : option string) :
  Database.nonblank x = true <-> trimmed_nonempty x.
Proof.
  unfold Database.nonblank, trimmed_nonempty, PyStr.truthy.
  destruct x as [s|].
  - rewrite negb_true_iff, String.eqb_neq. split.
    + intros H. exists s. auto.
    + intros [s' [E H]]. inversion E; subst. exact H.
  - split; [discriminate | intros [s [E _]]; discriminate].
Qed.

Lemma trimmed_nonempty_visible (x : option string) :
  trimmed_nonempty x <-> exists s, x = Some s /\ all_space s = false.
Proof.
  unfold trimmed_nonempty. split; intros [s [E H]]; exists s; split; auto.
  - destruct (all_space s) eqn:A; [|reflexivity]. apply strip_empty in A. contradiction.
  - intros S. apply strip_empty in S. congruence.
Qed.

(** *** The registration columns *)

Lemma same_registration_refl (r : participant_row) : same_registration r r.
Proof. repeat split. Qed.

Lemma registration_kept_refl (d : DB) : registration_kept d d.
Proof.
  intros r Hr. right. exists r. split; [exact Hr | apply same_registration_refl].
Qed.

Lemma registration_kept_trans (a b c : DB) :
  registration_kept a b -> registration_kept b c -> registration_kept a c.
Proof.
  intros Hab Hbc r'' Hr''. destruct (Hbc r'' Hr'') as [U|[r' [Hr' S']]]; [auto|].
  destruct (Hab r' Hr') as [U|[r [Hr S]]].
  - left. unfold unregistered, same_registration in *. intuition congruence.
  - right. exists r. unfold same_registration in *. intuition congruence.
Qed.

Lemma registration_kept_same (d d' : DB) :
  participants d' = participants d -> registration_kept d d'.
Proof.
  intros E r Hr. rewrite E in Hr. right. exists r.
  split; [exact Hr | apply same_registration_refl].
Qed.

Lemma registration_kept_delete (p : participant_row -> bool) (d d' : DB) :
  participants d' = sql_delete p (participants d) -> registration_kept d d'.
Proof.
  intros E r Hr. rewrite E in Hr. apply filter_In in Hr. right. exists r.
  split; [tauto | apply same_registration_refl].
Qed.

Lemma registration_kept_stub (t : Z) (e : string) (u : Z) (a b c : option string)
    (d d' : DB) :
  Database.ensure_participant_stub t e u a b c d = Ok d' -> registration_kept d d'.
Proof.
  unfold Database.ensure_participant_stub. intros H r' Hr'.
  assert (K : forall l, In r' (sql_update (Database.is_participant e u)
                                 (Database.coalesce_identity (norm_username a) b c) l) ->
                        exists r, In r l /\ same_registration r r').
  { intros l Hl. unfold sql_update in Hl. apply in_map_iff in Hl.
    destruct Hl as [r [E Hr]]. exists r. split; [exact Hr|].
    destruct (Database.is_participant e u r); subst; repeat split. }
  destruct (existsb (Database.is_participant e u) (participants d)).
  - inversion H; subst; clear H. simpl in Hr'. right. apply K. exact Hr'.
  - destruct (Database.event_exists e d); [|discriminate].
    inversion H; subst; clear H. simpl in Hr'.
    destruct (K _ Hr') as [r [Hr S]]. apply in_app_or in Hr. destruct Hr as [Hr|Hr].
    + right. exists r. auto.
    + left. simpl in Hr. destruct Hr as [<-|[]].
      unfold unregistered, same_registration in *. simpl in *. intuition congruence.
Qed.

Lemma registration_kept_delete_event (e : string) (d : DB) :
  registration_kept d (Database.delete_event e d).
Proof.
  unfold Database.delete_event. destruct (Database.event_exists e d).
  - eapply registration_kept_delete. reflexivity.
  - apply registration_kept_refl.
Qed.

Lemma registration_kept_leave_event (e : string) (u : Z) (d : DB) :
  registration_kept d (Database.leave_event e u d).
Proof. eapply registration_kept_delete. reflexivity. Qed.

Ltac registration_leaf :=
  first [ apply registration_kept_refl
        | apply registration_kept_delete_event
        | apply registration_kept_leave_event
        | eapply registration_kept_stub; eassumption
        | apply registration_kept_same; db_untouched ].

Ltac keeps_registration :=
  repeat (keeps_step registration_kept_refl registration_kept_trans);
  try registration_leaf.

Lemma run_ask_bind {B : Type} (k : Env -> H B) (env : Env) (w : World) :
  run (bind ask k) env w = run (k env) env w.
Proof. reflexivity. Qed.

Lemma run_query_bind {A B : Type} (f : DB -> A) (k : A -> H B) (env : Env) (w : World) :
  run (bind (query f) k) env w = run (k (f (w_db w))) env w.
Proof. reflexivity. Qed.

Lemma state_is_spec (name : string) (st : option string) :
  state_is name st = true <-> st = Some name.
Proof.
  destruct st as [s|]; simpl; [|split; discriminate].
  rewrite String.eqb_eq. split; congruence.
Qed.

(** Outside the last step of the registration flow, a text message writes
    no registration column. *)
Lemma on_text_keeps_registration (env : Env) (user : User) (text : option string)
    (w : World) :
  state_is "reg_company" (state_of (id user) (w_db w)) = false ->
  registration_kept (w_db w) (w_db (run (on_text user text) env w)).
Proof.
  intros Hst. unfold on_text. rewrite run_ask_bind.
  destruct (is_cancel env (PyStr.strip (opt_default text ""))).
  - revert w Hst. intros w _. revert w.
    change (keeps registration_kept env
              (bind (db.clear_user_state (id user)) (fun _ => show reply_text "cancelled"))).
    keeps_registration.
  - unfold db.get_user_state. rewrite run_query_bind.
    unfold state_of in Hst.
    set (sp := Database.get_user_state (id user) (w_db w)) in *.
    clearbody sp.
    match goal with
    | |- registration_kept _ (w_db (run ?m env w)) =>
        assert (K : keeps registration_kept env m)
    end; [|exact (K w)].
    keeps_registration; congruence.
Qed.

Lemma other_updates_keep_registration (env : Env) (u : incoming) :
  (forall user text, u <> TextMessage user text) ->
  keeps registration_kept env (handle u).
Proof.
  intros Hne. destruct u; unfold handle;
    try (exfalso; eapply Hne; reflexivity);
    keeps_registration.
Qed.

Lemma handle_keeps_registration (env : Env) (u : incoming) (w : World) :
  (forall user text, u = TextMessage user text ->
     state_is "reg_company" (state_of (id user) (w_db w)) = false) ->
  registration_kept (w_db w) (w_db (run (handle u) env w)).
Proof.
  intros Hu. destruct u;
    try (apply other_updates_keep_registration; intros; discriminate).
  apply on_text_keeps_registration. apply (Hu _ _ eq_refl).
Qed.

Lemma has_full_registration_iff (e : string) (uid : Z) (d : DB) :
  Database.has_full_registration e uid d = true <->
  exists r, get_participant e uid d = Some r
            /\ trimmed_nonempty (full_name r)
            /\ trimmed_nonempty (phone_number r)
            /\ trimmed_nonempty (company_name r).
Proof.
  unfold Database.has_full_registration, get_participant.
  destruct (fetchone (Database.is_participant e uid) (participants d)) as [r|].
  - rewrite !andb_true_iff, !nonblank_trimmed. split.
    + intros [[H1 H2] H3]. exists r. auto.
    + intros [r' [E [H1 [H2 H3]]]]. inversion E; subst. auto.
  - split; [discriminate | intros [r [E _]]; discriminate].
Qed.

(** C3: in every store, [has_full_registration] answers true exactly when
    the participant's row exists and its full_name, phone_number and
    company_name are each non-empty after trimming; and an update writes no
    registration column of any row (each row of the new table is an old row
    with the three columns as they were, or a stub with all three NULL)
    unless it is a text message received in state [reg_company], the step
    of the registration flow that calls [set_registration_info]. *)
Theorem fully_registered_iff (env : Env) (u : incoming) (w : World) (d : DB)
    (e : string) (uid : Z) :
  (Database.has_full_registration e uid d = true <->
     exists r, get_participant e uid d = Some r
               /\ trimmed_nonempty (full_name r)
               /\ trimmed_nonempty (phone_number r)
               /\ trimmed_nonempty (company_name r))
  /\ (registration_kept (w_db w) (w_db (run (handle u) env w))
      \/ exists user text,
           u = TextMessage user text
           /\ state_of (id user) (w_db w) = Some "reg_company").
Proof.
  split; [apply has_full_registration_iff|].
  destruct u as [| | | | |user text| | | | |];
    try (left; apply handle_keeps_registration; intros; discriminate).
  destruct (state_is "reg_company" (state_of (id user) (w_db w))) eqn:E.
  - right. exists user, text. split; [reflexivity|]. apply state_is_spec. exact E.
  - left. apply handle_keeps_registration. intros user' text' H.
    inversion H; subst. exact E.
Qed.

(** *** Entering [reg_company] *)

Lemma reg_company_kept_refl (uid : Z) (d : DB) : reg_company_kept uid d d.
Proof. intros H. exact H. Qed.

Lemma reg_company_kept_trans (uid : Z) (a b c : DB) :
  reg_company_kept uid a b -> reg_company_kept uid b c -> reg_company_kept uid a c.
Proof. unfold reg_company_kept. auto. Qed.

Lemma reg_company_kept_same (uid : Z) (d d' : DB) :
  user_state d' = user_state d -> reg_company_kept uid d d'.
Proof.
  intros E. unfold reg_company_kept, state_of, Database.get_user_state. rewrite E. trivial.
Qed.

Lemma reg_company_kept_set (uid : Z) (t u : Z) (st : option string) (p : option Payload)
    (d : DB) :
  st <> Some "reg_company" ->
  reg_company_kept uid d (Database.set_user_state t u st p d).
Proof.
  intros Hst. unfold reg_company_kept, state_of.
  destruct (Z.eq_dec uid u) as [->|Hne].
  - destruct st as [s|].
    + rewrite get_user_state_set_same. simpl. intros H. contradiction.
    + rewrite get_user_state_clear. discriminate.
  - rewrite get_user_state_set_other by exact Hne. trivial.
Qed.

Lemma admin_flows_state (data st prompt : string) :
  lookup data admin_flows = Some (st, prompt) -> Some st <> Some "reg_company".
Proof.
  unfold admin_flows. cbn [lookup].
  repeat match goal with
  | |- context [if String.eqb data ?k then _ else _] => destruct (String.eqb data k)
  end; intros H; inversion H; subst; discriminate.
Qed.

Ltac reg_company_leaf :=
  first [ apply reg_company_kept_refl
        | apply reg_company_kept_set;
          first [ discriminate
                | eapply admin_flows_state; subst; eassumption ]
        | apply reg_company_kept_same; db_untouched ].

Ltac keeps_reg_company uid :=
  repeat (keeps_step (reg_company_kept_refl uid) (reg_company_kept_trans uid));
  try reg_company_leaf.

Lemma other_updates_keep_reg_company (uid : Z) (env : Env) (u : incoming) :
  (forall user c p, u <> ContactMessage user c p) ->
  keeps (reg_company_kept uid) env (handle u).
Proof.
  intros Hne. destruct u; unfold handle;
    try (exfalso; eapply Hne; reflexivity);
    keeps_reg_company uid.
Qed.

Lemma on_text_reg_phone (env : Env) (user : User) (text : option string) (w : World)
    (payload : Payload) :
  Database.get_user_state (id user) (w_db w) = (Some "reg_phone", payload) ->
  is_cancel env (text_of text) = false ->
  run (on_text user text) env w
  = {| w_db := w_db w; w_jobs := w_jobs w;
       w_out := w_out w ++ [reply_text (txt "reg_phone_reject")] |}.
Proof.
  intros Hst Hc. unfold text_of in Hc.
  unfold on_text, run, bind at 1, ask. rewrite Hc.
  unfold bind at 1, db.get_user_state, query. rewrite Hst. reflexivity.
Qed.

(** The cancel word is served before the state is read. *)
Lemma on_text_cancel (env : Env) (user : User) (text : option string) (w : World) :
  is_cancel env (text_of text) = true ->
  run (on_text user text) env w
  = {| w_db := Database.clear_user_state (now env) (id user) (w_db w);
       w_jobs := w_jobs w;
       w_out := w_out w ++ [reply_text (txt "cancelled")] |}.
Proof.
  intros Hc. unfold text_of in Hc.
  unfold on_text, run, bind at 1, ask. rewrite Hc. reflexivity.
Qed.

Lemma on_contact_accepts (env : Env) (user : User) (c : option Z) (p : option string)
    (w : World) (payload : Payload) (phone : string) :
  Database.get_user_state (id user) (w_db w) = (Some "reg_phone", payload) ->
  own_contact (id user) c ->
  contact_phone_number p = Some phone ->
  run (on_contact user c p) env w
  = {| w_db := Database.set_user_state (now env) (id user) (Some "reg_company")
                 (Some (with_phone_number phone payload)) (w_db w);
       w_jobs := w_jobs w;
       w_out := w_out w ++ [reply_text (txt "reg_company_prompt")] |}.
Proof.
  intros Hst Hown Hp. unfold contact_phone_number in Hp.
  unfold on_contact, run, bind at 1, db.get_user_state, query. rewrite Hst.
  cbn [fst snd]. change (state_is "reg_phone" (Some "reg_phone")) with true. cbn [negb].
  assert (E : match c with
              | Some c0 => negb (c0 =? 0) && negb (c0 =? id user)
              | None => false
              end = false).
  { destruct c as [c0|]; [|reflexivity]. simpl in Hown.
    destruct Hown as [->| ->]; [reflexivity|].
    rewrite Z.eqb_refl. apply andb_false_r. }
  rewrite E, Hp. reflexivity.
Qed.

Lemma on_contact_enters_reg_company (uid : Z) (env : Env) (user : User) (c : option Z)
    (p : option string) (w : World) :
  state_of uid (w_db (run (on_contact user c p) env w)) = Some "reg_company" ->
  state_of uid (w_db w) = Some "reg_company"
  \/ (id user = uid
      /\ state_of uid (w_db w) = Some "reg_phone"
      /\ own_contact uid c
      /\ exists phone, contact_phone_number p = Some phone).
Proof.
  unfold on_contact, run, bind at 1, db.get_user_state, query. cbn [fst snd].
  destruct (state_is "reg_phone" (fst (Database.get_user_state (id user) (w_db w)))) eqn:Est;
    cbn [negb]; [|auto].
  destruct (match c with
            | Some c0 => negb (c0 =? 0) && negb (c0 =? id user)
            | None => false
            end) eqn:Eown; [auto|].
  fold (contact_phone_number p).
  destruct (contact_phone_number p) as [phone|] eqn:Ep; [|auto].
  intros H. destruct (Z.eq_dec uid (id user)) as [->|Hne].
  - right. split; [reflexivity|]. split; [apply state_is_spec; exact Est|]. split.
    + destruct c as [c0|]; simpl; [|trivial].
      apply andb_false_iff in Eown. rewrite !negb_false_iff, !Z.eqb_eq in Eown. exact Eown.
    + exists phone. reflexivity.
  - left. revert H.
    unfold db.set_user_state, show, bind, ask, update, emit, put_db. cbn [w_db snd].
    unfold state_of. rewrite get_user_state_set_other by exact Hne. trivial.
Qed.

Lemma reg_phone_texts (user : User) (msgs : list (Env * option string)) (w : World)
    (payload : Payload) :
  Database.get_user_state (id user) (w_db w) = (Some "reg_phone", payload) ->
  Forall (fun m => is_cancel (fst m) (text_of (snd m)) = false) msgs ->
  run_all (map (fun m => (fst m, TextMessage user (snd m))) msgs) w
  = {| w_db := w_db w; w_jobs := w_jobs w;
       w_out := w_out w ++ map (fun _ => reply_text (txt "reg_phone_reject")) msgs |}.
Proof.
  revert w. induction msgs as [|[env text] rest IH]; intros w Hst Hall; simpl.
  - rewrite app_nil_r. destruct w; reflexivity.
  - inversion Hall as [|m l Hm Hrest]; subst. simpl in Hm.
    rewrite (on_text_reg_phone env user text w payload Hst Hm).
    rewrite IH; [|exact Hst|exact Hrest]. simpl.
    rewrite <- app_assoc. reflexivity.
Qed.

Lemma handle_enters_reg_company (uid : Z) (env : Env) (u : incoming) (w : World) :
  state_of uid (w_db (run (handle u) env w)) = Some "reg_company" ->
  state_of uid (w_db w) = Some "reg_company"
  \/ exists user c p,
       u = ContactMessage user c p
       /\ id user = uid
       /\ state_of uid (w_db w) = Some "reg_phone"
       /\ own_contact uid c
       /\ exists phone, contact_phone_number p = Some phone.
Proof.
  destruct u as [| | | | | |user c p| | | |];
    try (intros H; left; revert H;
         apply other_updates_keep_reg_company; intros; discriminate).
  intros H. destruct (on_contact_enters_reg_company uid env user c p w H) as [K|K].
  - left. exact K.
  - right. exists user, c, p. split; [reflexivity | exact K].
Qed.

(** C7, the claim as written, fails: the text [cancel] received in state
    [reg_phone] is not rejected, it clears the state. *)
Lemma reg_phone_text_cancel_clears_state :
  state_of 20 (w_db reg_phone_world) = Some "reg_phone"
  /\ state_of 20 (w_db (run (on_text guest (Some "cancel")) sample_env reg_phone_world))
     = None.
Proof. split; reflexivity. Qed.

(** C7 as amended: while a user's state is [reg_phone], every text that is
    not the cancel word ([cancel] or the cancel command, in any case, after
    trimming) is answered by the re-prompt and writes nothing, so after any
    sequence of such texts the store, and with it the user's state and
    payload, is what it was; the cancel word clears the state; a contact of
    the sender's own with a readable phone number moves the state to
    [reg_company] with the number added to the payload; and over all
    updates, a user whose state was not [reg_company] can only be in
    [reg_company] afterwards by such a contact received in state
    [reg_phone]. *)
Theorem reg_phone_rejects_text (user : User) (msgs : list (Env * option string))
    (w : World) (payload : Payload) (env : Env) (c : option Z) (p : option string)
    (phone : string) (uid : Z) (u : incoming) (w0 : World) (word : option string) :
  Database.get_user_state (id user) (w_db w) = (Some "reg_phone", payload) ->
  Forall (fun m => is_cancel (fst m) (text_of (snd m)) = false) msgs ->
  run_all (map (fun m => (fst m, TextMessage user (snd m))) msgs) w
    = {| w_db := w_db w; w_jobs := w_jobs w;
         w_out := w_out w ++ map (fun _ => reply_text (txt "reg_phone_reject")) msgs |}
  /\ (is_cancel env (text_of word) = true ->
      Database.get_user_state (id user) (w_db (run (on_text user word) env w))
      = (None, empty_payload))
  /\ (own_contact (id user) c ->
      contact_phone_number p = Some phone ->
      Database.get_user_state (id user) (w_db (run (on_contact user c p) env w))
      = (Some "reg_company", with_phone_number phone payload))
  /\ (state_of uid (w_db (run (handle u) env w0)) = Some "reg_company" ->
      state_of uid (w_db w0) = Some "reg_company"
      \/ exists user' c' p',
           u = ContactMessage user' c' p'
           /\ id user' = uid
           /\ state_of uid (w_db w0) = Some "reg_phone"
           /\ own_contact uid c'
           /\ exists phone', contact_phone_number p' = Some phone').
Proof.
  intros Hst Hall. split; [|split; [|split]].
  - apply (reg_phone_texts user msgs w payload Hst Hall).
  - intros Hc. rewrite (on_text_cancel env user word w Hc).
    apply get_user_state_clear.
  - intros Hown Hp. rewrite (on_contact_accepts env user c p w payload phone Hst Hown Hp).
    apply get_user_state_set_same.
  - apply handle_enters_reg_company.
Qed.

Lemma reg_phone_rejects_text_witness :
  Database.get_user_state 20 (w_db reg_phone_world)
    = (Some "reg_phone",
       {| pl_event_id := Some "EV_k3Jx"; pl_src := Some "hub_joined";
          pl_full_name := Some "Gus Guest"; pl_phone_number := None; pl_rating := None |})
  /\ Forall (fun m => is_cancel (fst m) (text_of (snd m)) = false)
       [(sample_env, Some "+49 170 1234567"); (sample_env, Some "call me")]
  /\ w_db (run_all (map (fun m => (fst m, TextMessage guest (snd m)))
                      [(sample_env, Some "+49 170 1234567"); (sample_env, Some "call me")])
             reg_phone_world)
     = w_db reg_phone_world.
Proof.
  assert (H1 : Database.get_user_state 20 (w_db reg_phone_world)
    = (Some "reg_phone",
       {| pl_event_id := Some "EV_k3Jx"; pl_src := Some "hub_joined";
          pl_full_name := Some "Gus Guest"; pl_phone_number := None; pl_rating := None |}))
    by reflexivity.
  assert (H2 : Forall (fun m => is_cancel (fst m) (text_of (snd m)) = false)
       [(sample_env, Some "+49 170 1234567"); (sample_env, Some "call me")])
    by (repeat constructor).
  split; [exact H1|]. split; [exact H2|].
  rewrite (proj1 (reg_phone_rejects_text guest _ reg_phone_world _ sample_env None None
                    "" 20 CmdHelp reg_phone_world None H1 H2)).
  reflexivity.
Defined.

(** *** [alerts] *)

Lemma same_alert_refl (a : alert_row) : same_alert a a.
Proof. repeat split. Qed.

Lemma alert_kept_refl (current : Z) (d : DB) : alert_kept current d d.
Proof. intros a Ha. left. exists a. split; [exact Ha | apply same_alert_refl]. Qed.

Lemma alert_kept_trans (current : Z) (a b c : DB) :
  alert_kept current a b -> alert_kept current b c -> alert_kept current a c.
Proof.
  intros Hab Hbc x'' Hx''. destruct (Hbc x'' Hx'') as [[x' [Hx' S']]|N]; [|right; exact N].
  destruct (Hab x' Hx') as [[x [Hx S]]|[t [Ht E]]].
  - left. exists x. split; [exact Hx|]. unfold same_alert in *. intuition congruence.
  - right. exists t. split; [exact Ht|]. unfold same_alert in *. intuition congruence.
Qed.

Lemma alert_kept_same (current : Z) (d d' : DB) :
  alerts d' = alerts d -> alert_kept current d d'.
Proof.
  intros E a Ha. rewrite E in Ha. left. exists a.
  split; [exact Ha | apply same_alert_refl].
Qed.

Lemma alert_kept_mark (current : Z) (i : Z) (d : DB) :
  alert_kept current d (Database.mark_alert_sent i d).
Proof.
  intros a' Ha'. unfold Database.mark_alert_sent in Ha'. simpl in Ha'.
  unfold sql_update in Ha'. apply in_map_iff in Ha'. destruct Ha' as [a [E Ha]].
  left. exists a. split; [exact Ha|].
  destruct (al_id a =? i); subst; repeat split.
Qed.

Lemma alert_kept_delete_event (current : Z) (e : string) (d : DB) :
  alert_kept current d (Database.delete_event e d).
Proof.
  unfold Database.delete_event. destruct (Database.event_exists e d);
    [|apply alert_kept_refl].
  intros a Ha. simpl in Ha. apply filter_In in Ha. left. exists a.
  split; [tauto | apply same_alert_refl].
Qed.

Lemma alert_kept_add (current : Z) (e : string) (run_at mins u : Z) (d d' : DB) (i : Z) :
  current < run_at ->
  Database.add_alert e (isoformat_seconds run_at) mins u d = Ok (i, d') ->
  alert_kept current d d'.
Proof.
  intros Hlt H. unfold Database.add_alert in H.
  destruct (Database.event_exists e d); [|discriminate].
  inversion H; subst; clear H. intros a Ha. simpl in Ha.
  apply in_app_or in Ha. destruct Ha as [Ha|[<-|[]]].
  - left. exists a. split; [exact Ha | apply same_alert_refl].
  - right. exists run_at. split; [exact Hlt | reflexivity].
Qed.

Ltac alert_leaf :=
  first [ apply alert_kept_refl
        | apply alert_kept_mark
        | apply alert_kept_delete_event
        | eapply alert_kept_add; [apply Z.leb_gt; eassumption | eassumption]
        | apply alert_kept_same; db_untouched ].

Lemma handle_keeps_alerts (env : Env) (u : incoming) :
  keeps (alert_kept (now env)) env (handle u).
Proof.
  destruct u; unfold handle;
    repeat (keeps_step (alert_kept_refl (now env)) (alert_kept_trans (now env)));
    try alert_leaf.
Qed.

(** Symbolic evaluation of a run: the monad and the [db] wrappers are
    unfolded, the store methods are not. *)
Ltac hsimp :=
  cbv [run result bind ret raise ask query update attempt emit show show_with put_db
       db.sel db.upd db.ins db.event_exists db.get_event db.is_admin
       db.get_event_content db.create_event db.delete_event db.set_agenda db.set_wifi
       db.set_organizer_info db.set_time db.set_location db.set_map_pin
       db.clear_map_pin db.ensure_participant_stub db.has_full_registration
       db.set_registration_info db.list_members db.leave_event
       db.get_participant_telegram_ids db.add_photo db.get_photos db.add_question
       db.list_questions db.set_feedback db.set_user_state db.get_user_state
       db.clear_user_state db.set_current_event db.get_current_event db.add_alert
       db.list_future_alerts db.mark_alert_sent set_current_event_id
       schedule_alert_job];
  cbn [fst snd w_db w_jobs w_out].

Lemma alert_set_rejects (env : Env) (user_id : Z) (event_id : string)
    (content : option content_row) (data : string) (mins dt : Z) (w : World) :
  PyStr.int (last_part data) = Some mins ->
  Database.content_get event_time content = Some dt ->
  dt - minutes mins <= now env ->
  run (alert_set user_id event_id content data) env w
  = {| w_db := w_db w; w_jobs := w_jobs w;
       w_out := w_out w ++ [safe_edit_or_send (txt "reminder_past")] |}.
Proof.
  intros Hm Ht Hle. unfold alert_set. rewrite Hm, Ht. hsimp.
  apply Z.leb_le in Hle. rewrite Hle. reflexivity.
Qed.

Lemma alert_set_accepts (env : Env) (user_id : Z) (event_id : string)
    (content : option content_row) (data : string) (mins dt : Z) (w : World) :
  PyStr.int (last_part data) = Some mins ->
  Database.content_get event_time content = Some dt ->
  now env < dt - minutes mins ->
  Database.event_exists event_id (w_db w) = true ->
  let i := Database.next_alert_id (w_db w) in
  w_db (run (alert_set user_id event_id content data) env w)
  = Database.with_alerts
      (alerts (w_db w) ++
         [{| al_id := i; al_event_id := event_id;
             run_at_iso := isoformat_seconds (dt - minutes mins);
             minutes_before := mins; created_by := user_id; al_status := scheduled |}])
      i (w_db w)
  /\ w_jobs (run (alert_set user_id event_id content data) env w)
     = w_jobs w ++ [{| job_alert_id := i; job_event_id := event_id;
                       job_when := dt - minutes mins |}].
Proof.
  intros Hm Ht Hlt He i. unfold alert_set. rewrite Hm, Ht. hsimp.
  apply Z.leb_gt in Hlt. rewrite Hlt. unfold Database.add_alert. rewrite He.
  split; reflexivity.
Qed.

(** The tests on a token whose text is known are decided by evaluation. *)
Ltac decide_test t :=
  let v := eval cbv in t in
  lazymatch v with
  | true => change t with true
  | false => change t with false
  end.

Ltac decide_lookup t :=
  let v := eval cbv in t in
  lazymatch v with
  | None => change t with v
  | Some _ => change t with v
  end.

Ltac decide_tests :=
  repeat match goal with
  | |- context [String.eqb ?a ?b] => decide_test (String.eqb a b)
  | |- context [PyStr.startswith ?a ?b] => decide_test (PyStr.startswith a b)
  | |- context [lookup ?a ?b] => decide_lookup (lookup a b)
  | |- context [state_is ?a ?b] => decide_test (state_is a b)
  end;
  cbv iota; cbn [negb andb orb].

(** Use a fact about the store, then go on to the next test. *)
Ltac hrewrite H :=
  rewrite H; cbv beta iota; cbn [negb andb orb fst snd w_db w_jobs w_out].

Lemma startswith_append (p m : string) : PyStr.startswith p (p ++ m)%string = true.
Proof.
  unfold PyStr.startswith. induction p as [|c p IH]; simpl.
  - destruct m; reflexivity.
  - destruct (ascii_dec c c) as [_|N]; [exact IH | congruence].
Qed.

Lemma is_admin_event (e : string) (u : Z) (d : DB) :
  Database.is_admin e u d = true ->
  Database.event_exists e d = true /\ exists ev, Database.get_event e d = Some ev.
Proof.
  unfold Database.is_admin, Database.event_exists, Database.get_event, fetchone.
  destruct (find (Database.is_event e) (events d)) as [r|] eqn:F; [|discriminate].
  intros _. split; [apply find_some_existsb; eauto | eauto].
Qed.

Lemma on_callback_alert_set (env : Env) (user : User) (e m : string) (w : World) :
  Database.get_current_event (id user) (w_db w) = Some e ->
  Database.is_admin e (id user) (w_db w) = true ->
  run (on_callback user ("admin:alert_set:" ++ m)%string) env w
  = run (alert_set (id user) e (Database.get_event_content e (w_db w))
           ("admin:alert_set:" ++ m)%string) env w.
Proof.
  intros Hcur Hadm. destruct (is_admin_event _ _ _ Hadm) as [Hex [ev Hev]].
  unfold on_callback, handle_admin_action. decide_tests. hsimp.
  hrewrite Hcur. hrewrite Hex. hrewrite Hadm. hrewrite Hev.
  rewrite startswith_append. reflexivity.
Qed.

(** C8: the organizer of the current event picks a lead time
    ([admin:alert_set:<minutes>]) for an event whose time is set.  When the
    computed fire time is not strictly later than the clock, the caller is
    told so ([reminder_past]) and the store and the job queue are as they
    were; when it is strictly later, one [scheduled] row is appended to
    [alerts] and one job is armed.  And over all updates, every row of
    [alerts] after the update was there before it or carries a fire time
    strictly later than the clock of that update. *)
Theorem alert_schedule_rejects_past (env : Env) (user : User) (e m : string)
    (mins dt : Z) (w : World) (u : incoming) (w0 : World) :
  Database.get_current_event (id user) (w_db w) = Some e ->
  Database.is_admin e (id user) (w_db w) = true ->
  PyStr.int (last_part ("admin:alert_set:" ++ m)%string) = Some mins ->
  Database.content_get event_time (Database.get_event_content e (w_db w)) = Some dt ->
  (dt - minutes mins <= now env ->
     run (on_callback user ("admin:alert_set:" ++ m)%string) env w
     = {| w_db := w_db w; w_jobs := w_jobs w;
          w_out := w_out w ++ [safe_edit_or_send (txt "reminder_past")] |})
  /\ (now env < dt - minutes mins ->
      w_db (run (on_callback user ("admin:alert_set:" ++ m)%string) env w)
      = Database.with_alerts
          (alerts (w_db w) ++
             [{| al_id := Database.next_alert_id (w_db w); al_event_id := e;
                 run_at_iso := isoformat_seconds (dt - minutes mins);
                 minutes_before := mins; created_by := id user;
                 al_status := scheduled |}])
          (Database.next_alert_id (w_db w)) (w_db w)
      /\ w_jobs (run (on_callback user ("admin:alert_set:" ++ m)%string) env w)
         = w_jobs w ++ [{| job_alert_id := Database.next_alert_id (w_db w);
                           job_event_id := e; job_when := dt - minutes mins |}])
  /\ alert_kept (now env) (w_db w0) (w_db (run (handle u) env w0)).
Proof.
  intros Hcur Hadm Hm Ht. rewrite (on_callback_alert_set env user e m w Hcur Hadm).
  split; [|split].
  - intros Hle. apply (alert_set_rejects env _ _ _ _ mins dt w Hm Ht Hle).
  - intros Hlt.
    apply (alert_set_accepts env (id user) e _ _ mins dt w Hm Ht Hlt).
    apply (is_admin_event _ _ _ Hadm).
  - apply handle_keeps_alerts.
Qed.

Lemma alert_schedule_rejects_past_witness :
  Database.get_current_event 10 (w_db timed_world) = Some "EV_k3Jx"
  /\ Database.is_admin "EV_k3Jx" 10 (w_db timed_world) = true
  /\ PyStr.int (last_part "admin:alert_set:15") = Some 15
  /\ Database.content_get event_time
       (Database.get_event_content "EV_k3Jx" (w_db timed_world)) = Some 1768487400000000
  /\ run (on_callback organizer "admin:alert_set:15") late_env timed_world
     = {| w_db := w_db timed_world; w_jobs := [];
          w_out := [safe_edit_or_send (txt "reminder_past")] |}.
Proof.
  repeat (split; [reflexivity|]).
  apply (proj1 (alert_schedule_rejects_past late_env organizer "EV_k3Jx" "15" 15
                  1768487400000000 timed_world CmdHelp timed_world
                  eq_refl eq_refl eq_refl eq_refl)).
  unfold minutes. simpl. lia.
Defined.

(** ** Alert recovery *)

Lemma unique_key_row {A : Type} (f : A -> Z) (l : list A) (a : A) :
  NoDup (map f l) -> In a l -> filter (fun x => Z.eqb (f x) (f a)) l = [a].
Proof.
  induction l as [|x l IH]; simpl; intros Hn Ha; [contradiction|].
  inversion Hn as [|k ks Hk Hks]; subst.
  assert (Hout : forall y, In y l -> f y = f x -> False).
  { intros y Hy E. apply Hk. rewrite <- E. apply in_map. exact Hy. }
  destruct Ha as [->|Ha].
  - rewrite Z.eqb_refl. f_equal.
    clear IH. induction l as [|y l IHl]; [reflexivity|]. simpl.
    destruct (Z.eqb_spec (f y) (f a)) as [E|_].
    + exfalso. apply (Hout y); [left; reflexivity | exact E].
    + apply IHl.
      * inversion Hn as [|? ? H1 H2]; subst. constructor.
        -- intros K. apply H1. right. exact K.
        -- inversion H2; assumption.
      * intros K. apply Hk. right. exact K.
      * inversion Hks; assumption.
      * intros z Hz. apply Hout. right. exact Hz.
  - destruct (Z.eqb_spec (f x) (f a)) as [E|_].
    + exfalso. apply (Hout a Ha). symmetry. exact E.
    + apply IH; assumption.
Qed.

Lemma unique_key_eq {A : Type} (f : A -> Z) (l : list A) (a b : A) :
  NoDup (map f l) -> In a l -> In b l -> f b = f a -> b = a.
Proof.
  intros Hn Ha Hb E.
  assert (H : In b (filter (fun x => Z.eqb (f x) (f a)) l))
    by (apply filter_In; split; [exact Hb | apply Z.eqb_eq; exact E]).
  rewrite (unique_key_row f l a Hn Ha) in H. destruct H as [H|[]]. auto.
Qed.

Lemma recover_alerts_run (env : Env) (current : Z) (l : list alert_row) (w : World) :
  (recover_alerts current l) env w
  = (Ok tt,
     {| w_db := recovered_db current l (w_db w);
        w_jobs := w_jobs w ++ map job_of (filter (fun a => current <? run_at_iso a) l);
        w_out := w_out w |}).
Proof.
  revert w. induction l as [|a rest IH]; intros w; simpl.
  - rewrite app_nil_r. destruct w; reflexivity.
  - unfold bind at 1. destruct (current <? run_at_iso a) eqn:E.
    + unfold schedule_alert_job at 1. rewrite IH. simpl.
      rewrite <- app_assoc. reflexivity.
    + unfold db.mark_alert_sent at 1, update at 1. rewrite IH. reflexivity.
Qed.

Lemma recovered_alerts (current : Z) (l : list alert_row) (d : DB) :
  alerts (recovered_db current l d)
  = map (fun r => if existsb (fun a => Z.eqb (al_id a) (al_id r)
                                       && negb (current <? run_at_iso a)) l
                  then marked_sent r else r) (alerts d).
Proof.
  revert d. induction l as [|a rest IH]; intros d; simpl.
  - symmetry. apply map_id.
  - rewrite IH. destruct (current <? run_at_iso a) eqn:E; simpl.
    + apply map_ext. intros r. rewrite andb_false_r. reflexivity.
    + unfold sql_update. rewrite map_map. apply map_ext. intros r.
      rewrite andb_true_r. rewrite (Z.eqb_sym (al_id a) (al_id r)).
      destruct (al_id r =? al_id a) eqn:K; simpl; [|reflexivity].
      change (al_id (marked_sent r)) with (al_id r).
      destruct (existsb _ rest); reflexivity.
Qed.

Lemma pending_marked (current : Z) (d : DB) (a : alert_row) :
  alert_ids_unique d -> In a (alerts d) ->
  existsb (fun x => Z.eqb (al_id x) (al_id a) && negb (current <? run_at_iso x))
    (Database.list_future_alerts d)
  = Database.is_scheduled a && negb (current <? run_at_iso a).
Proof.
  intros Hn Ha. unfold Database.list_future_alerts.
  destruct (Database.is_scheduled a && negb (current <? run_at_iso a)) eqn:E.
  - apply existsb_exists. exists a. apply andb_true_iff in E. destruct E as [E1 E2].
    split; [apply filter_In; auto|]. rewrite Z.eqb_refl, E2. reflexivity.
  - destruct (existsb _ _) eqn:X; [|reflexivity].
    apply existsb_exists in X. destruct X as [x [Hx Hp]].
    apply filter_In in Hx. destruct Hx as [Hx Hs].
    apply andb_true_iff in Hp. destruct Hp as [Hid Hpast]. apply Z.eqb_eq in Hid.
    assert (x = a) by (apply (unique_key_eq al_id (alerts d)); assumption).
    subst x. rewrite Hs, Hpast in E. discriminate.
Qed.

Lemma post_init_run (env : Env) (w : World) :
  post_init env w
  = (Ok tt,
     {| w_db := recovered_db (now env) (Database.list_future_alerts (w_db w)) (w_db w);
        w_jobs := w_jobs w ++ map job_of (filter (fun a => now env <? run_at_iso a)
                                            (Database.list_future_alerts (w_db w)));
        w_out := w_out w |}).
Proof.
  unfold post_init, bind at 1, db.list_future_alerts, query, bind, ask.
  apply recover_alerts_run.
Qed.

Lemma jobs_for_recovered (current : Z) (d : DB) (a : alert_row) :
  alert_ids_unique d -> In a (alerts d) ->
  jobs_for (al_id a)
    (map job_of (filter (fun x => current <? run_at_iso x) (Database.list_future_alerts d)))
  = if Database.is_scheduled a && (current <? run_at_iso a) then [job_of a] else [].
Proof.
  intros Hn Ha. unfold jobs_for, Database.list_future_alerts.
  assert (E : forall l,
    filter (fun j => job_alert_id j =? al_id a) (map job_of l)
    = map job_of (filter (fun x => al_id x =? al_id a) l)).
  { induction l as [|x l IH]; simpl; [reflexivity|].
    destruct (al_id x =? al_id a); simpl; rewrite IH; reflexivity. }
  rewrite E. clear E.
  assert (C : forall (p q : alert_row -> bool) l,
    filter p (filter q l) = filter q (filter p l)).
  { intros p q l. induction l as [|x l IH]; simpl; [reflexivity|].
    destruct (p x) eqn:P, (q x) eqn:Q; simpl; rewrite ?P, ?Q, IH; reflexivity. }
  rewrite C, (C _ Database.is_scheduled).
  rewrite (unique_key_row al_id (alerts d) a Hn Ha). simpl.
  destruct (Database.is_scheduled a); simpl; [|reflexivity].
  destruct (current <? run_at_iso a); reflexivity.
Qed.

Lemma send_reminders_run (env : Env) (msg : string) (pids : list Z) (w : World) :
  (send_reminders msg pids) env w
  = (Ok tt,
     {| w_db := w_db w; w_jobs := w_jobs w;
        w_out := w_out w ++ map (fun pid => bot_send_message pid msg (delivers env pid)) pids |}).
Proof.
  revert w. induction pids as [|pid rest IH]; intros w; simpl.
  - rewrite app_nil_r. destruct w; reflexivity.
  - unfold bind at 1, ask. unfold bind at 1, emit at 1. rewrite IH. simpl.
    rewrite <- app_assoc. reflexivity.
Qed.

(** Whatever path [job_send_alert] takes, it ends by marking the alert. *)
Lemma job_send_alert_run (env : Env) (i : Z) (e : string) (w : World) :
  w_db (run (job_send_alert i e) env w) = Database.mark_alert_sent i (w_db w)
  /\ w_jobs (run (job_send_alert i e) env w) = w_jobs w.
Proof.
  unfold job_send_alert. hsimp.
  destruct (Database.get_event e (w_db w)) as [ev|]; [|split; reflexivity].
  destruct (recipients (ev_admin_id ev) (Database.get_participant_telegram_ids e (w_db w)))
    as [|pid rest]; [split; reflexivity|].
  rewrite send_reminders_run. split; reflexivity.
Qed.

Lemma job_eqb_eq (a b : job) : job_eqb a b = true -> a = b.
Proof.
  unfold job_eqb. rewrite !andb_true_iff, !Z.eqb_eq, String.eqb_eq.
  destruct a, b; simpl. intros [[-> ->] ->]. reflexivity.
Qed.

Lemma jobs_for_remove (i : Z) (j : job) (q : list job) :
  job_alert_id j = i ->
  jobs_for i q = [j] ->
  jobs_for i (remove_job j q) = [].
Proof.
  intros Hi. unfold jobs_for. induction q as [|x q IH]; simpl; [discriminate|].
  destruct (job_eqb j x) eqn:E.
  - apply job_eqb_eq in E. subst x. rewrite Hi, Z.eqb_refl. intros H. inversion H. reflexivity.
  - destruct (job_alert_id x =? i) eqn:K; simpl; rewrite K.
    + intros H. inversion H; subst.
      assert (T : job_eqb j j = true).
      { unfold job_eqb. rewrite !Z.eqb_refl, String.eqb_refl. reflexivity. }
      congruence.
    + exact IH.
Qed.

Lemma jobs_for_member (i : Z) (j : job) (q : list job) :
  jobs_for i q = [j] -> existsb (job_eqb j) q = true.
Proof.
  intros H. apply existsb_exists. exists j. split.
  - assert (K : In j (jobs_for i q)) by (rewrite H; left; reflexivity).
    apply filter_In in K. tauto.
  - unfold job_eqb. rewrite !Z.eqb_refl, String.eqb_refl. reflexivity.
Qed.

Lemma marked_rows_sent (i : Z) (d : DB) (r : alert_row) :
  In r (alerts (Database.mark_alert_sent i d)) -> al_id r = i -> al_status r = sent.
Proof.
  unfold Database.mark_alert_sent. simpl. unfold sql_update. intros H Hi.
  apply in_map_iff in H. destruct H as [x [E Hx]].
  destruct (al_id x =? i) eqn:K; subst; [reflexivity|].
  apply Z.eqb_neq in K. contradiction.
Qed.

(** The queue leaves a job alone until it is due, and runs it once. *)
Lemma run_job_early (env : Env) (j : job) (w : World) :
  now env < job_when j -> run (run_job j) env w = w.
Proof.
  intros H. unfold run, run_job. apply Z.leb_gt in H. rewrite H, andb_false_r. reflexivity.
Qed.

Lemma run_job_due (env : Env) (j : job) (w : World) :
  jobs_for (job_alert_id j) (w_jobs w) = [j] ->
  job_when j <= now env ->
  jobs_for (job_alert_id j) (w_jobs (run (run_job j) env w)) = []
  /\ w_db (run (run_job j) env w) = Database.mark_alert_sent (job_alert_id j) (w_db w).
Proof.
  intros Hq Hdue. unfold run, run_job.
  rewrite (jobs_for_member _ _ _ Hq). apply Z.leb_le in Hdue. rewrite Hdue. simpl.
  destruct (job_send_alert_run env (job_alert_id j) (job_event_id j)
              {| w_db := w_db w; w_jobs := remove_job j (w_jobs w); w_out := w_out w |})
    as [Hd Hj].
  unfold run in Hd, Hj. rewrite Hd, Hj. simpl.
  split; [apply jobs_for_remove; auto | reflexivity].
Qed.

(** C4: at process start ([Startup]: an empty job queue, then [post_init])
    no transport call is issued; a scheduled alert whose fire time is not
    later than the clock is marked [sent] and has no job; a scheduled alert
    whose fire time is later stays as it is and has exactly one job, armed
    for its fire time, which the queue leaves alone before that time and,
    once due, runs and drops, after which no job of the alert remains and
    every row of the alert is [sent]. *)
Theorem alert_recovery (env env' : Env) (w : World) (a : alert_row) :
  alert_ids_unique (w_db w) ->
  In a (alerts (w_db w)) ->
  al_status a = scheduled ->
  w_out (run (handle Startup) env w) = w_out w
  /\ deliveries (w_out (run (handle Startup) env {| w_db := w_db w; w_jobs := []; w_out := [] |}))
     = []
  /\ (run_at_iso a <= now env ->
      In (marked_sent a) (alerts (w_db (run (handle Startup) env w)))
      /\ jobs_for (al_id a) (w_jobs (run (handle Startup) env w)) = [])
  /\ (now env < run_at_iso a ->
      In a (alerts (w_db (run (handle Startup) env w)))
      /\ jobs_for (al_id a) (w_jobs (run (handle Startup) env w)) = [job_of a]
      /\ job_when (job_of a) = run_at_iso a
      /\ (now env' < run_at_iso a ->
          run (handle (JobDue (job_of a))) env' (run (handle Startup) env w)
          = run (handle Startup) env w)
      /\ (run_at_iso a <= now env' ->
          jobs_for (al_id a)
            (w_jobs (run (handle (JobDue (job_of a))) env' (run (handle Startup) env w))) = []
          /\ forall r,
               In r (alerts (w_db (run (handle (JobDue (job_of a))) env'
                                     (run (handle Startup) env w)))) ->
               al_id r = al_id a -> al_status r = sent)).
Proof.
  intros Hn Ha Hs.
  assert (Hrun : forall w0, run (handle Startup) env w0
    = {| w_db := recovered_db (now env) (Database.list_future_alerts (w_db w0)) (w_db w0);
         w_jobs := map job_of (filter (fun a => now env <? run_at_iso a)
                                 (Database.list_future_alerts (w_db w0)));
         w_out := w_out w0 |}).
  { intros w0. unfold run, handle, bind, restart. rewrite post_init_run. reflexivity. }
  rewrite !Hrun. cbn [w_db w_jobs w_out].
  assert (Hsched : Database.is_scheduled a = true)
    by (unfold Database.is_scheduled; rewrite Hs; reflexivity).
  split; [reflexivity|]. split; [reflexivity|]. split.
  - intros Hle. split.
    + rewrite recovered_alerts. apply in_map_iff. exists a. split; [|exact Ha].
      rewrite (pending_marked (now env) (w_db w) a Hn Ha), Hsched.
      apply Z.ltb_ge in Hle. rewrite Hle. reflexivity.
    + rewrite (jobs_for_recovered (now env) (w_db w) a Hn Ha), Hsched.
      apply Z.ltb_ge in Hle. rewrite Hle. reflexivity.
  - intros Hlt.
    assert (Hjobs : jobs_for (al_id a)
              (map job_of (filter (fun x => now env <? run_at_iso x)
                             (Database.list_future_alerts (w_db w)))) = [job_of a]).
    { rewrite (jobs_for_recovered (now env) (w_db w) a Hn Ha), Hsched.
      apply Z.ltb_lt in Hlt. rewrite Hlt. reflexivity. }
    split; [|split; [exact Hjobs|split; [reflexivity|split]]].
    + rewrite recovered_alerts. apply in_map_iff. exists a. split; [|exact Ha].
      rewrite (pending_marked (now env) (w_db w) a Hn Ha), Hsched.
      apply Z.ltb_lt in Hlt. rewrite Hlt. reflexivity.
    + intros Hearly. apply run_job_early. exact Hearly.
    + intros Hdue.
      match goal with
      | |- context [run (handle (JobDue (job_of a))) env' ?w1] =>
          destruct (run_job_due env' (job_of a) w1 Hjobs Hdue) as [Hq Hd]
      end.
      split; [exact Hq|]. intros r Hr Hid.
      unfold handle in Hr. rewrite Hd in Hr.
      apply (marked_rows_sent _ _ _ Hr Hid).
Qed.

Lemma alert_recovery_witness :
  alert_ids_unique (w_db recovery_world)
  /\ In coming_alert (alerts (w_db recovery_world))
  /\ al_status coming_alert = scheduled
  /\ w_out (run (handle Startup) sample_env recovery_world) = [].
Proof.
  assert (H1 : alert_ids_unique (w_db recovery_world)).
  { unfold alert_ids_unique. simpl. repeat constructor; simpl; intuition discriminate. }
  assert (H2 : In coming_alert (alerts (w_db recovery_world)))
    by (simpl; right; left; reflexivity).
  split; [exact H1|]. split; [exact H2|]. split; [reflexivity|].
  exact (proj1 (alert_recovery sample_env sample_env recovery_world coming_alert
                  H1 H2 eq_refl)).
Defined.

(** ** Broadcast *)

Lemma concat_batches_fuel {A : Type} (fuel n : nat) (l : list A) :
  (0 < n)%nat -> (List.length l <= fuel)%nat -> List.concat (batches_fuel fuel n l) = l.
Proof.
  intros Hn. revert l. induction fuel as [|f IH]; intros l Hl.
  - destruct l; [reflexivity | simpl in Hl; lia].
  - destruct l as [|x l]; [reflexivity|].
    cbn [batches_fuel List.concat]. rewrite IH.
    + apply firstn_skipn.
    + rewrite length_skipn. cbn [List.length] in *. lia.
Qed.

Lemma concat_batches {A : Type} (n : nat) (l : list A) :
  (0 < n)%nat -> List.concat (batches n l) = l.
Proof. intros Hn. apply concat_batches_fuel; [exact Hn | lia]. Qed.

















(** The fan-out on the sample store: the send to 30 raises, the send to 20
    returns, and the caller is told 1 and 1. *)
Example broadcast_sample :
  w_out (run (send_broadcast (Some "EV_k3Jx") "Doors open at nine" None)
           sample_env sample_world)
  = [chat_send_message {| ui_key := "broadcast_sending"; ui_args := [("n", AInt 2)] |};
     bot_send_message 20 "Admin of this event sent notification: Doors open at nine" true;
     bot_send_message 30 "Admin of this event sent notification: Doors open at nine" false;
     chat_send_message {| ui_key := "broadcast_done";
                          ui_args := [("success", AInt 1); ("fail", AInt 1)] |}].
Proof. reflexivity. Qed.

(** ** Feedback *)

Lemma set_feedback_stored (t : Z) (e : string) (u : Z) (r : Z) (c : option string)
    (d d' : DB) :
  Database.set_feedback t e u r c d = Ok d' ->
  stored_rating e u d' = Some r
  /\ stored_comment e u d' = coalesce c (stored_comment e u d).
Proof.
  unfold Database.set_feedback, stored_rating, stored_comment, Database.get_feedback,
    fetchone.
  destruct (existsb (Database.is_feedback e u) (feedback d)) eqn:E; intros H.
  - inversion H; subst; clear H. simpl.
    rewrite find_sql_update_same by (intros; assumption).
    apply find_some_existsb in E. destruct E as [f Hf]. rewrite Hf. simpl.
    split; reflexivity.
  - destruct (Database.event_exists e d); [|discriminate].
    inversion H; subst; clear H. simpl.
    apply find_none_existsb in E. rewrite (find_app_miss _ _ _ E), E. simpl.
    unfold Database.is_feedback. simpl. rewrite String.eqb_refl, Z.eqb_refl. simpl.
    split; [reflexivity | destruct c; reflexivity].
Qed.

Lemma set_feedback_returns (t : Z) (e : string) (u : Z) (r : Z) (c : option string)
    (d : DB) :
  Database.event_exists e d = true -> exists d', Database.set_feedback t e u r c d = Ok d'.
Proof.
  intros He. unfold Database.set_feedback. rewrite He.
  destruct (existsb _ _); eexists; reflexivity.
Qed.

Lemma set_feedback_frame (t : Z) (e : string) (u : Z) (r : Z) (c : option string)
    (d d' : DB) :
  Database.set_feedback t e u r c d = Ok d' ->
  events d' = events d /\ user_context d' = user_context d /\ user_state d' = user_state d.
Proof. intros H. repeat split; db_untouched. Qed.

(** At the store an empty string is a value like any other: the guard
    against an empty comment is the handler's, not [COALESCE]'s. *)
Remark set_feedback_empty_string (t : Z) (e : string) (u : Z) (r : Z) (d d' : DB) :
  Database.set_feedback t e u r (Some "") d = Ok d' -> stored_comment e u d' = Some "".
Proof. intros H. apply (set_feedback_stored _ _ _ _ _ _ _ H). Qed.

Lemma current_event_truthy (u : Z) (d : DB) (e : string) :
  Database.get_current_event u d = Some e -> PyStr.truthy e = true.
Proof.
  unfold Database.get_current_event.
  destruct (fetchone _ _) as [r|]; [|discriminate].
  destruct (PyStr.truthy (current_event_id r)) eqn:T; [|discriminate].
  intros H. inversion H; subst. exact T.
Qed.

Lemma event_exists_get_event (e : string) (d : DB) :
  Database.event_exists e d = true -> exists ev, Database.get_event e d = Some ev.
Proof.
  unfold Database.event_exists, Database.get_event, fetchone. intros H.
  apply find_some_existsb in H. destruct H as [r Hr]. rewrite Hr. eauto.
Qed.

(** The [p:rate:<n>] token of a participant of the current event. *)
Lemma on_callback_rate (env : Env) (user : User) (e n : string) (r : Z) (w : World) :
  Database.get_current_event (id user) (w_db w) = Some e ->
  Database.event_exists e (w_db w) = true ->
  Database.is_admin e (id user) (w_db w) = false ->
  PyStr.int (last_part ("p:rate:" ++ n)%string) = Some r ->
  exists d1,
    Database.set_feedback (now env) e (id user) r None (w_db w) = Ok d1
    /\ run (on_callback user ("p:rate:" ++ n)%string) env w
       = {| w_db := Database.set_user_state (now env) (id user) (Some "p_feedback_comment")
                      (Some (rating_payload e r)) d1;
            w_jobs := w_jobs w;
            w_out := w_out w ++ [safe_edit_or_send (txt "rating_saved_optional_comment")] |}.
Proof.
  intros Hcur Hex Hadm Hint.
  destruct (set_feedback_returns (now env) e (id user) r None (w_db w) Hex) as [d1 Hd1].
  destruct (event_exists_get_event e (w_db w) Hex) as [ev Hev].
  exists d1. split; [exact Hd1|].
  unfold on_callback, handle_participant_action. decide_tests. hsimp.
  hrewrite Hcur. hrewrite Hex. hrewrite Hadm. hrewrite Hev.
  rewrite startswith_append. hrewrite Hint. hrewrite Hd1. reflexivity.
Qed.

Lemma feedback_same_refl (d : DB) : feedback_same d d.
Proof. reflexivity. Qed.

Lemma feedback_same_trans (a b c : DB) :
  feedback_same a b -> feedback_same b c -> feedback_same a c.
Proof. unfold feedback_same. congruence. Qed.

Ltac keeps_feedback :=
  repeat (keeps_step feedback_same_refl feedback_same_trans);
  try first [ apply feedback_same_refl | unfold feedback_same; db_untouched ].

Lemma run_bind_ok {A B : Type} (m : H A) (k : A -> H B) (env : Env) (w w1 : World) (a : A) :
  m env w = (Ok a, w1) -> run (bind m k) env w = run (k a) env w1.
Proof. intros E. unfold run, bind. rewrite E. reflexivity. Qed.

Lemma is_cancel_empty (env : Env) : is_cancel env "" = false.
Proof. reflexivity. Qed.

Lemma strip_strip_empty (s : string) : PyStr.strip s = "" -> PyStr.strip (PyStr.strip s) = "".
Proof. intros ->. reflexivity. Qed.

(** An empty comment is answered by [comment_empty] and writes nothing. *)
Lemma on_text_comment_empty (env : Env) (user : User) (text : option string) (w : World)
    (payload : Payload) :
  Database.get_user_state (id user) (w_db w) = (Some "p_feedback_comment", payload) ->
  text_of text = "" ->
  run (on_text user text) env w
  = {| w_db := w_db w; w_jobs := w_jobs w;
       w_out := w_out w ++ [reply_text (txt "comment_empty")] |}.
Proof.
  intros Hst Ht. unfold on_text.
  change (PyStr.strip (opt_default text "")) with (text_of text). rewrite Ht.
  rewrite run_ask_bind, is_cancel_empty.
  unfold db.get_user_state. rewrite run_query_bind, Hst. cbn [fst snd].
  decide_tests. unfold db.get_current_event. rewrite run_query_bind.
  reflexivity.
Qed.

(** A comment is stored with the rating of the payload; what follows
    (leaving the flow, showing the menu) does not write [feedback]. *)
Lemma on_text_comment (env : Env) (user : User) (text : option string) (w : World)
    (e : string) (r : Z) :
  Database.get_user_state (id user) (w_db w)
    = (Some "p_feedback_comment", rating_payload e r) ->
  PyStr.truthy e = true ->
  Database.event_exists e (w_db w) = true ->
  is_cancel env (text_of text) = false ->
  PyStr.strip (text_of text) <> "" ->
  exists d1,
    Database.set_feedback (now env) e (id user) r (Some (PyStr.strip (text_of text))) (w_db w)
      = Ok d1
    /\ feedback (w_db (run (on_text user text) env w)) = feedback d1.
Proof.
  intros Hst He Hex Hc Hne.
  destruct (set_feedback_returns (now env) e (id user) r
              (Some (PyStr.strip (text_of text))) (w_db w) Hex) as [d1 Hd1].
  exists d1. split; [exact Hd1|].
  unfold on_text.
  change (PyStr.strip (opt_default text "")) with (text_of text).
  rewrite run_ask_bind, Hc.
  unfold db.get_user_state. rewrite run_query_bind, Hst. cbn [fst snd].
  decide_tests. unfold db.get_current_event. rewrite run_query_bind.
  cbn [rating_payload pl_event_id pl_rating py_or]. rewrite He.
  assert (T : PyStr.truthy (PyStr.strip (text_of text)) = true).
  { unfold PyStr.truthy. apply negb_true_iff, String.eqb_neq. exact Hne. }
  rewrite T. cbn [negb].
  rewrite run_bind_ok with (a := tt) (w1 := put_db d1 w).
  - match goal with
    | |- feedback (w_db (run ?m env ?w1)) = _ =>
        assert (K : keeps feedback_same env m) by keeps_feedback;
        exact (K w1)
    end.
  - hsimp. rewrite Hd1. reflexivity.
Qed.

Lemma feedback_set_user_state (t u : Z) (st : option string) (p : option Payload) (d : DB) :
  feedback (Database.set_user_state t u st p d) = feedback d.
Proof. unfold Database.set_user_state. destruct st; [destruct (existsb _ _)|]; reflexivity. Qed.

Lemma events_set_user_state (t u : Z) (st : option string) (p : option Payload) (d : DB) :
  events (Database.set_user_state t u st p d) = events d.
Proof. unfold Database.set_user_state. destruct st; [destruct (existsb _ _)|]; reflexivity. Qed.

Lemma context_set_user_state (t u : Z) (st : option string) (p : option Payload) (d : DB) :
  user_context (Database.set_user_state t u st p d) = user_context d.
Proof. unfold Database.set_user_state. destruct st; [destruct (existsb _ _)|]; reflexivity. Qed.

Lemma stored_same_feedback (e : string) (u : Z) (d d' : DB) :
  feedback d' = feedback d ->
  stored_rating e u d' = stored_rating e u d /\ stored_comment e u d' = stored_comment e u d.
Proof.
  intros E. unfold stored_rating, stored_comment, Database.get_feedback. rewrite E.
  split; reflexivity.
Qed.

(** What a rating leaves behind. *)
Lemma rate_step (env : Env) (user : User) (e n : string) (r : Z) (w : World) :
  Database.get_current_event (id user) (w_db w) = Some e ->
  Database.event_exists e (w_db w) = true ->
  Database.is_admin e (id user) (w_db w) = false ->
  PyStr.int (last_part ("p:rate:" ++ n)%string) = Some r ->
  let d1 := w_db (run (on_callback user ("p:rate:" ++ n)%string) env w) in
  stored_rating e (id user) d1 = Some r
  /\ stored_comment e (id user) d1 = stored_comment e (id user) (w_db w)
  /\ Database.get_user_state (id user) d1 = (Some "p_feedback_comment", rating_payload e r)
  /\ events d1 = events (w_db w)
  /\ user_context d1 = user_context (w_db w).
Proof.
  intros Hcur Hex Hadm Hint d1.
  destruct (on_callback_rate env user e n r w Hcur Hex Hadm Hint) as [d0 [Hd0 Hrun]].
  unfold d1. rewrite Hrun. cbn [w_db].
  destruct (set_feedback_stored _ _ _ _ _ _ _ Hd0) as [Hr Hc].
  destruct (set_feedback_frame _ _ _ _ _ _ _ Hd0) as [Hev [Hctx _]].
  destruct (stored_same_feedback e (id user) d0
              (Database.set_user_state (now env) (id user) (Some "p_feedback_comment")
                 (Some (rating_payload e r)) d0)
              (feedback_set_user_state _ _ _ _ _)) as [Er Ec].
  rewrite Er, Ec, Hr, Hc, events_set_user_state, context_set_user_state.
  repeat split; try assumption. apply get_user_state_set_same.
Qed.

Lemma same_tables_same_role (u : Z) (e : string) (d d' : DB) :
  events d' = events d -> user_context d' = user_context d ->
  Database.get_current_event u d' = Database.get_current_event u d
  /\ Database.event_exists e d' = Database.event_exists e d
  /\ Database.is_admin e u d' = Database.is_admin e u d.
Proof.
  intros E1 E2.
  unfold Database.get_current_event, Database.event_exists, Database.is_admin.
  rewrite E1, E2. repeat split.
Qed.

(** C5: a participant of the current event rates it ([p:rate:<r>]) and may
    then send a comment.  The rating stored becomes [r] and the stored
    comment stays as it was; a comment sent next is stored and the rating is
    still [r]; an empty comment is refused and writes nothing.  So rating
    +1, then an empty comment, then rating -1 ends with rating -1 and the
    comment that was stored before the empty-comment step. *)
Theorem feedback_upsert (env env2 env3 : Env) (user : User) (e n : string) (r : Z)
    (text blank : option string) (w : World) :
  Database.get_current_event (id user) (w_db w) = Some e ->
  Database.event_exists e (w_db w) = true ->
  Database.is_admin e (id user) (w_db w) = false ->
  PyStr.int (last_part ("p:rate:" ++ n)%string) = Some r ->
  is_cancel env2 (text_of text) = false ->
  PyStr.strip (text_of text) <> "" ->
  text_of blank = "" ->
  let rated := run (on_callback user ("p:rate:" ++ n)%string) env w in
  let commented := run (on_text user text) env2 rated in
  let up := run (on_callback user "p:rate:1") env w in
  let up_blank := run (on_text user blank) env2 up in
  let down := run (on_callback user "p:rate:-1") env3 up_blank in
  (stored_rating e (id user) (w_db rated) = Some r
   /\ stored_comment e (id user) (w_db rated) = stored_comment e (id user) (w_db w))
  /\ (stored_rating e (id user) (w_db commented) = Some r
      /\ stored_comment e (id user) (w_db commented) = Some (PyStr.strip (text_of text)))
  /\ w_db (run (on_text user blank) env2 rated) = w_db rated
  /\ (stored_rating e (id user) (w_db down) = Some (-1)
      /\ stored_comment e (id user) (w_db down) = stored_comment e (id user) (w_db up)
      /\ stored_comment e (id user) (w_db up_blank) = stored_comment e (id user) (w_db up)).
Proof.
  intros Hcur Hex Hadm Hint Hc Hne Hblank rated commented up up_blank down.
  destruct (rate_step env user e n r w Hcur Hex Hadm Hint) as [R1 [R2 [R3 [R4 R5]]]].
  fold rated in R1, R2, R3, R4, R5.
  assert (He : PyStr.truthy e = true) by (apply (current_event_truthy _ _ _ Hcur)).
  split; [split; assumption|]. split; [|split].
  - destruct (same_tables_same_role (id user) e (w_db w) (w_db rated) R4 R5)
      as [_ [Hex1 _]].
    rewrite <- Hex1 in Hex.
    destruct (on_text_comment env2 user text rated e r R3 He Hex Hc Hne) as [d1 [Hd1 Hf]].
    fold commented in Hf.
    destruct (stored_same_feedback e (id user) d1 (w_db commented) Hf) as [Er Ec].
    destruct (set_feedback_stored _ _ _ _ _ _ _ Hd1) as [Hr Hcm].
    rewrite Er, Ec, Hr, Hcm. split; reflexivity.
  - rewrite (on_text_comment_empty env2 user blank rated _ R3 Hblank). reflexivity.
  - assert (U : stored_rating e (id user) (w_db up) = Some 1
                /\ stored_comment e (id user) (w_db up) = stored_comment e (id user) (w_db w)
                /\ Database.get_user_state (id user) (w_db up)
                   = (Some "p_feedback_comment", rating_payload e 1)
                /\ events (w_db up) = events (w_db w)
                /\ user_context (w_db up) = user_context (w_db w))
      by exact (rate_step env user e "1" 1 w Hcur Hex Hadm eq_refl).
    destruct U as [U1 [U2 [U3 [U4 U5]]]].
    assert (Hub : w_db up_blank = w_db up).
    { unfold up_blank. rewrite (on_text_comment_empty env2 user blank up _ U3 Hblank).
      reflexivity. }
    rewrite <- Hub in U4, U5.
    destruct (same_tables_same_role (id user) e (w_db w) (w_db up_blank) U4 U5)
      as [C1 [C2 C3]].
    rewrite <- C1 in Hcur. rewrite <- C2 in Hex. rewrite <- C3 in Hadm.
    assert (D : stored_rating e (id user) (w_db down) = Some (-1)
                /\ stored_comment e (id user) (w_db down)
                   = stored_comment e (id user) (w_db up_blank))
      by (split; apply (rate_step env3 user e "-1" (-1) up_blank Hcur Hex Hadm eq_refl)).
    destruct D as [D1 D2]. rewrite D1, D2, Hub. repeat split.
Qed.

Lemma feedback_upsert_witness :
  Database.get_current_event 20 (w_db rated_world) = Some "EV_k3Jx"
  /\ Database.event_exists "EV_k3Jx" (w_db rated_world) = true
  /\ Database.is_admin "EV_k3Jx" 20 (w_db rated_world) = false
  /\ PyStr.int (last_part "p:rate:1") = Some 1
  /\ is_cancel sample_env (text_of (Some "great talks")) = false
  /\ PyStr.strip (text_of (Some "great talks")) <> ""
  /\ text_of (Some "   ") = ""
  /\ stored_rating "EV_k3Jx" 20
       (w_db (run (on_callback guest "p:rate:-1") sample_env
                (run (on_text guest (Some "   ")) sample_env
                   (run (on_callback guest "p:rate:1") sample_env rated_world))))
     = Some (-1).
Proof.
  assert (H6 : PyStr.strip (text_of (Some "great talks")) <> "") by discriminate.
  repeat (split; [reflexivity|]). split; [exact H6|]. split; [reflexivity|].
  exact (proj1 (proj2 (proj2 (proj2
           (feedback_upsert sample_env sample_env sample_env guest "EV_k3Jx" "1" 1
              (Some "great talks") (Some "   ") rated_world
              eq_refl eq_refl eq_refl eq_refl eq_refl H6 eq_refl))))).
Defined.

(** The sequence of the claim on the sample store: the comment stored
    before it is still there, under the new rating. *)
Example feedback_sequence_sample :
  Database.get_feedback "EV_k3Jx" 20
    (w_db (run_all [(sample_env, CallbackQuery guest "p:rate:1");
                    (sample_env, TextMessage guest (Some ""));
                    (sample_env, CallbackQuery guest "p:rate:-1")] rated_world))
  = Some {| f_event_id := "EV_k3Jx"; f_telegram_id := 20; rating := -1;
            comment := Some "too crowded"; f_created_at := 1767000000000000 |}.
Proof. reflexivity. Qed.

(** ** Organizer flows and the organizer check *)

(** The agenda flow checks the caller against the event of the payload: a
    caller who is not its organizer is refused and nothing is written
    besides the state being cleared. *)
Lemma on_text_agenda_refuses (env : Env) (user : User) (text : option string) (w : World)
    (e : string) :
  Database.get_user_state (id user) (w_db w) = (Some "admin_edit_agenda", payload_for e) ->
  PyStr.truthy e = true ->
  is_cancel env (text_of text) = false ->
  Database.is_admin e (id user) (w_db w) = false ->
  run (on_text user text) env w
  = {| w_db := Database.clear_user_state (now env) (id user) (w_db w);
       w_jobs := w_jobs w;
       w_out := w_out w ++ [reply_text (txt "not_allowed")] |}.
Proof.
  intros Hst He Hc Hadm. unfold on_text.
  change (PyStr.strip (opt_default text "")) with (text_of text).
  rewrite run_ask_bind, Hc.
  unfold db.get_user_state. rewrite run_query_bind, Hst. cbn [fst snd].
  decide_tests. unfold db.get_current_event. rewrite run_query_bind.
  cbn [payload_for pl_event_id py_or]. rewrite He. hsimp. rewrite Hadm.
  rewrite orb_true_r. reflexivity.
Qed.


(** How such a state comes about in a session: the organizer opens the time
    flow and deletes the event, which leaves the flow's state in place; if
    another user's new event then receives the same id, the organizer's
    next text sets that event's time. *)
Example stale_flow_session :
  let session :=
    [(sample_env, CallbackQuery organizer "event:create");
     (sample_env, TextMessage organizer (Some "Launch"));
     (sample_env, CallbackQuery organizer "admin:time_edit");
     (sample_env, CallbackQuery organizer "event:delete:EV_k3Jx:hub");
     (sample_env, CallbackQuery guest "event:create");
     (sample_env, TextMessage guest (Some "Party"));
     (sample_env, TextMessage organizer (Some "2026-01-15 15:30"))] in
  let d := w_db (run_all session initial_world) in
  Database.is_admin "EV_k3Jx" 10 d = false
  /\ Database.is_admin "EV_k3Jx" 20 d = true
  /\ Database.content_get event_time (Database.get_event_content "EV_k3Jx" d)
     = Some 1768487400000000.
Proof. repeat split. Qed.

(** ** Helpers: captions, escaping, phone numbers, batches and tokens *)

Lemma length_substring_0 (n : nat) (s : string) :
  String.length (String.substring 0 n s) = Nat.min n (String.length s).
Proof.
  revert n. induction s as [|c r IH]; intros [|n]; simpl; auto.
Qed.

Lemma prefix_substring_0 (n : nat) (s : string) :
  String.prefix (String.substring 0 n s) s = true.
Proof.
  revert n. induction s as [|c r IH]; intros [|n]; simpl; auto.
  destruct (ascii_dec c c) as [_|N]; [apply IH | congruence].
Qed.

Lemma length_string_app (a b : string) :
  String.length (a ++ b)%string = (String.length a + String.length b)%nat.
Proof. induction a as [|c a IH]; simpl; [reflexivity | rewrite IH; reflexivity]. Qed.

(** X1: a caption that fits its limit is returned as it is; a longer one is
    a prefix of the text followed by three dots, and, when the limit is at
    least 3, it is exactly [limit] characters long. *)
Theorem clamp_caption_fits (text : string) (limit : Z) :
  3 <= limit ->
  Z.of_nat (String.length (clamp_caption text limit)) <= limit
  /\ (Z.of_nat (String.length text) <= limit -> clamp_caption text limit = text)
  /\ (limit < Z.of_nat (String.length text) ->
      Z.of_nat (String.length (clamp_caption text limit)) = limit
      /\ exists p, clamp_caption text limit = (p ++ "...")%string
                   /\ String.prefix p text = true).
Proof.
  intros H3. unfold clamp_caption, py_prefix.
  destruct (Z.leb_spec (Z.of_nat (String.length text)) limit) as [Hle|Hgt].
  - split; [exact Hle|]. split; [reflexivity | lia].
  - assert (E : (0 <=? limit - 3) = true) by (apply Z.leb_le; lia). rewrite E.
    assert (L : Z.of_nat (String.length
                  (String.substring 0 (Z.to_nat (limit - 3)) text ++ "...")%string) = limit).
    { rewrite length_string_app, length_substring_0. simpl String.length. lia. }
    split; [lia|]. split; [lia|]. intros _. split; [exact L|].
    eexists. split; [reflexivity | apply prefix_substring_0].
Qed.

Lemma clamp_caption_fits_witness :
  3 <= 8 /\ Z.of_nat (String.length (clamp_caption "Launch party" 8)) <= 8.
Proof.
  split; [lia|]. apply (clamp_caption_fits "Launch party" 8). lia.
Defined.

Lemma all_chars_app (P : ascii -> bool) (a b : string) :
  all_chars P (a ++ b)%string = all_chars P a && all_chars P b.
Proof.
  induction a as [|c a IH]; simpl; [reflexivity|]. rewrite IH. apply andb_assoc.
Qed.

(** X2: the escaped text holds no [<] and no [>], so a name or a location
    typed by a user cannot open a tag in an HTML message; a text without
    [&], [<] and [>] is returned as it is. *)
Theorem html_escape_no_markup (s : string) :
  all_chars (fun c => negb (markup_char c)) (PyStr.html_escape s) = true
  /\ (all_chars (fun c => negb (markup_char c || Ascii.eqb c "&")) s = true ->
      PyStr.html_escape s = s).
Proof.
  split.
  - induction s as [|c r IH]; simpl; [reflexivity|].
    rewrite all_chars_app, IH, andb_true_r. unfold markup_char.
    destruct (Ascii.eqb c "&") eqn:Ea; [reflexivity|].
    destruct (Ascii.eqb c "<") eqn:El; [reflexivity|].
    destruct (Ascii.eqb c ">") eqn:Eg; [reflexivity|].
    simpl. rewrite El, Eg. reflexivity.
  - induction s as [|c r IH]; simpl; [reflexivity|].
    unfold markup_char. intros H. apply andb_true_iff in H. destruct H as [Hc Hr].
    rewrite (IH Hr).
    destruct (Ascii.eqb c "&"); [rewrite orb_true_r in Hc; discriminate|].
    destruct (Ascii.eqb c "<"); [discriminate|].
    destruct (Ascii.eqb c ">"); [discriminate|]. reflexivity.
Qed.

Lemma html_escape_no_markup_witness :
  PyStr.html_escape "Launch 2026" = "Launch 2026".
Proof. apply (html_escape_no_markup "Launch 2026"). reflexivity. Defined.

(** *** [norm_phone] *)

Lemma phone_char_visible (c : ascii) : phone_char c = true -> PyStr.is_space c = false.
Proof.
  destruct c as [[] [] [] [] [] [] [] []]; vm_compute; intros H; first [reflexivity | discriminate H].
Qed.

Lemma all_chars_filter_chars (P : ascii -> bool) (s : string) :
  all_chars P (PyStr.filter_chars P s) = true.
Proof.
  induction s as [|c r IH]; simpl; [reflexivity|].
  destruct (P c) eqn:E; simpl; [rewrite E|]; exact IH.
Qed.

Lemma filter_chars_kept (P : ascii -> bool) (s : string) :
  all_chars P s = true -> PyStr.filter_chars P s = s.
Proof.
  induction s as [|c r IH]; simpl; [reflexivity|].
  intros H. apply andb_true_iff in H. destruct H as [Hc Hr].
  rewrite Hc, (IH Hr). reflexivity.
Qed.

Lemma remove_char_absent (P : ascii -> bool) (ch : ascii) (s : string) :
  P ch = false -> all_chars P s = true -> PyStr.remove_char ch s = s.
Proof.
  intros Hch. induction s as [|c r IH]; simpl; [reflexivity|].
  intros H. apply andb_true_iff in H. destruct H as [Hc Hr].
  destruct (Ascii.eqb_spec c ch) as [->|_]; [congruence|].
  rewrite (IH Hr). reflexivity.
Qed.

Lemma all_chars_rev_onto (P : ascii -> bool) (s acc : string) :
  all_chars P (PyStr.rev_onto s acc) = all_chars P s && all_chars P acc.
Proof.
  revert acc. induction s as [|c r IH]; intros acc; simpl; [reflexivity|].
  rewrite IH. simpl. destruct (P c), (all_chars P r); reflexivity.
Qed.

Lemma rev_onto_rev_onto (s a b : string) :
  PyStr.rev_onto (PyStr.rev_onto s a) b = PyStr.rev_onto a (s ++ b)%string.
Proof.
  revert a b. induction s as [|c r IH]; intros a b; simpl; [reflexivity|].
  rewrite IH. reflexivity.
Qed.

Lemma string_app_empty (s : string) : (s ++ "")%string = s.
Proof. induction s as [|c r IH]; simpl; [reflexivity | rewrite IH; reflexivity]. Qed.

Lemma rev_rev (s : string) : PyStr.rev (PyStr.rev s) = s.
Proof. unfold PyStr.rev. rewrite rev_onto_rev_onto. simpl. apply string_app_empty. Qed.

Lemma lstrip_visible (P : ascii -> bool) (s : string) :
  (forall c, P c = true -> PyStr.is_space c = false) ->
  all_chars P s = true -> PyStr.lstrip s = s.
Proof.
  intros HP. destruct s as [|c r]; simpl; [reflexivity|].
  intros H. apply andb_true_iff in H. rewrite (HP c (proj1 H)). reflexivity.
Qed.

(** A text made of visible characters only is its own [strip()]. *)
Lemma strip_visible (P : ascii -> bool) (s : string) :
  (forall c, P c = true -> PyStr.is_space c = false) ->
  all_chars P s = true -> PyStr.strip s = s.
Proof.
  intros HP H. unfold PyStr.strip, PyStr.rstrip.
  rewrite (lstrip_visible P s HP H).
  rewrite (lstrip_visible P (PyStr.rev s) HP).
  - apply rev_rev.
  - unfold PyStr.rev. rewrite all_chars_rev_onto, H. reflexivity.
Qed.

Lemma norm_phone_chars (s p : string) :
  norm_phone (Some s) = Some p -> p <> "" /\ all_chars phone_char p = true.
Proof.
  unfold norm_phone. destruct (PyStr.truthy s); [|discriminate].
  match goal with
  | |- (if PyStr.truthy ?x then _ else _) = _ -> _ => set (q := x)
  end.
  destruct (PyStr.truthy q) eqn:T; [|discriminate].
  intros E. inversion E; subst p. split.
  - unfold PyStr.truthy in T. apply negb_true_iff, String.eqb_neq in T. exact T.
  - apply (all_chars_filter_chars phone_char).
Qed.

Lemma norm_phone_fixed (p : string) :
  p <> "" -> all_chars phone_char p = true -> norm_phone (Some p) = Some p.
Proof.
  intros Hne Hp. unfold norm_phone.
  assert (T : PyStr.truthy p = true).
  { unfold PyStr.truthy. apply negb_true_iff, String.eqb_neq. exact Hne. }
  rewrite T. rewrite (strip_visible phone_char p phone_char_visible Hp).
  rewrite (remove_char_absent phone_char " " p eq_refl Hp).
  rewrite (remove_char_absent phone_char "-" p eq_refl Hp).
  change (fun c : ascii => PyStr.is_digit c || Ascii.eqb c "+") with phone_char.
  rewrite (filter_chars_kept phone_char p Hp), T. reflexivity.
Qed.

(** X3: a phone number that [norm_phone] accepts is stored in canonical
    form: the result is not empty, holds digits and [+] only, and is left as
    it is by a second normalisation. *)
Theorem norm_phone_canonical (s p : string) :
  norm_phone (Some s) = Some p ->
  p <> "" /\ all_chars phone_char p = true /\ norm_phone (Some p) = Some p.
Proof.
  intros H. destruct (norm_phone_chars s p H) as [Hne Hp].
  split; [exact Hne|]. split; [exact Hp|]. apply norm_phone_fixed; assumption.
Qed.

Lemma norm_phone_canonical_witness :
  norm_phone (Some " +1 (555) 010-99 ") = Some "+155501099"
  /\ norm_phone (Some "+155501099") = Some "+155501099".
Proof.
  split; [reflexivity|].
  apply (norm_phone_canonical " +1 (555) 010-99 " "+155501099"). reflexivity.
Defined.

(** *** Batches *)

Lemma batches_fuel_sizes {A : Type} (fuel n : nat) (l : list A) :
  (0 < n)%nat ->
  Forall (fun b => (1 <= List.length b <= n)%nat) (batches_fuel fuel n l).
Proof.
  intros Hn. revert l. induction fuel as [|f IH]; intros l; simpl; [constructor|].
  destruct l as [|x l]; [constructor|].
  constructor; [|apply IH].
  rewrite length_firstn. cbn [List.length]. lia.
Qed.

(** X4: cutting a list into batches of [size] loses and reorders nothing,
    and every batch holds between one and [size] elements. *)
Theorem batches_partition {A : Type} (size : nat) (l : list A) :
  (0 < size)%nat ->
  List.concat (batches size l) = l
  /\ Forall (fun b => (1 <= List.length b <= size)%nat) (batches size l).
Proof.
  intros Hn. split; [apply concat_batches; exact Hn | apply batches_fuel_sizes; exact Hn].
Qed.

Lemma batches_partition_witness :
  (0 < 2)%nat /\ List.concat (batches 2 [1; 2; 3; 4; 5]) = [1; 2; 3; 4; 5].
Proof.
  split; [lia|]. apply (batches_partition 2 [1; 2; 3; 4; 5]). lia.
Defined.

(** *** Callback tokens *)

Lemma split_nonempty (s : string) : PyStr.split ":" s <> [].
Proof.
  destruct s as [|c r]; simpl; [discriminate|].
  destruct (Ascii.eqb c ":"); [discriminate|].
  destruct (PyStr.split ":" r); discriminate.
Qed.

Lemma split_field (f rest : string) :
  token_field f = true ->
  PyStr.split ":" (f ++ ":" ++ rest)%string = f :: PyStr.split ":" rest.
Proof.
  unfold token_field. induction f as [|c f IH]; simpl; [reflexivity|].
  intros H. apply andb_true_iff in H. destruct H as [Hc Hf].
  apply negb_true_iff in Hc. rewrite Hc.
  change (PyStr.split ":" (f ++ String ":" rest)%string)
    with (PyStr.split ":" (f ++ ":" ++ rest)%string).
  rewrite (IH Hf). reflexivity.
Qed.

Lemma split_last_field (f : string) :
  token_field f = true -> PyStr.split ":" f = [f].
Proof.
  unfold token_field. induction f as [|c f IH]; simpl; [reflexivity|].
  intros H. apply andb_true_iff in H. destruct H as [Hc Hf].
  apply negb_true_iff in Hc. rewrite Hc, (IH Hf). reflexivity.
Qed.

Lemma split_fields (s : string) :
  Forall (fun f => token_field f = true) (PyStr.split ":" s)
  /\ String.concat ":" (PyStr.split ":" s) = s.
Proof.
  induction s as [|c r [IHf IHc]]; simpl.
  - split; [repeat constructor | reflexivity].
  - destruct (PyStr.split ":" r) as [|w ws] eqn:E; [destruct (split_nonempty r E)|].
    apply Forall_cons_iff in IHf. destruct IHf as [Hw Hws].
    destruct (Ascii.eqb_spec c ":") as [->|Hc].
    + split; [repeat constructor; assumption|].
      rewrite <- IHc. reflexivity.
    + split.
      * constructor; [|exact Hws]. unfold token_field in *. simpl.
        apply Ascii.eqb_neq in Hc. rewrite Hc, Hw. reflexivity.
      * rewrite <- IHc. destruct ws; reflexivity.
Qed.

(** X5: the unpacking [_, _, eid, back = data.split(":")] of the [event:]
    tokens succeeds exactly on a token of four fields, none of which holds a
    colon, and then yields its third and fourth field; on every other token
    it raises. *)
Theorem four_parts_fields (data eid back : string) :
  four_parts data = Some (eid, back)
  <-> exists a b,
        token_field a = true /\ token_field b = true
        /\ token_field eid = true /\ token_field back = true
        /\ data = (a ++ ":" ++ b ++ ":" ++ eid ++ ":" ++ back)%string.
Proof.
  unfold four_parts. split.
  - destruct (split_fields data) as [Hf Hc].
    destruct (PyStr.split ":" data) as [|a [|b [|e [|k [|x l]]]]]; try discriminate.
    intros E. inversion E; subst e k. exists a, b.
    repeat (apply Forall_cons_iff in Hf; destruct Hf as [? Hf]).
    repeat (split; [assumption|]). symmetry. exact Hc.
  - intros [a [b [Ha [Hb [He [Hk ->]]]]]].
    rewrite (split_field a _ Ha), (split_field b _ Hb), (split_field eid _ He),
      (split_last_field back Hk). reflexivity.
Qed.

(** ** The store: events, the current-event pointer, leaving, alert keys *)

Lemma event_key_sep {A : Type} (f : A -> string) (e e' : string) :
  e' <> e -> forall r, String.eqb (f r) e' = true -> String.eqb (f r) e = false.
Proof.
  intros Hne r H. apply String.eqb_eq in H. apply String.eqb_neq. congruence.
Qed.

Lemma event_exists_find (e : string) (d : DB) :
  Database.event_exists e d = true <-> exists r, find (Database.is_event e) (events d) = Some r.
Proof. apply find_some_existsb. Qed.

Lemma view_delete_event_same (e : string) (d : DB) :
  Database.event_exists e d = true -> view e (Database.delete_event e d) = no_view.
Proof.
  intros He. unfold Database.delete_event. rewrite He.
  unfold view, no_view, Database.get_event, Database.get_event_content,
    Database.list_members, Database.get_photos, Database.list_questions,
    feedback_of, alerts_of, fetchone, Database.is_event, Database.is_content.
  cbn [events event_content participants photos anonymous_questions feedback alerts].
  rewrite !find_sql_delete_same, !filter_sql_delete_same. reflexivity.
Qed.

Lemma view_delete_event_other (e e' : string) (d : DB) :
  e' <> e -> view e' (Database.delete_event e d) = view e' d.
Proof.
  intros Hne. unfold Database.delete_event.
  destruct (Database.event_exists e d); [|reflexivity].
  unfold view, Database.get_event, Database.get_event_content,
    Database.list_members, Database.get_photos, Database.list_questions,
    feedback_of, alerts_of, fetchone, Database.is_event, Database.is_content.
  cbn [events event_content participants photos anonymous_questions feedback alerts].
  rewrite (find_sql_delete_other _ _ (events d) (event_key_sep ev_event_id e e' Hne)).
  rewrite (find_sql_delete_other _ _ (event_content d)
             (event_key_sep ec_event_id e e' Hne)).
  rewrite (filter_sql_delete_other _ _ (participants d)
             (event_key_sep p_event_id e e' Hne)).
  rewrite (filter_sql_delete_other _ _ (photos d) (event_key_sep ph_event_id e e' Hne)).
  rewrite (filter_sql_delete_other _ _ (anonymous_questions d)
             (event_key_sep q_event_id e e' Hne)).
  rewrite (filter_sql_delete_other _ _ (feedback d) (event_key_sep f_event_id e e' Hne)).
  rewrite (filter_sql_delete_other _ _ (alerts d) (event_key_sep al_event_id e e' Hne)).
  reflexivity.
Qed.

Lemma event_exists_delete_event (e : string) (d : DB) :
  Database.event_exists e (Database.delete_event e d) = false.
Proof.
  unfold Database.delete_event.
  destruct (Database.event_exists e d) eqn:He; [|exact He].
  unfold Database.event_exists. cbn [events].
  apply find_none_existsb, find_sql_delete_same.
Qed.

Lemma delete_event_frame (e : string) (d : DB) :
  user_state (Database.delete_event e d) = user_state d
  /\ user_context (Database.delete_event e d) = user_context d.
Proof.
  unfold Database.delete_event. destruct (Database.event_exists e d); split; reflexivity.
Qed.

(** X6: deleting an existing event removes it with everything that belongs
    to it (content, participants, photos, questions, feedback and alerts),
    leaves every other event as it was, and does not touch the flow states
    and the current-event pointers, which may go on naming the deleted
    event. *)
Theorem delete_event_cascades (e : string) (d : DB) :
  Database.event_exists e d = true ->
  view e (Database.delete_event e d) = no_view
  /\ Database.event_exists e (Database.delete_event e d) = false
  /\ (forall e', e' <> e -> view e' (Database.delete_event e d) = view e' d)
  /\ user_state (Database.delete_event e d) = user_state d
  /\ user_context (Database.delete_event e d) = user_context d.
Proof.
  intros He.
  split; [apply view_delete_event_same; exact He|].
  split; [apply event_exists_delete_event|].
  split; [intros e' Hne; apply view_delete_event_other; exact Hne|].
  apply delete_event_frame.
Qed.

Lemma delete_event_cascades_witness :
  Database.event_exists "EV_k3Jx" sample_db = true
  /\ view "EV_k3Jx" (Database.delete_event "EV_k3Jx" sample_db) = no_view
  /\ Database.get_current_event 20 (Database.delete_event "EV_k3Jx" sample_db)
     = Some "EV_k3Jx".
Proof.
  split; [reflexivity|].
  split; [apply (delete_event_cascades "EV_k3Jx" sample_db); reflexivity | reflexivity].
Defined.

(** X7: [create_event] returns only for an id that is not in use, and then
    the event is there with the given name (an empty name shown as ["Event "]
    and the first eight characters of the id), organized by the caller and by
    nobody else, and with a content row; every other event, the flow states
    and the current-event pointers are as they were. *)
Theorem create_event_fresh (t : Z) (e : string) (admin : Z) (name : string) (d d' : DB) :
  Database.create_event t e admin name d = Ok d' ->
  Database.event_exists e d = false
  /\ Database.get_event e d'
     = Some {| ev_event_id := e;
               ev_event_name := if PyStr.truthy name then name
                                else ("Event " ++ String.substring 0 8 e)%string;
               ev_admin_id := admin; ev_created_at := isoformat_seconds t |}
  /\ (forall u, Database.is_admin e u d' = Z.eqb admin u)
  /\ (exists c, Database.get_event_content e d' = Some c)
  /\ (forall e', e' <> e -> view e' d' = view e' d)
  /\ user_state d' = user_state d
  /\ user_context d' = user_context d.
Proof.
  unfold Database.create_event. destruct (Database.event_exists e d) eqn:He; [discriminate|].
  intros H. inversion H; subst d'; clear H.
  assert (Hn : find (Database.is_event e) (events d) = None)
    by (apply find_none_existsb; exact He).
  split; [reflexivity|].
  split; [|split; [|split; [|split; [|split; reflexivity]]]].
  - unfold Database.get_event, fetchone. cbn [events Database.with_event_content
      Database.with_events].
    rewrite (find_app_miss _ _ _ Hn). unfold Database.is_event. simpl.
    rewrite String.eqb_refl. reflexivity.
  - intros u. unfold Database.is_admin, fetchone. cbn [events Database.with_event_content
      Database.with_events].
    rewrite (find_app_miss _ _ _ Hn). unfold Database.is_event. simpl.
    rewrite String.eqb_refl. reflexivity.
  - unfold Database.get_event_content, fetchone.
    cbn [event_content Database.with_event_content].
    destruct (existsb (Database.is_content e) (event_content d)) eqn:Ec.
    + apply find_some_existsb in Ec. exact Ec.
    + apply find_none_existsb in Ec. rewrite (find_app_miss _ _ _ Ec).
      unfold Database.is_content. simpl.
      rewrite String.eqb_refl. eauto.
  - intros e' Hne.
    assert (Hs : String.eqb e e' = false) by (apply String.eqb_neq; congruence).
    unfold view, Database.get_event, Database.get_event_content, fetchone.
    cbn [events event_content Database.with_event_content Database.with_events].
    f_equal.
    + destruct (find (Database.is_event e') (events d)) as [r|] eqn:F.
      * rewrite (find_app_hit _ _ _ _ F). reflexivity.
      * rewrite (find_app_miss _ _ _ F). unfold Database.is_event. simpl.
        rewrite Hs. reflexivity.
    + destruct (existsb (Database.is_content e) (event_content d)); [reflexivity|].
      destruct (find (Database.is_content e') (event_content d)) as [r|] eqn:F.
      * rewrite (find_app_hit _ _ _ _ F). reflexivity.
      * rewrite (find_app_miss _ _ _ F).
        unfold Database.is_content. simpl.
        rewrite Hs. reflexivity.
Qed.

Lemma create_event_fresh_witness :
  exists d',
    Database.create_event 0 "EV_new" 20 "" sample_db = Ok d'
    /\ Database.is_admin "EV_new" 20 d' = true
    /\ Database.is_admin "EV_new" 10 d' = false.
Proof.
  eexists. split; [reflexivity|].
  split; apply (create_event_fresh 0 "EV_new" 20 "" sample_db _ eq_refl).
Defined.

Lemma is_context_sep (u u' : Z) :
  u' <> u ->
  forall r, Database.is_context_of u' r = true -> Database.is_context_of u r = false.
Proof.
  intros Hne r H. unfold Database.is_context_of in *. apply Z.eqb_eq in H.
  apply Z.eqb_neq. congruence.
Qed.

Lemma get_current_event_set_same (t u : Z) (e : string) (d : DB) :
  Database.get_current_event u (Database.set_current_event t u (Some e) d)
  = if PyStr.truthy e then Some e else None.
Proof.
  unfold Database.get_current_event, Database.set_current_event, fetchone.
  destruct (existsb (Database.is_context_of u) (user_context d)) eqn:E;
    cbn [user_context Database.with_user_context].
  - rewrite find_sql_update_same.
    + apply find_some_existsb in E. destruct E as [r Hr]. rewrite Hr. reflexivity.
    + intros r _. unfold Database.is_context_of. simpl. apply Z.eqb_refl.
  - apply find_none_existsb in E. rewrite (find_app_miss _ _ _ E).
    unfold Database.is_context_of. simpl. rewrite Z.eqb_refl. reflexivity.
Qed.

Lemma get_current_event_clear (t u : Z) (d : DB) :
  Database.get_current_event u (Database.set_current_event t u None d) = None.
Proof.
  unfold Database.get_current_event, Database.set_current_event, fetchone.
  cbn [user_context Database.with_user_context].
  rewrite find_sql_delete_same. reflexivity.
Qed.

Lemma get_current_event_set_other (t u u' : Z) (v : option string) (d : DB) :
  u' <> u ->
  Database.get_current_event u' (Database.set_current_event t u v d)
  = Database.get_current_event u' d.
Proof.
  intros Hne. unfold Database.get_current_event, Database.set_current_event, fetchone.
  destruct v as [e|]; cbn [user_context Database.with_user_context].
  - destruct (existsb (Database.is_context_of u) (user_context d)) eqn:E;
      cbn [user_context Database.with_user_context].
    + rewrite find_sql_update_other; [reflexivity | | apply is_context_sep; exact Hne].
      intros r Hr. unfold Database.is_context_of in *. simpl.
      apply Z.eqb_eq in Hr. rewrite Hr. reflexivity.
    + destruct (find (Database.is_context_of u') (user_context d)) as [r|] eqn:F.
      * rewrite (find_app_hit _ _ _ _ F). reflexivity.
      * rewrite (find_app_miss _ _ _ F).
        unfold Database.is_context_of. simpl.
        destruct (Z.eqb_spec u u'); [congruence | reflexivity].
  - rewrite find_sql_delete_other; [reflexivity | apply is_context_sep; exact Hne].
Qed.

(** X8: the current-event pointer reads back what was written for the same
    user: a non-empty id as it is, the empty id and the cleared pointer as
    no event; and writing one user's pointer leaves every other user's. *)
Theorem current_event_round_trip (t u : Z) (e : string) (d : DB) :
  Database.get_current_event u (Database.set_current_event t u (Some e) d)
    = (if PyStr.truthy e then Some e else None)
  /\ Database.get_current_event u (Database.set_current_event t u None d) = None
  /\ (forall u' v, u' <> u ->
        Database.get_current_event u' (Database.set_current_event t u v d)
        = Database.get_current_event u' d).
Proof.
  split; [apply get_current_event_set_same|].
  split; [apply get_current_event_clear|].
  intros u' v Hne. apply get_current_event_set_other. exact Hne.
Qed.

Lemma current_event_round_trip_witness :
  Database.get_current_event 20 (Database.set_current_event 0 10 None sample_db)
  = Some "EV_k3Jx".
Proof.
  rewrite (proj2 (proj2 (current_event_round_trip 0 10 "" sample_db)) 20 None);
    [reflexivity | lia].
Defined.

(** X9: leaving removes the caller's participant row and nothing else, so
    the registration is forgotten: the caller is no longer fully
    registered, and joining again gives a stub with the three registration
    columns empty, while the caller's feedback stays in the store. *)
Theorem leave_event_forgets_registration (t : Z) (e : string) (u : Z)
    (a b c : option string) (d d2 : DB) :
  Database.ensure_participant_stub t e u a b c (Database.leave_event e u d) = Ok d2 ->
  get_participant e u (Database.leave_event e u d) = None
  /\ Database.has_full_registration e u (Database.leave_event e u d) = false
  /\ (forall e' u', (e', u') <> (e, u) ->
        participant_rows e' u' (Database.leave_event e u d) = participant_rows e' u' d)
  /\ feedback (Database.leave_event e u d) = feedback d
  /\ (exists r, get_participant e u d2 = Some r /\ unregistered r)
  /\ Database.has_full_registration e u d2 = false.
Proof.
  intros H.
  assert (Hn : find (Database.is_participant e u)
                 (participants (Database.leave_event e u d)) = None).
  { unfold Database.leave_event. simpl. apply find_sql_delete_same. }
  split; [exact Hn|].
  split; [unfold Database.has_full_registration, fetchone; rewrite Hn; reflexivity|].
  split.
  { intros e' u' Hne. unfold participant_rows, Database.leave_event. simpl.
    apply filter_sql_delete_other. intros r. apply is_participant_sep. exact Hne. }
  split; [reflexivity|].
  assert (Hr : get_participant e u d2
               = Some (Database.coalesce_identity (norm_username a) b c
                         (Database.stub_row t e u (norm_username a) b c))).
  { unfold Database.ensure_participant_stub in H.
    assert (E : existsb (Database.is_participant e u)
                  (participants (Database.leave_event e u d)) = false)
      by (apply find_none_existsb; exact Hn).
    rewrite E in H.
    destruct (Database.event_exists e (Database.leave_event e u d)); [|discriminate].
    inversion H; subst d2; clear H.
    unfold get_participant, fetchone. simpl.
    rewrite find_sql_update_same by (intros; assumption).
    rewrite (find_app_miss _ _ _ Hn). simpl.
    unfold Database.is_participant. simpl. rewrite String.eqb_refl, Z.eqb_refl.
    reflexivity. }
  split.
  - eexists. split; [exact Hr | repeat split].
  - unfold Database.has_full_registration. unfold get_participant in Hr. rewrite Hr.
    reflexivity.
Qed.

Lemma leave_event_forgets_registration_witness :
  exists d2,
    Database.ensure_participant_stub 0 "EV_k3Jx" 20 None None None
      (Database.leave_event "EV_k3Jx" 20 sample_db) = Ok d2
    /\ Database.has_full_registration "EV_k3Jx" 20 d2 = false.
Proof.
  eexists. split; [reflexivity|].
  apply (leave_event_forgets_registration 0 "EV_k3Jx" 20 None None None sample_db _ eq_refl).
Defined.

(** *** The keys of [alerts] are not used twice *)

Lemma alert_ids_kept_refl (d : DB) : alert_ids_kept d d.
Proof.
  intros Hb. split; [exact Hb|]. split; [lia|].
  intros a Ha _. exists a. split; [exact Ha | apply same_alert_refl].
Qed.

Lemma same_alert_trans (a b c : alert_row) : same_alert a b -> same_alert b c -> same_alert a c.
Proof. unfold same_alert. intuition congruence. Qed.

Lemma alert_ids_kept_trans (a b c : DB) :
  alert_ids_kept a b -> alert_ids_kept b c -> alert_ids_kept a c.
Proof.
  intros Hab Hbc Ha. destruct (Hab Ha) as [Hb [Lab Oab]].
  destruct (Hbc Hb) as [Hc [Lbc Obc]].
  split; [exact Hc|]. split; [lia|].
  intros x'' Hx'' Hle. destruct (Obc x'' Hx'') as [x' [Hx' S']]; [lia|].
  destruct (Oab x' Hx') as [x [Hx S]].
  - destruct S' as [E _]. rewrite E. exact Hle.
  - exists x. split; [exact Hx | exact (same_alert_trans _ _ _ S S')].
Qed.

Lemma alert_ids_kept_same (d d' : DB) :
  alerts d' = alerts d -> alerts_seq d' = alerts_seq d -> alert_ids_kept d d'.
Proof.
  intros E S Hb. unfold alert_ids_bounded. rewrite E, S.
  split; [exact Hb|]. split; [lia|].
  intros a Ha _. exists a. split; [exact Ha | apply same_alert_refl].
Qed.

Lemma alert_ids_kept_mark (i : Z) (d : DB) :
  alert_ids_kept d (Database.mark_alert_sent i d).
Proof.
  intros Hb.
  assert (Hold : forall a', In a' (alerts (Database.mark_alert_sent i d)) ->
                   exists a, In a (alerts d) /\ same_alert a a').
  { intros a' Ha'. unfold Database.mark_alert_sent in Ha'. simpl in Ha'.
    unfold sql_update in Ha'. apply in_map_iff in Ha'. destruct Ha' as [a [E Ha]].
    exists a. split; [exact Ha|]. destruct (al_id a =? i); subst; repeat split. }
  split; [|split; [simpl; lia | intros a' Ha' _; exact (Hold a' Ha')]].
  intros a' Ha'. destruct (Hold a' Ha') as [a [Ha [E _]]].
  rewrite <- E. exact (Hb a Ha).
Qed.

Lemma alert_ids_kept_delete_event (e : string) (d : DB) :
  alert_ids_kept d (Database.delete_event e d).
Proof.
  unfold Database.delete_event. destruct (Database.event_exists e d);
    [|apply alert_ids_kept_refl].
  intros Hb. split; [|split; [simpl; lia|]].
  - intros a Ha. simpl in Ha. apply filter_In in Ha. simpl. apply Hb. tauto.
  - intros a Ha _. simpl in Ha. apply filter_In in Ha. exists a.
    split; [tauto | apply same_alert_refl].
Qed.

Lemma fold_max_ge (l : list Z) (z : Z) : z <= fold_right Z.max z l.
Proof. induction l as [|x l IH]; simpl; lia. Qed.

Lemma alert_ids_kept_add (e : string) (run_at mins u : Z) (d d' : DB) (i : Z) :
  Database.add_alert e run_at mins u d = Ok (i, d') -> alert_ids_kept d d'.
Proof.
  unfold Database.add_alert. destruct (Database.event_exists e d); [|discriminate].
  intros H. inversion H; subst; clear H. intros Hb.
  pose proof (fold_max_ge (map al_id (alerts d)) (alerts_seq d)) as Hge.
  unfold Database.next_alert_id.
  set (m := fold_right Z.max (alerts_seq d) (map al_id (alerts d))) in *.
  unfold alert_ids_bounded.
  cbn [alerts alerts_seq Database.with_alerts].
  split; [|split; [lia|]].
  - intros a Ha. apply in_app_or in Ha.
    destruct Ha as [Ha|[<-|[]]]; [specialize (Hb a Ha); lia | cbn [al_id]; lia].
  - intros a Ha Hle. apply in_app_or in Ha.
    destruct Ha as [Ha|[<-|[]]].
    + exists a. split; [exact Ha | apply same_alert_refl].
    + cbn [al_id] in Hle. lia.
Qed.

Ltac alert_ids_leaf :=
  first [ apply alert_ids_kept_refl
        | apply alert_ids_kept_mark
        | apply alert_ids_kept_delete_event
        | eapply alert_ids_kept_add; eassumption
        | apply alert_ids_kept_same; db_untouched ].

Lemma handle_keeps_alert_ids (env : Env) (u : incoming) :
  keeps alert_ids_kept env (handle u).
Proof.
  destruct u; unfold handle.
  all: repeat (keeps_step alert_ids_kept_refl alert_ids_kept_trans).
  all: try alert_ids_leaf.
Qed.

Lemma sessions_keep_alert_ids (l : list (Env * incoming)) (w : World) :
  alert_ids_kept (w_db w) (w_db (run_all l w)).
Proof.
  revert w. induction l as [|[env u] rest IH]; intros w; simpl.
  - apply alert_ids_kept_refl.
  - eapply alert_ids_kept_trans; [apply (handle_keeps_alert_ids env u w) | apply IH].
Qed.

(** X10: the key of an alert is never used twice.  In every session of
    updates that starts from a store whose AUTOINCREMENT counter covers the
    keys in use, the counter still covers them at the end and has not gone
    back, and a row whose key is at most the old counter is a row that was
    there at the start (with at most its status changed), also when alerts
    were deleted with their event in between.  So a job armed for an alert
    can only ever mark that alert. *)
Theorem alert_keys_never_reused (l : list (Env * incoming)) (w : World) :
  alert_ids_bounded (w_db w) ->
  alert_ids_bounded (w_db (run_all l w))
  /\ alerts_seq (w_db w) <= alerts_seq (w_db (run_all l w))
  /\ (forall a', In a' (alerts (w_db (run_all l w))) -> al_id a' <= alerts_seq (w_db w) ->
        exists a, In a (alerts (w_db w)) /\ same_alert a a').
Proof. exact (sessions_keep_alert_ids l w). Qed.

Lemma alert_keys_never_reused_witness :
  alert_ids_bounded (w_db recovery_world)
  /\ alerts_seq (w_db recovery_world)
     <= alerts_seq (w_db (run_all
          [(sample_env, CallbackQuery organizer "admin:delete_yes");
           (sample_env, TextMessage organizer (Some "Second"))] recovery_world)).
Proof.
  assert (H : alert_ids_bounded (w_db recovery_world)).
  { intros a Ha. simpl in Ha. destruct Ha as [<-|[<-|[]]]; simpl; lia. }
  split; [exact H|].
  apply (alert_keys_never_reused _ recovery_world H).
Defined.

(** ** The callback router: roles and ownership *)

(** X11: an [admin:] token sent by a caller who does not organize their
    current event changes nothing, whatever follows the prefix: the store
    and the job queue are as they were, and the caller is told
    [unknown_action], or [choose_event_first] when there is no current
    event to act on. *)
Theorem admin_token_needs_organizer (env : Env) (user : User) (rest : string) (w : World) :
  (forall e, Database.get_current_event (id user) (w_db w) = Some e ->
             Database.is_admin e (id user) (w_db w) = false) ->
  exists key,
    In key ["unknown_action"; "choose_event_first"]
    /\ run (on_callback user ("admin:" ++ rest)%string) env w
       = said w (safe_edit_or_send (txt key))
    /\ result (on_callback user ("admin:" ++ rest)%string) env w = Ok tt.
Proof.
  intros Hn. unfold on_callback. decide_tests. hsimp.
  destruct (Database.get_current_event (id user) (w_db w)) as [e|] eqn:Hcur.
  - cbv beta iota. destruct (Database.event_exists e (w_db w)) eqn:Hex; cbn [negb].
    + rewrite (Hn e eq_refl). cbn [andb negb]. decide_tests.
      exists "unknown_action". simpl. auto.
    + exists "choose_event_first". simpl. auto.
  - exists "choose_event_first". simpl. auto.
Qed.

Lemma admin_token_needs_organizer_witness :
  exists key,
    In key ["unknown_action"; "choose_event_first"]
    /\ run (on_callback guest "admin:delete_yes") sample_env sample_world
       = said sample_world (safe_edit_or_send (txt key))
    /\ result (on_callback guest "admin:delete_yes") sample_env sample_world = Ok tt.
Proof.
  apply (admin_token_needs_organizer sample_env guest "delete_yes" sample_world).
  intros e H. vm_compute in H. inversion H; subst e. reflexivity.
Defined.

(** X12: a [p:] token sent by the organizer of the current event changes
    nothing: the organizer cannot rate, ask an anonymous question about or
    leave their own event through the participant menu. *)
Theorem participant_token_refuses_organizer (env : Env) (user : User) (rest e : string)
    (w : World) :
  Database.get_current_event (id user) (w_db w) = Some e ->
  Database.is_admin e (id user) (w_db w) = true ->
  run (on_callback user ("p:" ++ rest)%string) env w
    = said w (safe_edit_or_send (txt "unknown_action"))
  /\ result (on_callback user ("p:" ++ rest)%string) env w = Ok tt.
Proof.
  intros Hcur Hadm. destruct (is_admin_event _ _ _ Hadm) as [Hex _].
  unfold on_callback. decide_tests. hsimp.
  hrewrite Hcur. hrewrite Hex. hrewrite Hadm. decide_tests.
  split; reflexivity.
Qed.

Lemma participant_token_refuses_organizer_witness :
  run (on_callback organizer "p:leave_yes") sample_env sample_world
  = said sample_world (safe_edit_or_send (txt "unknown_action")).
Proof.
  apply (participant_token_refuses_organizer sample_env organizer "leave_yes" "EV_k3Jx"
           sample_world); reflexivity.
Defined.

Lemma view_set_current_event (e : string) (t u : Z) (v : option string) (d : DB) :
  view e (Database.set_current_event t u v d) = view e d.
Proof.
  unfold Database.set_current_event.
  destruct v; [destruct (existsb _ _)|]; reflexivity.
Qed.

Lemma view_set_user_state (e : string) (t u : Z) (st : option string) (p : option Payload)
    (d : DB) :
  view e (Database.set_user_state t u st p d) = view e d.
Proof.
  unfold Database.set_user_state.
  destruct st; [destruct (existsb _ _)|]; reflexivity.
Qed.

Lemma user_state_set_current_event (t u : Z) (v : option string) (d : DB) :
  user_state (Database.set_current_event t u v d) = user_state d.
Proof.
  unfold Database.set_current_event.
  destruct v; [destruct (existsb _ _)|]; reflexivity.
Qed.

(** [if db.get_current_event(user_id) == eid: set_current_event_id(user_id, None)] *)
Lemma forget_current_event (t u : Z) (eid : string) (d : DB) :
  let d' := match Database.get_current_event u d with
            | Some c => if String.eqb c eid then Database.set_current_event t u None d else d
            | None => d
            end in
  Database.get_current_event u d' <> Some eid
  /\ (forall e, view e d' = view e d)
  /\ user_state d' = user_state d
  /\ feedback d' = feedback d
  /\ participants d' = participants d.
Proof.
  destruct (Database.get_current_event u d) as [c|] eqn:Hc; cbv zeta.
  - destruct (String.eqb_spec c eid) as [->|Hne].
    + split; [rewrite get_current_event_clear; discriminate|].
      split; [intros e; apply view_set_current_event|].
      split; [apply user_state_set_current_event|]. split; reflexivity.
    + split; [rewrite Hc; congruence|]. repeat split.
  - split; [rewrite Hc; discriminate|]. repeat split.
Qed.

Lemma on_callback_delete (env : Env) (user : User) (rest eid back : string) (w : World) :
  four_parts ("event:delete:" ++ rest)%string = Some (eid, back) ->
  Database.is_admin eid (id user) (w_db w) = true ->
  run (on_callback user ("event:delete:" ++ rest)%string) env w
  = {| w_db :=
         match Database.get_current_event (id user) (Database.delete_event eid (w_db w)) with
         | Some c => if String.eqb c eid
                     then Database.set_current_event (now env) (id user) None
                            (Database.delete_event eid (w_db w))
                     else Database.delete_event eid (w_db w)
         | None => Database.delete_event eid (w_db w)
         end;
       w_jobs := w_jobs w;
       w_out := w_out w ++ [safe_edit_or_send (txt "event_deleted")] |}.
Proof.
  intros Hp Hadm. unfold on_callback. decide_tests.
  rewrite startswith_append. rewrite Hp. hsimp. hrewrite Hadm.
  destruct (Database.get_current_event (id user) (Database.delete_event eid (w_db w)))
    as [c|]; [destruct (String.eqb c eid)|]; reflexivity.
Qed.

(** X13: the [event:delete:] token deletes only for the organizer.  Anyone
    else is told [not_allowed] and nothing changes.  For the organizer the
    event goes with everything that belongs to it, every other event is as
    it was, and the caller's current-event pointer no longer names the
    deleted event; the caller's flow state and the armed alert jobs are
    left as they were. *)
Theorem event_delete_token (env : Env) (user : User) (rest eid back : string) (w : World) :
  four_parts ("event:delete:" ++ rest)%string = Some (eid, back) ->
  let w' := run (on_callback user ("event:delete:" ++ rest)%string) env w in
  (Database.is_admin eid (id user) (w_db w) = false ->
     w' = said w (safe_edit_or_send (txt "not_allowed")))
  /\ (Database.is_admin eid (id user) (w_db w) = true ->
        view eid (w_db w') = no_view
        /\ (forall e', e' <> eid -> view e' (w_db w') = view e' (w_db w))
        /\ Database.get_current_event (id user) (w_db w') <> Some eid
        /\ user_state (w_db w') = user_state (w_db w)
        /\ w_jobs w' = w_jobs w
        /\ w_out w' = w_out w ++ [safe_edit_or_send (txt "event_deleted")]).
Proof.
  intros Hp w'. subst w'. split.
  - intros Hadm. unfold on_callback. decide_tests.
    rewrite startswith_append. rewrite Hp. hsimp. hrewrite Hadm. reflexivity.
  - intros Hadm. rewrite (on_callback_delete env user rest eid back w Hp Hadm).
    cbn [w_db w_jobs w_out].
    destruct (is_admin_event _ _ _ Hadm) as [Hex _].
    destruct (forget_current_event (now env) (id user) eid
                (Database.delete_event eid (w_db w))) as [Hcur [Hview [Hst _]]].
    cbv zeta in Hcur, Hview, Hst.
    split; [rewrite Hview; apply view_delete_event_same; exact Hex|].
    split; [intros e' Hne; rewrite Hview; apply view_delete_event_other; exact Hne|].
    split; [exact Hcur|].
    split; [rewrite Hst; apply delete_event_frame|].
    split; reflexivity.
Qed.

Lemma event_delete_token_witness :
  four_parts "event:delete:EV_k3Jx:hub_admin" = Some ("EV_k3Jx", "hub_admin")
  /\ run (on_callback guest "event:delete:EV_k3Jx:hub_admin") sample_env sample_world
     = said sample_world (safe_edit_or_send (txt "not_allowed"))
  /\ view "EV_k3Jx"
       (w_db (run (on_callback organizer "event:delete:EV_k3Jx:hub_admin") sample_env
                sample_world)) = no_view.
Proof.
  split; [reflexivity|]. split.
  - apply (event_delete_token sample_env guest "EV_k3Jx:hub_admin" "EV_k3Jx" "hub_admin"
             sample_world eq_refl). reflexivity.
  - apply (event_delete_token sample_env organizer "EV_k3Jx:hub_admin" "EV_k3Jx" "hub_admin"
             sample_world eq_refl). reflexivity.
Defined.

Lemma on_callback_leave (env : Env) (user : User) (rest eid back : string) (w : World) :
  four_parts ("event:leave:" ++ rest)%string = Some (eid, back) ->
  Database.is_admin eid (id user) (w_db w) = false ->
  run (on_callback user ("event:leave:" ++ rest)%string) env w
  = {| w_db :=
         match Database.get_current_event (id user)
                 (Database.leave_event eid (id user) (w_db w)) with
         | Some c => if String.eqb c eid
                     then Database.set_current_event (now env) (id user) None
                            (Database.leave_event eid (id user) (w_db w))
                     else Database.leave_event eid (id user) (w_db w)
         | None => Database.leave_event eid (id user) (w_db w)
         end;
       w_jobs := w_jobs w;
       w_out := w_out w ++ [safe_edit_or_send (txt "left_event")] |}.
Proof.
  intros Hp Hadm. unfold on_callback. decide_tests.
  rewrite startswith_append. rewrite Hp. hsimp. hrewrite Hadm.
  destruct (Database.get_current_event (id user)
              (Database.leave_event eid (id user) (w_db w)))
    as [c|]; [destruct (String.eqb c eid)|]; reflexivity.
Qed.

(** X14: with the [event:leave:] token the organizer of the event cannot
    leave it (the answer is [organizer_cant_leave] and nothing changes);
    anyone else loses exactly their own participant row of that event,
    keeps the feedback they gave, and their current-event pointer no longer
    names the event. *)
Theorem event_leave_token (env : Env) (user : User) (rest eid back : string) (w : World) :
  four_parts ("event:leave:" ++ rest)%string = Some (eid, back) ->
  let w' := run (on_callback user ("event:leave:" ++ rest)%string) env w in
  (Database.is_admin eid (id user) (w_db w) = true ->
     w' = said w (safe_edit_or_send (txt "organizer_cant_leave")))
  /\ (Database.is_admin eid (id user) (w_db w) = false ->
        get_participant eid (id user) (w_db w') = None
        /\ (forall e' u', (e', u') <> (eid, id user) ->
              participant_rows e' u' (w_db w') = participant_rows e' u' (w_db w))
        /\ feedback (w_db w') = feedback (w_db w)
        /\ Database.get_current_event (id user) (w_db w') <> Some eid
        /\ w_out w' = w_out w ++ [safe_edit_or_send (txt "left_event")]).
Proof.
  intros Hp w'. subst w'. split.
  - intros Hadm. unfold on_callback. decide_tests.
    rewrite startswith_append. rewrite Hp. hsimp. hrewrite Hadm. reflexivity.
  - intros Hadm. rewrite (on_callback_leave env user rest eid back w Hp Hadm).
    cbn [w_db w_jobs w_out].
    destruct (forget_current_event (now env) (id user) eid
                (Database.leave_event eid (id user) (w_db w)))
      as [Hcur [_ [_ [Hfb Hpa]]]].
    cbv zeta in Hcur, Hfb, Hpa.
    unfold get_participant, participant_rows. rewrite Hpa, Hfb.
    split; [unfold Database.leave_event; simpl; apply find_sql_delete_same|].
    split.
    { intros e' u' Hne. unfold Database.leave_event. simpl.
      apply filter_sql_delete_other. intros r. apply is_participant_sep. exact Hne. }
    split; [reflexivity|]. split; [exact Hcur | reflexivity].
Qed.

Lemma event_leave_token_witness :
  four_parts "event:leave:EV_k3Jx:hub_joined" = Some ("EV_k3Jx", "hub_joined")
  /\ run (on_callback organizer "event:leave:EV_k3Jx:hub_joined") sample_env sample_world
     = said sample_world (safe_edit_or_send (txt "organizer_cant_leave"))
  /\ get_participant "EV_k3Jx" 20
       (w_db (run (on_callback guest "event:leave:EV_k3Jx:hub_joined") sample_env
                sample_world)) = None.
Proof.
  split; [reflexivity|]. split.
  - apply (event_leave_token sample_env organizer "EV_k3Jx:hub_joined" "EV_k3Jx"
             "hub_joined" sample_world eq_refl). reflexivity.
  - apply (event_leave_token sample_env guest "EV_k3Jx:hub_joined" "EV_k3Jx"
             "hub_joined" sample_world eq_refl). reflexivity.
Defined.

(** ** Text messages: rejected input and text outside a flow *)

(** The common start of [on_text]: the cancel word is not there, and the
    persisted state is read. *)
Ltac on_text_at Hst Hc :=
  unfold on_text;
  match goal with
  | |- context [PyStr.strip (opt_default ?t "")] =>
      change (PyStr.strip (opt_default t "")) with (text_of t)
  end;
  rewrite run_ask_bind, Hc;
  unfold db.get_user_state; rewrite run_query_bind, Hst; cbn [fst snd];
  decide_tests.

Ltac read_current_event :=
  unfold db.get_current_event; rewrite run_query_bind.

Lemma truthy_false (s : string) : PyStr.truthy s = false <-> s = "".
Proof. unfold PyStr.truthy. rewrite negb_false_iff. apply String.eqb_eq. Qed.

Lemma truthy_true (s : string) : PyStr.truthy s = true <-> s <> "".
Proof. unfold PyStr.truthy. rewrite negb_true_iff. apply String.eqb_neq. Qed.

(** X15: an input that a flow rejects leaves the flow where it is.  In
    each of these cases the store (the persisted state included) and the job
    queue are as they were, and the only transport call is the one reply:
    an empty event name; a full name or a company of fewer than two
    characters; a time that does not parse; a text other than [clear] where
    a map pin is expected; WiFi details without an SSID or a password line,
    or with a password of fewer than eight characters; organizer details
    without a name; an empty comment. *)
Theorem rejected_input_changes_nothing (env : Env) (user : User) (text : option string)
    (w : World) (st : string) (payload : Payload) :
  Database.get_user_state (id user) (w_db w) = (Some st, payload) ->
  is_cancel env (text_of text) = false ->
  let t := text_of text in
  let answers key := run (on_text user text) env w = said w (reply_text (txt key)) in
  (st = "create_event_name" -> t = "" -> answers "create_event_invalid_name")
  /\ (st = "reg_full_name" ->
      forall e, pl_event_id payload = Some e -> e <> "" ->
        Database.event_exists e (w_db w) = true ->
        (String.length t < 2)%nat -> answers "reg_name_invalid")
  /\ (st = "reg_company" ->
      (String.length (PyStr.strip t) < 2)%nat -> answers "reg_company_invalid")
  /\ (st = "admin_set_time" -> parse_event_time env t = None ->
      answers "time_invalid_format")
  /\ (st = "admin_set_map_pin" -> PyStr.lower (PyStr.strip t) <> "clear" ->
      answers "map_pin_need_location")
  /\ (st = "admin_set_wifi" ->
      forall ssid pwd, parse_wifi (PyStr.splitlines t) None None = (ssid, pwd) ->
        (py_true ssid = false \/ py_true pwd = false -> answers "wifi_invalid_format")
        /\ (py_true ssid = true -> py_true pwd = true ->
            (String.length (opt_default pwd "") < 8)%nat ->
            answers "wifi_invalid_password"))
  /\ (st = "admin_set_org" ->
      of_name (parse_org (PyStr.splitlines t)
                 {| of_name := ""; of_phone := ""; of_email := ""; of_telegram := "" |}) = "" ->
      answers "not_allowed")
  /\ (st = "p_feedback_comment" -> PyStr.strip t = "" -> answers "comment_empty").
Proof.
  intros Hst Hc t answers. subst t answers. cbv beta.
  split; [|split; [|split; [|split; [|split; [|split; [|split]]]]]].
  - intros -> Ht. on_text_at Hst Hc. rewrite Ht. reflexivity.
  - intros -> e He Hne Hex Hlen. on_text_at Hst Hc.
    rewrite He. unfold db.event_exists, db.sel. rewrite run_query_bind, Hex.
    cbn [py_true]. apply truthy_true in Hne. rewrite Hne. cbn [negb orb].
    apply Nat.ltb_lt in Hlen. rewrite Hlen. reflexivity.
  - intros -> Hlen. on_text_at Hst Hc.
    apply Nat.ltb_lt in Hlen. rewrite Hlen. reflexivity.
  - intros -> Hp. on_text_at Hst Hc. read_current_event. rewrite Hp. reflexivity.
  - intros -> Hne. on_text_at Hst Hc. read_current_event.
    apply String.eqb_neq in Hne. rewrite Hne. reflexivity.
  - intros -> ssid pwd Hw. split.
    + intros [Hs|Hp]; on_text_at Hst Hc; read_current_event; rewrite Hw;
        [rewrite Hs | rewrite Hp; rewrite orb_true_r]; reflexivity.
    + intros Hs Hp Hlen. on_text_at Hst Hc. read_current_event. rewrite Hw, Hs, Hp.
      cbn [negb orb]. apply Nat.ltb_lt in Hlen. rewrite Hlen. reflexivity.
  - intros -> Hn. on_text_at Hst Hc. read_current_event.
    apply truthy_false in Hn. rewrite Hn. reflexivity.
  - intros -> Hn. on_text_at Hst Hc. read_current_event.
    apply truthy_false in Hn. rewrite Hn. reflexivity.
Qed.

Lemma rejected_input_changes_nothing_witness :
  run (on_text guest (Some ("SSID: venue" ++ newline ++ "Password: short")%string))
      sample_env (stale_flow_world "admin_set_wifi")
  = said (stale_flow_world "admin_set_wifi") (reply_text (txt "wifi_invalid_password")).
Proof.
  destruct (rejected_input_changes_nothing sample_env guest
              (Some ("SSID: venue" ++ newline ++ "Password: short")%string)
              (stale_flow_world "admin_set_wifi") "admin_set_wifi" (payload_for "EV_k3Jx")
              eq_refl eq_refl) as [_ [_ [_ [_ [_ [H _]]]]]].
  apply (H eq_refl (Some "venue") (Some "short") eq_refl); [reflexivity | reflexivity |].
  simpl. lia.
Defined.

Lemma state_is_outside (st : option string) (name : string) :
  (forall s, st = Some s -> ~ In s text_states) ->
  In name text_states -> state_is name st = false.
Proof.
  intros Hout Hin. destruct st as [s|]; [|reflexivity]. simpl.
  apply String.eqb_neq. intros ->. exact (Hout name eq_refl Hin).
Qed.

(** X16: a text that is not the cancel word, from a user whose persisted
    state is none of the states [on_text] serves (no state at all, or the
    photo upload mode), changes nothing and is answered with
    [use_my_events_to_continue]; in particular the upload mode stays
    open. *)
Theorem text_outside_flow (env : Env) (user : User) (text : option string) (w : World) :
  is_cancel env (text_of text) = false ->
  (forall s, state_of (id user) (w_db w) = Some s -> ~ In s text_states) ->
  run (on_text user text) env w = said w (reply_text (txt "use_my_events_to_continue")).
Proof.
  intros Hc Hout. unfold state_of in Hout.
  unfold on_text.
  change (PyStr.strip (opt_default text "")) with (text_of text).
  rewrite run_ask_bind, Hc.
  unfold db.get_user_state. rewrite run_query_bind.
  set (sp := Database.get_user_state (id user) (w_db w)) in *.
  assert (F : forall name, In name text_states -> state_is name (fst sp) = false)
    by (intros name; apply state_is_outside; exact Hout).
  repeat match goal with
  | |- context [state_is ?n (fst sp)] => rewrite (F n) by (cbn; auto 20)
  end.
  read_current_event.
  repeat match goal with
  | |- context [state_is ?n (fst sp)] => rewrite (F n) by (cbn; auto 20)
  end.
  reflexivity.
Qed.

Lemma text_outside_flow_witness :
  run (on_text guest (Some "hello")) sample_env (stale_flow_world "admin_upload_photos")
  = said (stale_flow_world "admin_upload_photos")
      (reply_text (txt "use_my_events_to_continue")).
Proof.
  apply (text_outside_flow sample_env guest (Some "hello")
           (stale_flow_world "admin_upload_photos") eq_refl).
  intros s H. vm_compute in H. inversion H; subst s.
  cbn. intuition discriminate.
Defined.

(** ** Creating an event *)

Lemma events_set_current_event (t u : Z) (v : option string) (d : DB) :
  events (Database.set_current_event t u v d) = events d.
Proof.
  unfold Database.set_current_event. destruct v; [destruct (existsb _ _)|]; reflexivity.
Qed.

Lemma participants_set_current_event (t u : Z) (v : option string) (d : DB) :
  participants (Database.set_current_event t u v d) = participants d.
Proof.
  unfold Database.set_current_event. destruct v; [destruct (existsb _ _)|]; reflexivity.
Qed.

Lemma participants_set_user_state (t u : Z) (st : option string) (p : option Payload)
    (d : DB) :
  participants (Database.set_user_state t u st p d) = participants d.
Proof. unfold Database.set_user_state. destruct st; [destruct (existsb _ _)|]; reflexivity. Qed.

Lemma ensure_participant_stub_present (t : Z) (e : string) (u : Z) (a b c : option string)
    (d d' : DB) :
  Database.ensure_participant_stub t e u a b c d = Ok d' ->
  exists r, get_participant e u d' = Some r.
Proof.
  unfold Database.ensure_participant_stub, get_participant, fetchone. intros H.
  destruct (existsb (Database.is_participant e u) (participants d)) eqn:E.
  - inversion H; subst; clear H. simpl.
    rewrite find_sql_update_same by (intros; assumption).
    apply find_some_existsb in E. destruct E as [r Hr]. rewrite Hr. simpl. eauto.
  - destruct (Database.event_exists e d); [|discriminate].
    inversion H; subst; clear H. simpl.
    rewrite find_sql_update_same by (intros; assumption).
    apply find_none_existsb in E. rewrite (find_app_miss _ _ _ E). simpl.
    unfold Database.is_participant. simpl. rewrite String.eqb_refl, Z.eqb_refl.
    simpl. eauto.
Qed.

Lemma get_event_same_events (e : string) (d d' : DB) :
  events d' = events d -> Database.get_event e d' = Database.get_event e d.
Proof. intros E. unfold Database.get_event. rewrite E. reflexivity. Qed.

Lemma is_admin_same_events (e : string) (u : Z) (d d' : DB) :
  events d' = events d -> Database.is_admin e u d' = Database.is_admin e u d.
Proof. intros E. unfold Database.is_admin. rewrite E. reflexivity. Qed.

Lemma show_event_menu_run (env : Env) (user : User) (e src : string) (w : World)
    (ev : event_row) :
  Database.get_event e (w_db w) = Some ev ->
  show_event_menu user (Some e) src env w
  = (Ok tt,
     {| w_db := Database.set_current_event (now env) (id user) (Some e) (w_db w);
        w_jobs := w_jobs w;
        w_out := w_out w ++ [entered_event ev (Database.is_admin e (id user) (w_db w))] |}).
Proof.
  intros Hev. unfold show_event_menu. hsimp. rewrite Hev.
  rewrite (is_admin_same_events e (id user) (w_db w) _
             (events_set_current_event (now env) (id user) (Some e) (w_db w))).
  reflexivity.
Qed.

Lemma show_event_menu_missing (env : Env) (user : User) (e src : string) (w : World) :
  Database.get_event e (w_db w) = None ->
  show_event_menu user (Some e) src env w
  = (Ok tt, said w (safe_edit_or_send (txt "event_not_found"))).
Proof. intros Hev. unfold show_event_menu. hsimp. rewrite Hev. reflexivity. Qed.

Lemma create_event_row (t : Z) (e : string) (a : Z) (n : string) (d d1 : DB) :
  Database.create_event t e a n d = Ok d1 ->
  PyStr.truthy n = true ->
  Database.get_event e d1
    = Some {| ev_event_id := e; ev_event_name := n; ev_admin_id := a;
              ev_created_at := isoformat_seconds t |}
  /\ Database.is_admin e a d1 = true
  /\ Database.event_exists e d1 = true.
Proof.
  unfold Database.create_event. destruct (Database.event_exists e d) eqn:Hex; [discriminate|].
  intros H Ht. inversion H; subst d1; clear H.
  assert (Hn : find (Database.is_event e) (events d) = None)
    by (apply find_none_existsb; exact Hex).
  unfold Database.get_event, Database.is_admin, Database.event_exists, fetchone.
  cbn [events Database.with_event_content Database.with_events].
  rewrite existsb_app, (find_app_miss _ _ _ Hn). unfold Database.is_event, PyStr.truthy in *.
  simpl. rewrite !String.eqb_refl. simpl. rewrite Z.eqb_refl, Ht, orb_true_r. repeat split.
Qed.

(** As [on_text_at], for the handler's result together with its world. *)
Ltac on_text_pair Hst Hc :=
  unfold on_text;
  match goal with
  | |- context [PyStr.strip (opt_default ?t "")] =>
      change (PyStr.strip (opt_default t "")) with (text_of t)
  end;
  unfold bind at 1, ask; rewrite Hc;
  unfold bind at 1, db.get_user_state, query; rewrite Hst; cbn [fst snd];
  decide_tests.

(** X17: naming a new event.  In state [create_event_name] a non-empty
    text creates the event [EV_<token>] under that name.  When the id is
    free, the caller is its organizer and its first participant, it is the
    caller's current event, the flow is over, and the menu is shown in the
    role of the organizer.  When the id is in use the handler raises
    [IntegrityError] and leaves everything as it was, the flow state
    included. *)
Theorem create_event_flow (env : Env) (user : User) (text : option string) (w : World)
    (payload : Payload) :
  Database.get_user_state (id user) (w_db w) = (Some "create_event_name", payload) ->
  is_cancel env (text_of text) = false ->
  text_of text <> "" ->
  let e := ("EV_" ++ token_urlsafe env)%string in
  let ev := {| ev_event_id := e; ev_event_name := text_of text; ev_admin_id := id user;
               ev_created_at := isoformat_seconds (now env) |} in
  let w' := run (on_text user text) env w in
  (Database.event_exists e (w_db w) = true ->
     result (on_text user text) env w = Raise IntegrityError /\ w' = w)
  /\ (Database.event_exists e (w_db w) = false ->
      result (on_text user text) env w = Ok tt
      /\ Database.get_event e (w_db w') = Some ev
      /\ Database.is_admin e (id user) (w_db w') = true
      /\ (exists r, get_participant e (id user) (w_db w') = Some r)
      /\ Database.get_current_event (id user) (w_db w') = Some e
      /\ Database.get_user_state (id user) (w_db w') = (None, empty_payload)
      /\ w_jobs w' = w_jobs w
      /\ w_out w' = w_out w ++ [entered_event ev true]).
Proof.
  intros Hst Hc Hne e ev w'. subst w'.
  pose proof (proj2 (truthy_true _) Hne) as Ht.
  split.
  - intros Hex. unfold run, result.
    assert (G : on_text user text env w = (Raise IntegrityError, w)).
    { on_text_pair Hst Hc. rewrite Ht. cbn [negb]. hsimp.
      unfold Database.create_event. fold e. rewrite Hex. destruct w; reflexivity. }
    rewrite G. split; reflexivity.
  - intros Hex.
    destruct (Database.create_event (now env) e (id user) (text_of text) (w_db w))
      as [d1|x] eqn:Hd1;
      [|unfold Database.create_event in Hd1; rewrite Hex in Hd1; discriminate].
    pose proof (create_event_row _ _ _ _ _ _ Hd1 Ht) as Hev1.
    destruct Hev1 as [Hev1 [Hadm1 Hex1]].
    destruct (ensure_participant_stub_returns (now env) e (id user) (user_username user)
                (user_first_name user) (user_last_name user) d1 Hex1) as [d2 Hd2].
    pose proof (ensure_participant_stub_events _ _ _ _ _ _ _ _ Hd2) as He2.
    destruct (ensure_participant_stub_present _ _ _ _ _ _ _ _ Hd2) as [r Hr].
    set (d3 := Database.set_current_event (now env) (id user) (Some e) d2).
    set (d4 := Database.set_user_state (now env) (id user) None None d3).
    assert (He4 : events d4 = events d1).
    { unfold d4, d3. rewrite events_set_user_state, events_set_current_event. exact He2. }
    assert (Hev4 : Database.get_event e d4 = Some ev)
      by (rewrite (get_event_same_events e d1 d4 He4); exact Hev1).
    assert (Hadm4 : Database.is_admin e (id user) d4 = true)
      by (rewrite (is_admin_same_events e (id user) d1 d4 He4); exact Hadm1).
    assert (G : on_text user text env w
                = (Ok tt,
                   {| w_db := Database.set_current_event (now env) (id user) (Some e) d4;
                      w_jobs := w_jobs w;
                      w_out := w_out w ++ [entered_event ev true] |})).
    { on_text_pair Hst Hc. rewrite Ht. cbn [negb].
      pose proof (show_event_menu_run env user e "hub_admin"
                    {| w_db := d4; w_jobs := w_jobs w; w_out := w_out w |} ev Hev4) as Hm.
      cbn [w_db w_jobs w_out] in Hm. rewrite Hadm4 in Hm.
      hsimp. fold e. hrewrite Hd1. hrewrite Hd2. fold d3 d4. exact Hm. }
    unfold run, result. rewrite G. cbn [fst snd w_db w_jobs w_out].
    set (d5 := Database.set_current_event (now env) (id user) (Some e) d4).
    assert (He5 : events d5 = events d1)
      by (unfold d5; rewrite events_set_current_event; exact He4).
    split; [reflexivity|].
    split; [rewrite (get_event_same_events e d1 d5 He5); exact Hev1|].
    split; [rewrite (is_admin_same_events e (id user) d1 d5 He5); exact Hadm1|].
    split.
    { exists r. unfold get_participant in *. unfold d5, d4, d3.
      rewrite participants_set_current_event, participants_set_user_state,
        participants_set_current_event. exact Hr. }
    split; [unfold d5; rewrite get_current_event_set_same; reflexivity|].
    split; [|split; reflexivity].
    unfold Database.get_user_state, d5. rewrite user_state_set_current_event.
    exact (get_user_state_clear (now env) (id user) None d3).
Qed.

Lemma create_event_flow_witness :
  Database.is_admin "EV_k3Jx" 20
    (w_db (run (on_text guest (Some "Party")) sample_env naming_world)) = false
  /\ result (on_text guest (Some "Party")) sample_env naming_world = Raise IntegrityError.
Proof.
  split; [reflexivity|].
  apply (create_event_flow sample_env guest (Some "Party") naming_world empty_payload
           eq_refl eq_refl); [discriminate | reflexivity].
Defined.

(** ** Photos and locations *)





Lemma organizes_false (u : Z) (eid : option string) (d : DB) :
  organizes u eid d = false ->
  negb (py_true eid)
  || negb match eid with
          | Some e => Database.is_admin e u d
          | None => false
          end = true.
Proof.
  unfold organizes. destruct (py_true eid); simpl; [|reflexivity].
  intros ->. reflexivity.
Qed.

(** X19: a location or a photo acts for the organizer only.  When the
    event the flow names (the payload's event, else the current event) is
    missing or is not organized by the sender, a location in state
    [admin_set_map_pin] and a photo in state [admin_upload_photos] or
    [admin_notify_text] write nothing to any event and send nothing to
    anyone else: the flow is ended, and only the photo upload is answered
    ([not_allowed]). *)
Theorem media_needs_organizer (env : Env) (user : User) (w : World) (st : string)
    (payload : Payload) (lat lon : Z) (f : string) (c : option string) :
  Database.get_user_state (id user) (w_db w) = (Some st, payload) ->
  organizes (id user)
    (py_or (pl_event_id payload) (Database.get_current_event (id user) (w_db w)))
    (w_db w) = false ->
  let ended := Database.clear_user_state (now env) (id user) (w_db w) in
  (st = "admin_set_map_pin" ->
     run (on_location user lat lon) env w
     = {| w_db := ended; w_jobs := w_jobs w; w_out := w_out w |})
  /\ (st = "admin_upload_photos" ->
      run (on_photo user f c) env w
      = {| w_db := ended; w_jobs := w_jobs w;
           w_out := w_out w ++ [reply_text (txt "not_allowed")] |})
  /\ (st = "admin_notify_text" ->
      run (on_photo user f c) env w
      = {| w_db := ended; w_jobs := w_jobs w; w_out := w_out w |}).
Proof.
  intros Hst Hno ended. subst ended. apply organizes_false in Hno.
  split; [|split]; intros ->.
  - unfold on_location. unfold db.get_user_state. rewrite run_query_bind, Hst.
    cbn [fst snd]. decide_tests. read_current_event.
    unfold db.is_admin, db.sel. rewrite run_query_bind, Hno. reflexivity.
  - unfold on_photo. unfold db.get_user_state. rewrite run_query_bind, Hst.
    cbn [fst snd]. read_current_event. decide_tests.
    unfold db.is_admin, db.sel. rewrite run_query_bind, Hno. reflexivity.
  - unfold on_photo. unfold db.get_user_state. rewrite run_query_bind, Hst.
    cbn [fst snd]. read_current_event. decide_tests.
    unfold db.is_admin, db.sel. rewrite run_query_bind, Hno. reflexivity.
Qed.

Lemma media_needs_organizer_witness :
  run (on_location guest 52 13) sample_env (stale_flow_world "admin_set_map_pin")
  = {| w_db := Database.clear_user_state (now sample_env) 20
                 (w_db (stale_flow_world "admin_set_map_pin"));
       w_jobs := []; w_out := [] |}.
Proof.
  apply (media_needs_organizer sample_env guest (stale_flow_world "admin_set_map_pin")
           "admin_set_map_pin" (payload_for "EV_k3Jx") 52 13 "" None eq_refl eq_refl).
  reflexivity.
Defined.

(** ** The reminder job *)




(** ** [strip] trims once and for all *)

Lemma string_app_assoc (a b c : string) : ((a ++ b) ++ c = a ++ (b ++ c))%string.
Proof. induction a as [|x a IH]; simpl; [reflexivity | rewrite IH; reflexivity]. Qed.

Lemma starts_visible_lstrip (s : string) : starts_visible (PyStr.lstrip s) = true.
Proof.
  induction s as [|c r IH]; simpl; [reflexivity|].
  destruct (PyStr.is_space c) eqn:E; [exact IH | simpl; rewrite E; reflexivity].
Qed.

Lemma lstrip_starts_visible (s : string) : starts_visible s = true -> PyStr.lstrip s = s.
Proof.
  destruct s as [|c r]; simpl; [reflexivity|].
  intros H. apply negb_true_iff in H. rewrite H. reflexivity.
Qed.

Lemma lstrip_suffix (s : string) : exists p, s = (p ++ PyStr.lstrip s)%string.
Proof.
  induction s as [|c r [p IH]]; simpl.
  - exists ""%string. reflexivity.
  - destruct (PyStr.is_space c).
    + exists (String c p). simpl. rewrite <- IH. reflexivity.
    + exists ""%string. reflexivity.
Qed.

Lemma rev_onto_app (s acc : string) :
  PyStr.rev_onto s acc = (PyStr.rev s ++ acc)%string.
Proof.
  unfold PyStr.rev. revert acc. induction s as [|c r IH]; intros acc; simpl; [reflexivity|].
  rewrite IH, (IH (String c "")). rewrite string_app_assoc. reflexivity.
Qed.

Lemma rev_app (a b : string) : PyStr.rev (a ++ b)%string = (PyStr.rev b ++ PyStr.rev a)%string.
Proof.
  unfold PyStr.rev at 1 3. revert b. induction a as [|c r IH]; intros b; simpl.
  - fold (PyStr.rev b). rewrite string_app_empty. reflexivity.
  - rewrite (rev_onto_app (r ++ b)), (rev_onto_app r (String c "")).
    fold (PyStr.rev (r ++ b)%string).
    assert (E : PyStr.rev (r ++ b)%string = (PyStr.rev b ++ PyStr.rev r)%string).
    { unfold PyStr.rev at 1 3. apply IH. }
    rewrite E, string_app_assoc. reflexivity.
Qed.

Lemma starts_visible_rstrip (s : string) :
  starts_visible s = true -> starts_visible (PyStr.rstrip s) = true.
Proof.
  intros H. unfold PyStr.rstrip.
  destruct (lstrip_suffix (PyStr.rev s)) as [p Hp].
  assert (E : s = (PyStr.rev (PyStr.lstrip (PyStr.rev s)) ++ PyStr.rev p)%string).
  { rewrite <- (rev_rev s) at 1. rewrite Hp at 1. apply rev_app. }
  destruct (PyStr.rev (PyStr.lstrip (PyStr.rev s))) as [|c t]; [reflexivity|].
  rewrite E in H. exact H.
Qed.

Lemma starts_visible_strip (s : string) : starts_visible (PyStr.strip s) = true.
Proof. apply starts_visible_rstrip, starts_visible_lstrip. Qed.

(** [s.strip().strip() == s.strip()] *)
Lemma strip_strip (s : string) : PyStr.strip (PyStr.strip s) = PyStr.strip s.
Proof.
  unfold PyStr.strip at 1.
  rewrite (lstrip_starts_visible _ (starts_visible_strip s)).
  unfold PyStr.strip, PyStr.rstrip. rewrite rev_rev.
  rewrite (lstrip_starts_visible _ (starts_visible_lstrip (PyStr.rev (PyStr.lstrip s)))).
  reflexivity.
Qed.

Lemma strip_text_of (text : option string) : PyStr.strip (text_of text) = text_of text.
Proof. apply strip_strip. Qed.

(** ** Registration, from the invite link to the saved row *)

Lemma has_full_registration_same (e : string) (u : Z) (d d' : DB) :
  participants d' = participants d ->
  Database.has_full_registration e u d' = Database.has_full_registration e u d.
Proof. intros E. unfold Database.has_full_registration. rewrite E. reflexivity. Qed.

Lemma event_exists_same_events (e : string) (d d' : DB) :
  events d' = events d -> Database.event_exists e d' = Database.event_exists e d.
Proof. intros E. unfold Database.event_exists. rewrite E. reflexivity. Qed.

Lemma ensure_participant_stub_fresh (t : Z) (e : string) (u : Z) (a b c : option string)
    (d d' : DB) :
  Database.ensure_participant_stub t e u a b c d = Ok d' ->
  get_participant e u d = None ->
  get_participant e u d'
  = Some (Database.coalesce_identity (norm_username a) b c
            (Database.stub_row t e u (norm_username a) b c)).
Proof.
  unfold Database.ensure_participant_stub, get_participant, fetchone. intros H Hn.
  assert (E : existsb (Database.is_participant e u) (participants d) = false)
    by (apply find_none_existsb; exact Hn).
  rewrite E in H. destruct (Database.event_exists e d); [|discriminate].
  inversion H; subst d'; clear H. simpl.
  rewrite find_sql_update_same by (intros; assumption).
  rewrite (find_app_miss _ _ _ Hn). simpl.
  unfold Database.is_participant. simpl. rewrite String.eqb_refl, Z.eqb_refl.
  reflexivity.
Qed.

Lemma ensure_participant_stub_not_registered (t : Z) (e : string) (u : Z)
    (a b c : option string) (d d' : DB) :
  Database.ensure_participant_stub t e u a b c d = Ok d' ->
  Database.has_full_registration e u d = false ->
  Database.has_full_registration e u d' = false.
Proof.
  intros H Hf. unfold Database.has_full_registration in *.
  destruct (fetchone (Database.is_participant e u) (participants d)) as [r|] eqn:F.
  - pose proof (ensure_participant_stub_row _ _ _ _ _ _ _ _ _ H F) as Hr.
    unfold get_participant in Hr. rewrite Hr. exact Hf.
  - pose proof (ensure_participant_stub_fresh _ _ _ _ _ _ _ _ H F) as Hr.
    unfold get_participant in Hr. rewrite Hr. reflexivity.
Qed.

Lemma cmd_start_join (env : Env) (user : User) (a : string) (rest : list string) (w : World)
    (d1 : DB) :
  Database.event_exists (PyStr.strip a) (w_db w) = true ->
  Database.is_admin (PyStr.strip a) (id user) (w_db w) = false ->
  Database.has_full_registration (PyStr.strip a) (id user) (w_db w) = false ->
  Database.ensure_participant_stub (now env) (PyStr.strip a) (id user) (user_username user)
    (user_first_name user) (user_last_name user) (w_db w) = Ok d1 ->
  run (cmd_start user (a :: rest)) env w
  = {| w_db := Database.set_user_state (now env) (id user) (Some "reg_full_name")
                 (Some (registration_payload (PyStr.strip a) "hub_joined"))
                 (Database.set_current_event (now env) (id user) (Some (PyStr.strip a)) d1);
       w_jobs := w_jobs w;
       w_out := w_out w ++ [reply_text (txt "reg_full_name_prompt")] |}.
Proof.
  intros Hex Hadm Hfull Hd1.
  pose proof (ensure_participant_stub_events _ _ _ _ _ _ _ _ Hd1) as He1.
  pose proof (ensure_participant_stub_not_registered _ _ _ _ _ _ _ _ Hd1 Hfull) as Hf1.
  set (e := PyStr.strip a) in *.
  set (d2 := Database.set_current_event (now env) (id user) (Some e) d1).
  assert (Hadm2 : Database.is_admin e (id user) d2 = false).
  { rewrite (is_admin_same_events e (id user) (w_db w) d2); [exact Hadm|].
    unfold d2. rewrite events_set_current_event. exact He1. }
  assert (Hf2 : Database.has_full_registration e (id user) d2 = false).
  { rewrite (has_full_registration_same e (id user) d1 d2); [exact Hf1|].
    unfold d2. apply participants_set_current_event. }
  unfold cmd_start, open_event. fold e. hsimp.
  hrewrite Hex. hrewrite Hd1. fold d2. hrewrite Hadm2. hrewrite Hf2. reflexivity.
Qed.

Lemma on_text_reg_full_name (env : Env) (user : User) (text : option string) (w : World)
    (payload : Payload) (e : string) :
  Database.get_user_state (id user) (w_db w) = (Some "reg_full_name", payload) ->
  is_cancel env (text_of text) = false ->
  pl_event_id payload = Some e ->
  e <> "" ->
  Database.event_exists e (w_db w) = true ->
  (2 <= String.length (text_of text))%nat ->
  run (on_text user text) env w
  = {| w_db := Database.set_user_state (now env) (id user) (Some "reg_phone")
                 (Some (with_full_name (text_of text) payload)) (w_db w);
       w_jobs := w_jobs w;
       w_out := w_out w ++ [reply_text (txt "reg_phone_prompt")] |}.
Proof.
  intros Hst Hc He Hne Hex Hlen. on_text_at Hst Hc.
  rewrite He. unfold db.event_exists, db.sel. rewrite run_query_bind, Hex.
  cbn [py_true]. apply truthy_true in Hne. rewrite Hne. cbn [negb orb].
  assert (L : (String.length (text_of text) <? 2)%nat = false) by (apply Nat.ltb_ge; exact Hlen).
  rewrite L, strip_text_of. rewrite <- He. reflexivity.
Qed.

Lemma on_text_reg_company (env : Env) (user : User) (text : option string) (w : World)
    (payload : Payload) (e : string) (ev : event_row) :
  Database.get_user_state (id user) (w_db w) = (Some "reg_company", payload) ->
  is_cancel env (text_of text) = false ->
  pl_event_id payload = Some e ->
  Database.get_event e (w_db w) = Some ev ->
  (2 <= String.length (text_of text))%nat ->
  run (on_text user text) env w
  = {| w_db :=
         Database.set_current_event (now env) (id user) (Some e)
           (Database.set_user_state (now env) (id user) None None
              (Database.set_registration_info e (id user)
                 (PyStr.strip (opt_default (pl_full_name payload) ""))
                 (opt_default (pl_phone_number payload) "") (text_of text) (w_db w)));
       w_jobs := w_jobs w;
       w_out := w_out w ++ [reply_text (txt "reg_saved");
                            entered_event ev (Database.is_admin e (id user) (w_db w))] |}.
Proof.
  intros Hst Hc He Hev Hlen. on_text_at Hst Hc. rewrite strip_text_of.
  assert (L : (String.length (text_of text) <? 2)%nat = false) by (apply Nat.ltb_ge; exact Hlen).
  rewrite L, He.
  set (d1 := Database.set_registration_info e (id user)
               (PyStr.strip (opt_default (pl_full_name payload) ""))
               (opt_default (pl_phone_number payload) "") (text_of text) (w_db w)).
  set (d2 := Database.set_user_state (now env) (id user) None None d1).
  assert (E2 : events d2 = events (w_db w))
    by (unfold d2; rewrite events_set_user_state; reflexivity).
  pose proof (show_event_menu_run env user e (opt_default (pl_src payload) "hub_joined")
                {| w_db := d2; w_jobs := w_jobs w;
                   w_out := w_out w ++ [reply_text (txt "reg_saved")] |} ev) as Hm.
  cbn [w_db w_jobs w_out] in Hm.
  rewrite (get_event_same_events e (w_db w) d2 E2) in Hm. specialize (Hm Hev).
  rewrite (is_admin_same_events e (id user) (w_db w) d2 E2) in Hm.
  rewrite <- app_assoc in Hm. cbn [app] in Hm.
  unfold run. hsimp. fold d1 d2. rewrite Hm. reflexivity.
Qed.

Lemma get_event_exists (e : string) (d : DB) (ev : event_row) :
  Database.get_event e d = Some ev -> Database.event_exists e d = true.
Proof.
  unfold Database.get_event, Database.event_exists, fetchone. intros H.
  apply find_some_existsb.
  destruct (find (Database.is_event e) (events d)) as [r|]; [eauto | discriminate].
Qed.

Lemma truthy_length (s : string) : (2 <= String.length s)%nat -> PyStr.truthy s = true.
Proof. destruct s; simpl; [lia | reflexivity]. Qed.

Lemma nonblank_phone (s phone : string) :
  norm_phone (Some s) = Some phone ->
  norm_phone (Some phone) = Some phone /\ Database.nonblank (Some phone) = true.
Proof.
  intros H. destruct (norm_phone_chars s phone H) as [Hne Hp].
  split; [apply norm_phone_fixed; assumption|].
  unfold Database.nonblank. rewrite (strip_visible phone_char phone phone_char_visible Hp).
  apply truthy_true. exact Hne.
Qed.

(** X21: a registration from the invite link to the saved row.  A user
    who is neither the organizer of the event nor fully registered for it
    opens the invite link, sends a full name of at least two characters,
    shares their own contact with a readable phone number and sends a
    company of at least two characters.  They are asked for the three
    items in this order; at the end they are fully registered with the
    trimmed name, the normalised phone number and the trimmed company, the
    flow is over, the event is their current event, and the menu is shown
    in the role of a participant. *)
Theorem registration_completes (user : User) (env1 env2 env3 env4 : Env) (link : string)
    (name : option string) (c : option Z) (p : option string) (company : option string)
    (w : World) (e : string) (ev : event_row) (phone : string) :
  PyStr.strip link = e ->
  e <> "" ->
  Database.get_event e (w_db w) = Some ev ->
  Database.is_admin e (id user) (w_db w) = false ->
  Database.has_full_registration e (id user) (w_db w) = false ->
  is_cancel env2 (text_of name) = false ->
  (2 <= String.length (text_of name))%nat ->
  own_contact (id user) c ->
  contact_phone_number p = Some phone ->
  is_cancel env4 (text_of company) = false ->
  (2 <= String.length (text_of company))%nat ->
  let w' := run_all (registration_session user env1 env2 env3 env4 link name c p company) w in
  Database.has_full_registration e (id user) (w_db w') = true
  /\ (exists r,
        get_participant e (id user) (w_db w') = Some r
        /\ full_name r = Some (text_of name)
        /\ phone_number r = Some phone
        /\ company_name r = Some (text_of company))
  /\ Database.get_user_state (id user) (w_db w') = (None, empty_payload)
  /\ Database.get_current_event (id user) (w_db w') = Some e
  /\ w_out w'
     = w_out w ++ [reply_text (txt "reg_full_name_prompt");
                   reply_text (txt "reg_phone_prompt");
                   reply_text (txt "reg_company_prompt");
                   reply_text (txt "reg_saved");
                   entered_event ev false].
Proof.
  intros Hl Hne Hev Hadm Hfull Hc2 Hn Hown Hp Hc4 Hco w'. subst w' e.
  set (e := PyStr.strip link) in *.
  pose proof (get_event_exists e (w_db w) ev Hev) as Hex.
  destruct (ensure_participant_stub_returns (now env1) e (id user) (user_username user)
              (user_first_name user) (user_last_name user) (w_db w) Hex) as [d1 Hd1].
  pose proof (ensure_participant_stub_events _ _ _ _ _ _ _ _ Hd1) as He1.
  destruct (ensure_participant_stub_present _ _ _ _ _ _ _ _ Hd1) as [r1 Hr1].
  unfold registration_session. cbn [run_all handle].
  (* the invite link *)
  rewrite (cmd_start_join env1 user link [] w d1 Hex Hadm Hfull Hd1). fold e.
  set (pl1 := registration_payload e "hub_joined").
  set (w1 := {| w_db := Database.set_user_state (now env1) (id user) (Some "reg_full_name")
                          (Some pl1)
                          (Database.set_current_event (now env1) (id user) (Some e) d1);
                w_jobs := w_jobs w;
                w_out := w_out w ++ [reply_text (txt "reg_full_name_prompt")] |}).
  assert (E1 : events (w_db w1) = events (w_db w)).
  { unfold w1. cbn [w_db]. rewrite events_set_user_state, events_set_current_event.
    exact He1. }
  assert (P1 : participants (w_db w1) = participants d1).
  { unfold w1. cbn [w_db].
    rewrite participants_set_user_state, participants_set_current_event. reflexivity. }
  (* the full name *)
  rewrite (on_text_reg_full_name env2 user name w1 pl1 e
             (get_user_state_set_same _ _ _ _ _) Hc2 eq_refl Hne
             (eq_trans (event_exists_same_events e (w_db w) (w_db w1) E1) Hex) Hn).
  set (pl2 := with_full_name (text_of name) pl1).
  set (w2 := {| w_db := Database.set_user_state (now env2) (id user) (Some "reg_phone")
                          (Some pl2) (w_db w1);
                w_jobs := w_jobs w1;
                w_out := w_out w1 ++ [reply_text (txt "reg_phone_prompt")] |}).
  (* the contact *)
  rewrite (on_contact_accepts env3 user c p w2 pl2 phone
             (get_user_state_set_same _ _ _ _ _) Hown Hp).
  set (pl3 := with_phone_number phone pl2).
  set (w3 := {| w_db := Database.set_user_state (now env3) (id user) (Some "reg_company")
                          (Some pl3) (w_db w2);
                w_jobs := w_jobs w2;
                w_out := w_out w2 ++ [reply_text (txt "reg_company_prompt")] |}).
  assert (E3 : events (w_db w3) = events (w_db w)).
  { unfold w3, w2. cbn [w_db]. rewrite !events_set_user_state. exact E1. }
  assert (P3 : participants (w_db w3) = participants d1).
  { unfold w3, w2. cbn [w_db]. rewrite !participants_set_user_state. exact P1. }
  (* the company *)
  rewrite (on_text_reg_company env4 user company w3 pl3 e ev
             (get_user_state_set_same _ _ _ _ _) Hc4 eq_refl
             (eq_trans (get_event_same_events e (w_db w) (w_db w3) E3) Hev) Hco).
  rewrite (is_admin_same_events e (id user) (w_db w) (w_db w3) E3), Hadm.
  cbn [w_db w_jobs w_out pl3 pl2 pl1 with_phone_number with_full_name registration_payload
       pl_full_name pl_phone_number opt_default].
  rewrite strip_text_of.
  set (d3' := Database.set_registration_info e (id user) (text_of name) phone
                (text_of company) (w_db w3)).
  set (d4 := Database.set_user_state (now env4) (id user) None None d3').
  set (d5 := Database.set_current_event (now env4) (id user) (Some e) d4).
  destruct (nonblank_phone _ phone Hp) as [Hph Hnb].
  assert (R5 : get_participant e (id user) d5
               = Some {| p_event_id := p_event_id r1; p_telegram_id := p_telegram_id r1;
                         username := username r1; first_name := first_name r1;
                         last_name := last_name r1;
                         full_name := Some (text_of name);
                         phone_number := Some phone;
                         company_name := Some (text_of company);
                         registered_at := registered_at r1 |}).
  { unfold get_participant, fetchone, d5, d4.
    rewrite participants_set_current_event, participants_set_user_state.
    unfold d3', Database.set_registration_info.
    cbn [participants Database.with_participants]. rewrite P3.
    rewrite find_sql_update_same by (intros; assumption).
    unfold get_participant, fetchone in Hr1. rewrite Hr1. cbn [option_map].
    rewrite !strip_text_of, Hph. reflexivity. }
  split.
  { unfold Database.has_full_registration. unfold get_participant in R5. rewrite R5.
    cbn [full_name phone_number company_name]. rewrite Hnb.
    unfold Database.nonblank. rewrite !strip_text_of.
    rewrite (truthy_length _ Hn), (truthy_length _ Hco). reflexivity. }
  split; [eexists; split; [exact R5 | repeat split]|].
  split.
  { unfold Database.get_user_state, d5. rewrite user_state_set_current_event.
    exact (get_user_state_clear (now env4) (id user) None d3'). }
  split.
  { unfold d5. rewrite get_current_event_set_same.
    apply truthy_true in Hne. rewrite Hne. reflexivity. }
  unfold w3, w2, w1. cbn [w_out]. rewrite <- !app_assoc. reflexivity.
Qed.

Lemma registration_completes_witness :
  Database.has_full_registration "EV_k3Jx" 20
    (w_db (run_all (registration_session guest sample_env sample_env sample_env sample_env
                      " EV_k3Jx" (Some "Gus Guest") (Some 20) (Some "+49 170 1234567")
                      (Some "Acme"))
             sample_world)) = true.
Proof.
  eapply (registration_completes guest sample_env sample_env sample_env sample_env
            " EV_k3Jx" (Some "Gus Guest") (Some 20) (Some "+49 170 1234567") (Some "Acme")
            sample_world "EV_k3Jx" _ "+491701234567").
  all: first [reflexivity | discriminate | simpl; lia | right; reflexivity].
Defined.

(** ** The invite link outside a registration *)

Lemma ensure_participant_stub_keeps_full (t : Z) (e : string) (u : Z)
    (a b c : option string) (d d' : DB) :
  Database.ensure_participant_stub t e u a b c d = Ok d' ->
  Database.has_full_registration e u d = true ->
  Database.has_full_registration e u d' = true.
Proof.
  intros H Hf. unfold Database.has_full_registration in *.
  destruct (fetchone (Database.is_participant e u) (participants d)) as [r|] eqn:F;
    [|discriminate].
  pose proof (ensure_participant_stub_row _ _ _ _ _ _ _ _ _ H F) as Hr.
  unfold get_participant in Hr. rewrite Hr. exact Hf.
Qed.

(** X22: the invite link outside a registration.  A link to an event that
    does not exist is answered with [invalid_event_link] and changes
    nothing.  A link to an existing event opened by its organizer, or by a
    participant who is fully registered, asks for nothing: the caller has a
    participant row, the event becomes the current event, the menu is shown
    in the caller's role, and the persisted flow state is as it was. *)
Theorem invite_link_without_registration (env : Env) (user : User) (a : string)
    (rest : list string) (w : World) :
  let e := PyStr.strip a in
  let w' := run (cmd_start user (a :: rest)) env w in
  (Database.event_exists e (w_db w) = false ->
     w' = said w (reply_text (txt "invalid_event_link")))
  /\ (forall ev,
        Database.get_event e (w_db w) = Some ev ->
        e <> "" ->
        Database.is_admin e (id user) (w_db w)
        || Database.has_full_registration e (id user) (w_db w) = true ->
        (exists r, get_participant e (id user) (w_db w') = Some r)
        /\ Database.has_full_registration e (id user) (w_db w')
           = Database.has_full_registration e (id user) (w_db w)
        /\ Database.get_current_event (id user) (w_db w') = Some e
        /\ user_state (w_db w') = user_state (w_db w)
        /\ w_out w' = w_out w ++ [entered_event ev (Database.is_admin e (id user) (w_db w))]).
Proof.
  cbv zeta. set (e := PyStr.strip a). split.
  - intros Hex. unfold cmd_start. fold e. hsimp. hrewrite Hex. reflexivity.
  - intros ev Hev Hne Hrole.
    pose proof (get_event_exists e (w_db w) ev Hev) as Hex.
    destruct (ensure_participant_stub_returns (now env) e (id user) (user_username user)
                (user_first_name user) (user_last_name user) (w_db w) Hex) as [d1 Hd1].
    pose proof (ensure_participant_stub_events _ _ _ _ _ _ _ _ Hd1) as He1.
    destruct (ensure_participant_stub_present _ _ _ _ _ _ _ _ Hd1) as [r1 Hr1].
    set (d2 := Database.set_current_event (now env) (id user) (Some e) d1).
    assert (E2 : events d2 = events (w_db w))
      by (unfold d2; rewrite events_set_current_event; exact He1).
    assert (P2 : participants d2 = participants d1)
      by (unfold d2; apply participants_set_current_event).
    assert (Hfull1 : Database.has_full_registration e (id user) d1
                     = Database.has_full_registration e (id user) (w_db w)).
    { destruct (Database.has_full_registration e (id user) (w_db w)) eqn:F.
      - apply (ensure_participant_stub_keeps_full _ _ _ _ _ _ _ _ Hd1 F).
      - apply (ensure_participant_stub_not_registered _ _ _ _ _ _ _ _ Hd1 F). }
    assert (Hbranch : negb (Database.is_admin e (id user) d2)
                      && negb (Database.has_full_registration e (id user) d2) = false).
    { rewrite (is_admin_same_events e (id user) (w_db w) d2 E2).
      rewrite (has_full_registration_same e (id user) d1 d2 P2), Hfull1.
      destruct (Database.is_admin e (id user) (w_db w)); [reflexivity|].
      simpl in Hrole. rewrite Hrole. reflexivity. }
    pose proof (show_event_menu_run env user e "hub_joined"
                  {| w_db := d2; w_jobs := w_jobs w; w_out := w_out w |} ev) as Hm.
    cbn [w_db w_jobs w_out] in Hm.
    rewrite (get_event_same_events e (w_db w) d2 E2) in Hm. specialize (Hm Hev).
    rewrite (is_admin_same_events e (id user) (w_db w) d2 E2) in Hm.
    assert (G : run (cmd_start user (a :: rest)) env w
                = {| w_db := Database.set_current_event (now env) (id user) (Some e) d2;
                     w_jobs := w_jobs w;
                     w_out := w_out w
                              ++ [entered_event ev (Database.is_admin e (id user) (w_db w))] |}).
    { unfold cmd_start, open_event. fold e. unfold run. hsimp.
      hrewrite Hex. hrewrite Hd1. fold d2. hrewrite Hbranch. rewrite Hm. reflexivity. }
    rewrite G. cbn [w_db w_out].
    split.
    { exists r1. unfold get_participant in *.
      rewrite participants_set_current_event, P2. exact Hr1. }
    split.
    { rewrite (has_full_registration_same e (id user) d2);
        [|apply participants_set_current_event].
      rewrite (has_full_registration_same e (id user) d1 d2 P2). exact Hfull1. }
    split.
    { rewrite get_current_event_set_same. apply truthy_true in Hne. rewrite Hne.
      reflexivity. }
    split; [|reflexivity].
    unfold d2. rewrite !user_state_set_current_event.
    clear -Hd1. db_untouched.
Qed.

Lemma invite_link_without_registration_witness :
  run (cmd_start guest ["EV_none"]) sample_env sample_world
    = said sample_world (reply_text (txt "invalid_event_link"))
  /\ w_out (run (cmd_start organizer ["EV_k3Jx"]) sample_env sample_world)
     = [entered_event {| ev_event_id := "EV_k3Jx"; ev_event_name := "Launch";
                         ev_admin_id := 10; ev_created_at := 1766000000000000 |} true].
Proof.
  split.
  - apply (invite_link_without_registration sample_env guest "EV_none" [] sample_world).
    reflexivity.
  - apply (invite_link_without_registration sample_env organizer "EV_k3Jx" [] sample_world);
      [reflexivity | discriminate | reflexivity].
Defined.

(** ** The feedback summary *)

Lemma count_occ_rating (v : Z) (rows : list feedback_row) :
  count_occ Z.eq_dec (map rating rows) v
  = List.length (filter (fun r => Z.eqb (rating r) v) rows).
Proof.
  induction rows as [|r rows IH]; simpl; [reflexivity|].
  destruct (Z.eq_dec (rating r) v) as [E|N].
  - apply Z.eqb_eq in E. rewrite E. simpl. rewrite IH. reflexivity.
  - apply Z.eqb_neq in N. rewrite N. exact IH.
Qed.

(** The loop over the groups of distinct ratings. *)
Lemma pick_counts_groups (cnt : Z -> Z) (l : list Z) (acc : Z * Z) :
  NoDup l ->
  fold_left pick_counts (map (fun r => (r, cnt r)) l) acc
  = (if in_dec Z.eq_dec 1 l then cnt 1 else fst acc,
     if in_dec Z.eq_dec (-1) l then cnt (-1) else snd acc).
Proof.
  intros Hnd. revert acc. induction Hnd as [|x l Hx Hnd IH]; intros acc.
  - destruct acc. reflexivity.
  - cbn [map fold_left]. rewrite IH. unfold pick_counts. cbn [fst snd].
    destruct (Z.eqb_spec x 1) as [->|N1].
    + destruct (in_dec Z.eq_dec 1 l) as [I|_]; [contradiction|].
      destruct (in_dec Z.eq_dec 1 (1 :: l)) as [_|N]; [|exfalso; apply N; left; reflexivity].
      cbn [fst snd]. f_equal.
      destruct (in_dec Z.eq_dec (-1) l) as [I|N]; destruct (in_dec Z.eq_dec (-1) (1 :: l))
        as [I'|N']; try reflexivity.
      * exfalso. apply N'. right. exact I.
      * destruct I' as [E|I']; [discriminate | contradiction].
    + destruct (Z.eqb_spec x (-1)) as [->|N2].
      * destruct (in_dec Z.eq_dec (-1) l) as [I|_]; [contradiction|].
        destruct (in_dec Z.eq_dec (-1) (-1 :: l)) as [_|N];
          [|exfalso; apply N; left; reflexivity].
        cbn [fst snd]. f_equal.
        destruct (in_dec Z.eq_dec 1 l) as [I|N]; destruct (in_dec Z.eq_dec 1 (-1 :: l))
          as [I'|N']; try reflexivity.
        -- exfalso. apply N'. right. exact I.
        -- destruct I' as [E|I']; [discriminate | contradiction].
      * f_equal.
        -- destruct (in_dec Z.eq_dec 1 l) as [I|N]; destruct (in_dec Z.eq_dec 1 (x :: l))
             as [I'|N']; try reflexivity.
           ++ exfalso. apply N'. right. exact I.
           ++ destruct I' as [E|I']; [congruence | contradiction].
        -- destruct (in_dec Z.eq_dec (-1) l) as [I|N];
             destruct (in_dec Z.eq_dec (-1) (x :: l)) as [I'|N']; try reflexivity.
           ++ exfalso. apply N'. right. exact I.
           ++ destruct I' as [E|I']; [congruence | contradiction].
Qed.

Lemma summary_votes (e : string) (d : DB) :
  fs_up (get_feedback_summary e d) = votes e 1 d
  /\ fs_down (get_feedback_summary e d) = votes e (-1) d.
Proof.
  unfold get_feedback_summary, group_by_rating, votes. cbn [fs_up fs_down].
  set (rows := feedback_of e d).
  rewrite (pick_counts_groups
             (fun r => Z.of_nat (count_occ Z.eq_dec (map rating rows) r))
             (nodup Z.eq_dec (map rating rows)) (0, 0) (NoDup_nodup _ _)).
  cbn [fst snd]. rewrite <- !count_occ_rating. split.
  - destruct (in_dec Z.eq_dec 1 (nodup Z.eq_dec (map rating rows))) as [_|N];
      [reflexivity|].
    rewrite nodup_In in N. apply (count_occ_not_In Z.eq_dec) in N. rewrite N. reflexivity.
  - destruct (in_dec Z.eq_dec (-1) (nodup Z.eq_dec (map rating rows))) as [_|N];
      [reflexivity|].
    rewrite nodup_In in N. apply (count_occ_not_In Z.eq_dec) in N. rewrite N. reflexivity.
Qed.

Lemma filter_two_disjoint {A : Type} (p q : A -> bool) (l : list A) :
  (forall x, p x = true -> q x = false) ->
  (List.length (filter p l) + List.length (filter q l) <= List.length l)%nat.
Proof.
  intros H. induction l as [|x l IH]; simpl; [lia|].
  destruct (p x) eqn:P; [rewrite (H x P); simpl; lia|].
  destruct (q x); simpl; lia.
Qed.

(** X23: the feedback summary counts rows.  The number it gives for [up] is
    the number of feedback rows of the event with rating 1, the number for
    [down] is the number with rating -1, the total is their sum, and a row
    with any other rating is in neither: the total is at most the number of
    feedback rows of the event. *)
Theorem feedback_summary_counts (e : string) (d : DB) :
  fs_up (get_feedback_summary e d) = votes e 1 d
  /\ fs_down (get_feedback_summary e d) = votes e (-1) d
  /\ fs_total (get_feedback_summary e d)
     = fs_up (get_feedback_summary e d) + fs_down (get_feedback_summary e d)
  /\ fs_total (get_feedback_summary e d) <= Z.of_nat (List.length (feedback_of e d)).
Proof.
  destruct (summary_votes e d) as [Hu Hd].
  split; [exact Hu|]. split; [exact Hd|]. split; [reflexivity|].
  change (fs_total (get_feedback_summary e d))
    with (fs_up (get_feedback_summary e d) + fs_down (get_feedback_summary e d)).
  rewrite Hu, Hd. unfold votes.
  pose proof (filter_two_disjoint (fun r => Z.eqb (rating r) 1)
                (fun r => Z.eqb (rating r) (-1)) (feedback_of e d)) as H.
  assert ((forall x : feedback_row, (rating x =? 1) = true -> (rating x =? -1) = false))
    as Hdis by (intros x Hx; apply Z.eqb_eq in Hx; rewrite Hx; reflexivity).
  specialize (H Hdis). lia.
Qed.

Lemma votes_is_vote (e : string) (v : Z) (d : DB) :
  votes e v d = Z.of_nat (List.length (filter (is_vote e v) (feedback d))).
Proof.
  unfold votes, feedback_of, is_vote. f_equal.
  induction (feedback d) as [|r l IH]; simpl; [reflexivity|].
  destruct (String.eqb (f_event_id r) e); simpl; [|exact IH].
  destruct (Z.eqb (rating r) v); simpl; rewrite IH; reflexivity.
Qed.

Lemma filter_nil_find {A : Type} (p : A -> bool) (l : list A) :
  filter p l = [] -> find p l = None /\ existsb p l = false.
Proof.
  induction l as [|x l IH]; simpl; [auto|].
  destruct (p x); [discriminate | exact IH].
Qed.

Lemma is_vote_rerated (e : string) (u : Z) (v r : Z) (c : option string) (t : Z)
    (x : feedback_row) :
  Database.is_feedback e u x = true ->
  Z.b2z (is_vote e v (rerated r c t x)) = counts_as v (Some r)
  /\ Z.b2z (is_vote e v x) = counts_as v (Some (rating x))
  /\ forall e', e' <> e -> is_vote e' v (rerated r c t x) = false /\ is_vote e' v x = false.
Proof.
  unfold Database.is_feedback, is_vote, rerated, counts_as. cbn [f_event_id rating].
  intros H. apply andb_true_iff in H. destruct H as [He _]. rewrite He.
  split; [destruct (r =? v); reflexivity|].
  split; [destruct (rating x =? v); reflexivity|].
  intros e' Hne. apply String.eqb_eq in He. rewrite He.
  assert (E : String.eqb e e' = false) by (apply String.eqb_neq; congruence).
  rewrite E. split; reflexivity.
Qed.

Lemma length_filter_cons {A : Type} (q : A -> bool) (x : A) (l : list A) :
  Z.of_nat (List.length (filter q (x :: l)))
  = Z.b2z (q x) + Z.of_nat (List.length (filter q l)).
Proof.
  cbn [filter]. destruct (q x); cbn [List.length Z.b2z]; rewrite ?Nat2Z.inj_succ; lia.
Qed.

Lemma votes_sql_update (e : string) (u : Z) (v r : Z) (c : option string) (t : Z)
    (l : list feedback_row) :
  (List.length (filter (Database.is_feedback e u) l) <= 1)%nat ->
  Z.of_nat (List.length (filter (is_vote e v)
                           (sql_update (Database.is_feedback e u) (rerated r c t) l)))
  = Z.of_nat (List.length (filter (is_vote e v) l))
    - counts_as v (option_map rating (find (Database.is_feedback e u) l))
    + (if existsb (Database.is_feedback e u) l then counts_as v (Some r) else 0).
Proof.
  induction l as [|x l IH]; intros Hle; [reflexivity|].
  unfold sql_update in *. cbn [map find existsb].
  rewrite !length_filter_cons.
  destruct (Database.is_feedback e u x) eqn:P.
  - cbn [filter] in Hle. rewrite P in Hle. cbn [List.length] in Hle.
    assert (F : filter (Database.is_feedback e u) l = [])
      by (destruct (filter (Database.is_feedback e u) l); [reflexivity | simpl in Hle; lia]).
    destruct (filter_nil_find _ _ F) as [Hfind Hex].
    rewrite IH by (rewrite F; simpl; lia). rewrite Hfind, Hex.
    destruct (is_vote_rerated e u v r c t x P) as [H1 [H2 _]].
    rewrite H1, H2. cbn [option_map orb counts_as]. lia.
  - cbn [filter] in Hle. rewrite P in Hle.
    rewrite IH by exact Hle. cbn [orb]. lia.
Qed.

Lemma votes_sql_update_other (e e' : string) (u : Z) (v r : Z) (c : option string) (t : Z)
    (l : list feedback_row) :
  e' <> e ->
  filter (is_vote e' v) (sql_update (Database.is_feedback e u) (rerated r c t) l)
  = filter (is_vote e' v) l.
Proof.
  intros Hne. unfold sql_update. induction l as [|x l IH]; [reflexivity|].
  cbn [map filter]. rewrite IH.
  destruct (Database.is_feedback e u x) eqn:P; [|reflexivity].
  destruct (is_vote_rerated e u v r c t x P) as [_ [_ H]].
  destruct (H e' Hne) as [H1 H2]. rewrite H1, H2. reflexivity.
Qed.

Lemma set_feedback_votes (t : Z) (e : string) (u : Z) (r : Z) (c : option string)
    (d d' : DB) (v : Z) :
  (List.length (filter (Database.is_feedback e u) (feedback d)) <= 1)%nat ->
  Database.set_feedback t e u r c d = Ok d' ->
  votes e v d' = votes e v d - counts_as v (stored_rating e u d) + counts_as v (Some r)
  /\ forall e', e' <> e -> votes e' v d' = votes e' v d.
Proof.
  intros Hu H. rewrite !votes_is_vote.
  unfold stored_rating, Database.get_feedback, fetchone.
  unfold Database.set_feedback in H.
  destruct (existsb (Database.is_feedback e u) (feedback d)) eqn:E.
  - inversion H; subst d'; clear H. cbn [feedback Database.with_feedback].
    change (fun r0 : feedback_row =>
              {| f_event_id := f_event_id r0; f_telegram_id := f_telegram_id r0;
                 rating := r; comment := coalesce c (comment r0);
                 f_created_at := isoformat_seconds t |})
      with (rerated r c t).
    split.
    + rewrite (votes_sql_update e u v r c t (feedback d) Hu), E. reflexivity.
    + intros e' Hne. rewrite !votes_is_vote. cbn [feedback Database.with_feedback].
      rewrite (votes_sql_update_other e e' u v r c t (feedback d) Hne). reflexivity.
  - destruct (Database.event_exists e d); [|discriminate].
    inversion H; subst d'; clear H. cbn [feedback Database.with_feedback].
    apply find_none_existsb in E. rewrite E. cbn [option_map counts_as].
    split.
    + rewrite filter_app, length_app, Nat2Z.inj_add.
      unfold is_vote at 2, counts_as. cbn [filter f_event_id rating].
      rewrite String.eqb_refl. cbn [andb]. destruct (r =? v); simpl; lia.
    + intros e' Hne. rewrite !votes_is_vote. cbn [feedback Database.with_feedback].
      rewrite filter_app. unfold is_vote at 2. cbn [filter f_event_id rating].
      assert (S : String.eqb e e' = false) by (apply String.eqb_neq; congruence).
      rewrite S. cbn [andb]. rewrite app_nil_r. reflexivity.
Qed.

(** X24: a rating counts once per participant.  In a store with at most
    one feedback row per (event, user), a rating given with [set_feedback]
    changes the summary of the event by exactly that participant's vote:
    their earlier rating, if any, leaves the count it was in, and the new
    rating enters its count; the summary of every other event is as it
    was. *)
Theorem rerating_moves_one_vote (t : Z) (e : string) (u : Z) (r : Z) (c : option string)
    (d d' : DB) :
  feedback_unique d ->
  Database.set_feedback t e u r c d = Ok d' ->
  fs_up (get_feedback_summary e d')
    = fs_up (get_feedback_summary e d) - counts_as 1 (stored_rating e u d)
      + counts_as 1 (Some r)
  /\ fs_down (get_feedback_summary e d')
     = fs_down (get_feedback_summary e d) - counts_as (-1) (stored_rating e u d)
       + counts_as (-1) (Some r)
  /\ (forall e', e' <> e -> get_feedback_summary e' d' = get_feedback_summary e' d).
Proof.
  intros Hu H.
  destruct (summary_votes e d) as [U D]. destruct (summary_votes e d') as [U' D'].
  rewrite U, D, U', D'.
  split; [apply (set_feedback_votes t e u r c d d' 1 (Hu e u) H)|].
  split; [apply (set_feedback_votes t e u r c d d' (-1) (Hu e u) H)|].
  intros e' Hne.
  destruct (summary_votes e' d) as [A B]. destruct (summary_votes e' d') as [A' B'].
  pose proof (proj2 (set_feedback_votes t e u r c d d' 1 (Hu e u) H) e' Hne) as V1.
  pose proof (proj2 (set_feedback_votes t e u r c d d' (-1) (Hu e u) H) e' Hne) as V2.
  assert (Eu : fs_up (get_feedback_summary e' d') = fs_up (get_feedback_summary e' d))
    by congruence.
  assert (Ed : fs_down (get_feedback_summary e' d') = fs_down (get_feedback_summary e' d))
    by congruence.
  unfold get_feedback_summary in *. cbn [fs_up fs_down] in Eu, Ed.
  rewrite Eu, Ed. reflexivity.
Qed.

Lemma rerating_moves_one_vote_witness :
  exists d',
    Database.set_feedback 0 "EV_k3Jx" 20 1 None (w_db rated_world) = Ok d'
    /\ fs_up (get_feedback_summary "EV_k3Jx" d') = 1
    /\ fs_down (get_feedback_summary "EV_k3Jx" d') = 0.
Proof.
  assert (Hu : feedback_unique (w_db rated_world)).
  { intros e u. unfold rated_world. cbn [w_db feedback Database.with_feedback filter].
    destruct (Database.is_feedback e u _); cbn [List.length]; lia. }
  eexists. split; [reflexivity|].
  destruct (rerating_moves_one_vote 0 "EV_k3Jx" 20 1 None (w_db rated_world) _ Hu eq_refl)
    as [H1 [H2 _]].
  split; [rewrite H1 | rewrite H2]; reflexivity.
Defined.

(** ** The unique keys hold in every store the application reaches *)

Lemma participants_key_kept_refl (d : DB) : participants_key_kept d d.
Proof. intros H. exact H. Qed.

Lemma participants_key_kept_trans (a b c : DB) :
  participants_key_kept a b -> participants_key_kept b c -> participants_key_kept a c.
Proof. unfold participants_key_kept. auto. Qed.

Lemma participants_key_kept_same (d d' : DB) :
  participants d' = participants d -> participants_key_kept d d'.
Proof. intros E H e u. unfold participant_rows. rewrite E. apply H. Qed.

Lemma participants_key_kept_stub (t : Z) (e : string) (u : Z) (a b c : option string)
    (d d' : DB) :
  Database.ensure_participant_stub t e u a b c d = Ok d' -> participants_key_kept d d'.
Proof.
  intros H Hu e' u'.
  destruct (string_dec e' e) as [->|Hne].
  - destruct (Z.eq_dec u' u) as [->|Hne].
    + rewrite (ensure_participant_stub_rows _ _ _ _ _ _ _ _ H (Hu e u)). lia.
    + rewrite (ensure_participant_stub_other_rows _ _ _ _ _ _ _ _ _ _ H) by congruence.
      apply Hu.
  - rewrite (ensure_participant_stub_other_rows _ _ _ _ _ _ _ _ _ _ H) by congruence.
    apply Hu.
Qed.

Lemma participants_key_kept_registration (e : string) (u : Z) (fn ph co : string) (d : DB) :
  participants_key_kept d (Database.set_registration_info e u fn ph co d).
Proof.
  intros Hu e' u'. unfold participant_rows, Database.set_registration_info.
  cbn [participants Database.with_participants].
  rewrite filter_sql_update by (intros; reflexivity).
  rewrite length_sql_update. apply Hu.
Qed.

Lemma participants_key_kept_leave (e : string) (u : Z) (d : DB) :
  participants_key_kept d (Database.leave_event e u d).
Proof.
  intros Hu e' u'. unfold participant_rows, Database.leave_event.
  cbn [participants Database.with_participants].
  eapply Nat.le_trans; [apply length_filter_sql_delete | apply Hu].
Qed.

Lemma participants_key_kept_delete_event (e : string) (d : DB) :
  participants_key_kept d (Database.delete_event e d).
Proof.
  unfold Database.delete_event. destruct (Database.event_exists e d);
    [|apply participants_key_kept_refl].
  intros Hu e' u'. unfold participant_rows. cbn [participants].
  eapply Nat.le_trans; [apply length_filter_sql_delete | apply Hu].
Qed.

Ltac participants_key_leaf :=
  first [ apply participants_key_kept_refl
        | apply participants_key_kept_registration
        | apply participants_key_kept_leave
        | apply participants_key_kept_delete_event
        | eapply participants_key_kept_stub; eassumption
        | apply participants_key_kept_same; db_untouched ].

Lemma handle_keeps_participants_key (env : Env) (u : incoming) :
  keeps participants_key_kept env (handle u).
Proof.
  destruct u; unfold handle.
  all: repeat (keeps_step participants_key_kept_refl participants_key_kept_trans).
  all: try participants_key_leaf.
Qed.

Lemma feedback_key_kept_refl (d : DB) : feedback_key_kept d d.
Proof. intros H. exact H. Qed.

Lemma feedback_key_kept_trans (a b c : DB) :
  feedback_key_kept a b -> feedback_key_kept b c -> feedback_key_kept a c.
Proof. unfold feedback_key_kept. auto. Qed.

Lemma feedback_key_kept_same (d d' : DB) :
  feedback d' = feedback d -> feedback_key_kept d d'.
Proof. intros E H e u. rewrite E. apply H. Qed.

Lemma feedback_key_kept_delete_event (e : string) (d : DB) :
  feedback_key_kept d (Database.delete_event e d).
Proof.
  unfold Database.delete_event. destruct (Database.event_exists e d);
    [|apply feedback_key_kept_refl].
  intros Hu e' u'. cbn [feedback].
  eapply Nat.le_trans; [apply length_filter_sql_delete | apply Hu].
Qed.

Lemma is_feedback_eq (e : string) (u : Z) (r : feedback_row) :
  Database.is_feedback e u r = true <-> f_event_id r = e /\ f_telegram_id r = u.
Proof.
  unfold Database.is_feedback. rewrite andb_true_iff, String.eqb_eq, Z.eqb_eq. tauto.
Qed.

Lemma feedback_key_kept_set (t : Z) (e : string) (u : Z) (r : Z) (c : option string)
    (d d' : DB) :
  Database.set_feedback t e u r c d = Ok d' -> feedback_key_kept d d'.
Proof.
  unfold Database.set_feedback. intros H Hu e' u'.
  destruct (existsb (Database.is_feedback e u) (feedback d)) eqn:E.
  - inversion H; subst d'; clear H. cbn [feedback Database.with_feedback].
    rewrite filter_sql_update by (intros; reflexivity).
    rewrite length_sql_update. apply Hu.
  - destruct (Database.event_exists e d); [|discriminate].
    inversion H; subst d'; clear H. cbn [feedback Database.with_feedback].
    rewrite filter_app, length_app. cbn [filter].
    destruct (Database.is_feedback e' u' _) eqn:N.
    + apply is_feedback_eq in N. cbn [f_event_id f_telegram_id] in N.
      destruct N as [-> ->]. rewrite (filter_none_existsb _ _ E). simpl. lia.
    + specialize (Hu e' u'). simpl. lia.
Qed.

Ltac feedback_key_leaf :=
  first [ apply feedback_key_kept_refl
        | apply feedback_key_kept_delete_event
        | eapply feedback_key_kept_set; eassumption
        | apply feedback_key_kept_same; db_untouched ].

Lemma handle_keeps_feedback_key (env : Env) (u : incoming) :
  keeps feedback_key_kept env (handle u).
Proof.
  destruct u; unfold handle.
  all: repeat (keeps_step feedback_key_kept_refl feedback_key_kept_trans).
  all: try feedback_key_leaf.
Qed.

(** X25: the unique keys hold in every store the application reaches.
    Whatever updates are handled, in whatever order and by whichever users,
    starting from the empty store, the store holds at most one persisted
    state per user, at most one participant row and at most one feedback
    row per (event, user), and no alert key above the AUTOINCREMENT
    counter. *)
Theorem reachable_store_keys (l : list (Env * incoming)) :
  let d := w_db (run_all l initial_world) in
  state_unique d /\ participants_unique d /\ feedback_unique d /\ alert_ids_bounded d.
Proof.
  cbv zeta.
  assert (G : forall l w,
    state_unique (w_db w) /\ participants_unique (w_db w) /\ feedback_unique (w_db w)
    /\ alert_ids_bounded (w_db w) ->
    state_unique (w_db (run_all l w)) /\ participants_unique (w_db (run_all l w))
    /\ feedback_unique (w_db (run_all l w)) /\ alert_ids_bounded (w_db (run_all l w))).
  { clear l. induction l as [|[env u] rest IH]; intros w Hw; cbn [run_all]; [exact Hw|].
    apply IH. destruct Hw as [Hs [Hp [Hf Ha]]].
    split; [apply (handle_keeps_state_key env u w Hs)|].
    split; [apply (handle_keeps_participants_key env u w Hp)|].
    split; [apply (handle_keeps_feedback_key env u w Hf)|].
    apply (handle_keeps_alert_ids env u w Ha). }
  apply G. unfold initial_world, empty_db. cbn [w_db].
  split; [intros u; simpl; lia|].
  split; [intros e u; simpl; lia|].
  split; [intros e u; simpl; lia|].
  intros a Ha. destruct Ha.
Qed.
